(** * OpenClaw SaaS: bot lifecycle, provisioning and credential vault

    A shallow embedding of the JavaScript sources of the repository
    (EncryptionService.js, models/Bot.js, controllers/botController.js,
    the provisioner variants, SimpleBotRunner.js and the webhook route of
    server.js) together with the properties the specification states about
    them.

    Conventions of the embedding:
    - a JavaScript [Error] that is thrown is the [Throw] branch of [outcome];
    - a [Buffer] is a [list byte]; a base64 blob is a [string];
    - a JavaScript object used as a record (a database row, a request body)
      is a [gmap string val];
    - code that reads and writes the database, the in-process registries or
      the network runs in the state-and-exception monad [M] over [World];
      every answer of the outside world (Railway, Telegram, OpenAI) is read
      from an oracle the theorems quantify over. *)

From stdpp Require Import gmap strings list pretty.
From Stdlib Require Import NArith ZArith Lia.
From Stdlib.Strings Require Import Ascii Byte.

Local Ltac Zify.zify_post_hook ::= Z.to_euclidean_division_equations.

(** A computation either returns a value or throws. *)
Inductive outcome (E A : Type) : Type :=
| Ok (a : A)
| Throw (e : E).
Arguments Ok {E A} a.
Arguments Throw {E A} e.

(* ===================================================================== *)
(** * Credential vault (src/services/EncryptionService.js) *)
(* ===================================================================== *)

Module Vault.

Local Open Scope N_scope.

(** ** Byte and text encodings of the platform *)

(** A JavaScript string is a sequence of UTF-16 code units. *)
Definition js_string : Type := list N.

Definition is_high_surrogate (c : N) : bool := (0xD800 <=? c) && (c <=? 0xDBFF).
Definition is_low_surrogate (c : N) : bool := (0xDC00 <=? c) && (c <=? 0xDFFF).

(** A value stored into a [Buffer] cell is reduced modulo 256. *)
Definition byte_of_N (n : N) : byte :=
  match Byte.of_N (n mod 256) with
  | Some b => b
  | None => x00
  end.

Definition utf8_1 (c : N) : list byte := [byte_of_N c].
Definition utf8_2 (c : N) : list byte :=
  [byte_of_N (0xC0 + c / 64); byte_of_N (0x80 + c mod 64)].
Definition utf8_3 (c : N) : list byte :=
  [byte_of_N (0xE0 + c / 4096); byte_of_N (0x80 + (c / 64) mod 64);
   byte_of_N (0x80 + c mod 64)].
Definition utf8_4 (cp : N) : list byte :=
  [byte_of_N (0xF0 + cp / 262144); byte_of_N (0x80 + (cp / 4096) mod 64);
   byte_of_N (0x80 + (cp / 64) mod 64); byte_of_N (0x80 + cp mod 64)].

(** The code point of a surrogate pair. *)
Definition pair_code_point (hi lo : N) : N :=
  0x10000 + (hi - 0xD800) * 1024 + (lo - 0xDC00).

(** U+FFFD, written for every unpaired surrogate. *)
Definition replacement : list byte := utf8_3 0xFFFD.

(** [Buffer.from(text, 'utf8')] and [cipher.update(text, 'utf8', ...)]: the
    UTF-8 bytes of a JavaScript string.  A surrogate pair is one four-byte
    sequence; a surrogate that is not part of a pair is written as U+FFFD. *)
Fixpoint utf8_encode (s : js_string) : list byte :=
  match s with
  | [] => []
  | c :: rest =>
      if c <? 0x80 then utf8_1 c ++ utf8_encode rest
      else if c <? 0x800 then utf8_2 c ++ utf8_encode rest
      else if is_high_surrogate c then
        match rest with
        | d :: rest' =>
            if is_low_surrogate d
            then utf8_4 (pair_code_point c d) ++ utf8_encode rest'
            else replacement ++ utf8_encode rest
        | [] => replacement
        end
      else if is_low_surrogate c then replacement ++ utf8_encode rest
      else utf8_3 c ++ utf8_encode rest
  end.

Definition in_range (lo hi : N) (b : byte) : bool :=
  (lo <=? Byte.to_N b) && (Byte.to_N b <=? hi).
Definition is_continuation (b : byte) : bool := in_range 0x80 0xBF b.

(** The range the second byte of a three-byte sequence must lie in. *)
Definition second_of_3 (b0 : N) (b : byte) : bool :=
  if b0 =? 0xE0 then in_range 0xA0 0xBF b
  else if b0 =? 0xED then in_range 0x80 0x9F b
  else in_range 0x80 0xBF b.

(** The range the second byte of a four-byte sequence must lie in. *)
Definition second_of_4 (b0 : N) (b : byte) : bool :=
  if b0 =? 0xF0 then in_range 0x90 0xBF b
  else if b0 =? 0xF4 then in_range 0x80 0x8F b
  else in_range 0x80 0xBF b.

Definition low6 (b : byte) : N := Byte.to_N b - 0x80.

(** The two code units of a code point above U+FFFF. *)
Definition surrogates_of (cp : N) : js_string :=
  [0xD800 + (cp - 0x10000) / 1024; 0xDC00 + (cp - 0x10000) mod 1024].

(** [buf.toString('utf8')] and the decipher's ['utf8'] output encoding: the
    string a byte sequence decodes to.  Every maximal ill-formed part is
    replaced by one U+FFFD and decoding resumes at the offending byte. *)
Fixpoint utf8_decode (bs : list byte) : js_string :=
  match bs with
  | [] => []
  | b0 :: r0 =>
      let n0 := Byte.to_N b0 in
      if n0 <? 0x80 then n0 :: utf8_decode r0
      else if (0xC2 <=? n0) && (n0 <=? 0xDF) then
        match r0 with
        | b1 :: r1 =>
            if is_continuation b1
            then ((n0 - 0xC0) * 64 + low6 b1) :: utf8_decode r1
            else 0xFFFD :: utf8_decode r0
        | [] => [0xFFFD]
        end
      else if (0xE0 <=? n0) && (n0 <=? 0xEF) then
        match r0 with
        | b1 :: r1 =>
            if second_of_3 n0 b1 then
              match r1 with
              | b2 :: r2 =>
                  if is_continuation b2
                  then ((n0 - 0xE0) * 4096 + low6 b1 * 64 + low6 b2)
                         :: utf8_decode r2
                  else 0xFFFD :: utf8_decode r1
              | [] => [0xFFFD]
              end
            else 0xFFFD :: utf8_decode r0
        | [] => [0xFFFD]
        end
      else if (0xF0 <=? n0) && (n0 <=? 0xF4) then
        match r0 with
        | b1 :: r1 =>
            if second_of_4 n0 b1 then
              match r1 with
              | b2 :: r2 =>
                  if is_continuation b2 then
                    match r2 with
                    | b3 :: r3 =>
                        if is_continuation b3
                        then surrogates_of
                               ((n0 - 0xF0) * 262144 + low6 b1 * 4096
                                + low6 b2 * 64 + low6 b3)
                               ++ utf8_decode r3
                        else 0xFFFD :: utf8_decode r2
                    | [] => [0xFFFD]
                    end
                  else 0xFFFD :: utf8_decode r1
              | [] => [0xFFFD]
              end
            else 0xFFFD :: utf8_decode r0
        | [] => [0xFFFD]
        end
      else 0xFFFD :: utf8_decode r0
  end.

(** A string every surrogate of which is half of a pair (and every code unit
    of which fits 16 bits): the strings UTF-8 can represent. *)
Fixpoint well_formed (s : js_string) : bool :=
  match s with
  | [] => true
  | c :: rest =>
      if is_high_surrogate c then
        match rest with
        | d :: rest' => is_low_surrogate d && well_formed rest'
        | [] => false
        end
      else (c <? 0x10000) && negb (is_low_surrogate c) && well_formed rest
  end.

(** The string with U+FFFD in the place of every surrogate that is not half
    of a pair, and nothing else changed ([String.prototype.toWellFormed]). *)
Fixpoint to_well_formed (s : js_string) : js_string :=
  match s with
  | [] => []
  | c :: rest =>
      if is_high_surrogate c then
        match rest with
        | d :: rest' =>
            if is_low_surrogate d then c :: d :: to_well_formed rest'
            else 0xFFFD :: to_well_formed rest
        | [] => [0xFFFD]
        end
      else if is_low_surrogate c then 0xFFFD :: to_well_formed rest
      else c :: to_well_formed rest
  end.

(** ** Base64 *)

Definition b64_alphabet : list ascii :=
  String.list_ascii_of_string
    "ABCDEFGHIJKLMNOPQRSTUVWXYZabcdefghijklmnopqrstuvwxyz0123456789+/".

Definition b64_char (n : N) : ascii := nth (N.to_nat n) b64_alphabet "="%char.

(** [buf.toString('base64')]: three bytes become four characters; the last
    group is padded with [=]. *)
Fixpoint base64_encode_list (bs : list byte) : list ascii :=
  match bs with
  | [] => []
  | [a] =>
      let n := Byte.to_N a in
      [b64_char (n / 4); b64_char ((n mod 4) * 16); "="%char; "="%char]
  | [a; b] =>
      let n := Byte.to_N a * 256 + Byte.to_N b in
      [b64_char (n / 1024); b64_char ((n / 16) mod 64);
       b64_char ((n mod 16) * 4); "="%char]
  | a :: b :: c :: rest =>
      let n := Byte.to_N a * 65536 + Byte.to_N b * 256 + Byte.to_N c in
      [b64_char (n / 262144); b64_char ((n / 4096) mod 64);
       b64_char ((n / 64) mod 64); b64_char (n mod 64)]
        ++ base64_encode_list rest
  end.

Definition base64_encode (bs : list byte) : string :=
  String.string_of_list_ascii (base64_encode_list bs).

(** The value of a base64 character; the URL-safe [-] and [_] are accepted
    for 62 and 63 as the platform's decoder does. *)
Definition unbase64 (c : ascii) : option N :=
  let n := N_of_ascii c in
  if (65 <=? n) && (n <=? 90) then Some (n - 65)
  else if (97 <=? n) && (n <=? 122) then Some (n - 71)
  else if (48 <=? n) && (n <=? 57) then Some (n + 4)
  else if (n =? 43) || (n =? 45) then Some 62
  else if (n =? 47) || (n =? 95) then Some 63
  else None.

(** The six-bit values of a base64 text: a character outside the alphabet is
    skipped, and [=] ends the text. *)
Fixpoint sextets (s : list ascii) : list N :=
  match s with
  | [] => []
  | c :: r =>
      match unbase64 c with
      | Some n => n :: sextets r
      | None => if Ascii.eqb c "="%char then [] else sextets r
      end
  end.

(** Four six-bit values give three bytes; a last group of three gives two
    bytes and one of two gives one byte, the bits left over being dropped. *)
Fixpoint bytes_of_sextets (l : list N) : list byte :=
  match l with
  | a :: b :: c :: d :: r =>
      [byte_of_N (a * 4 + b / 16); byte_of_N ((b mod 16) * 16 + c / 4);
       byte_of_N ((c mod 4) * 64 + d)] ++ bytes_of_sextets r
  | [a; b; c] =>
      [byte_of_N (a * 4 + b / 16); byte_of_N ((b mod 16) * 16 + c / 4)]
  | [a; b] => [byte_of_N (a * 4 + b / 16)]
  | _ => []
  end.

(** [Buffer.from(text, 'base64')]. *)
Definition base64_decode (s : string) : list byte :=
  bytes_of_sextets (sextets (String.list_ascii_of_string s)).

(** A [string] of this file holds the UTF-8 text of the JavaScript string it
    stands for: the code units of that string, and back. *)
Definition to_js (s : string) : js_string :=
  utf8_decode (String.list_byte_of_string s).
Definition of_js (u : js_string) : string :=
  String.string_of_list_byte (utf8_encode u).

(** ** The service *)

(** The cipher of [crypto.createCipheriv(ENCRYPTION.ALGORITHM, key, iv)],
    AES-256-GCM of the platform's crypto library, by what the service uses
    of it.  [seal key iv plaintext] is the ciphertext and the authentication tag
    ([update], [final], [getAuthTag]), or [None] when the cipher throws;
    [open key iv tag ciphertext] is the plaintext ([setAuthTag], [update],
    [final]), or [None] when the cipher throws, as [final] does for a tag
    that does not verify. *)
Record cipher : Type := {
  seal : list byte -> list byte -> list byte -> option (list byte * list byte);
  open : list byte -> list byte -> list byte -> list byte -> option (list byte)
}.

(** [ENCRYPTION.KEY.padEnd(32, '!').slice(0, 32)] as a buffer. *)
Definition derive_key (KEY : js_string) : list byte :=
  utf8_encode (take 32 (KEY ++ repeat 33 (32 - length KEY)%nat)).

(** [encrypt(text)]; [iv] is what [crypto.randomBytes(16)] returned. *)
Definition encrypt (c : cipher) (key iv : list byte) (text : js_string)
  : outcome string string :=
  match seal c key iv (utf8_encode text) with
  | Some (ct, authTag) =>
      let encrypted := base64_encode ct in
      Ok (base64_encode (iv ++ authTag ++ base64_decode encrypted))
  | None => Throw "Failed to encrypt data"%string
  end.

(** [decrypt(encryptedData)]. *)
Definition decrypt (c : cipher) (key : list byte) (encryptedData : string)
  : outcome string js_string :=
  let data := base64_decode encryptedData in
  let iv := take 16 data in
  let authTag := take 16 (drop 16 data) in
  let encrypted := base64_encode (drop 32 data) in
  match open c key iv authTag (base64_decode encrypted) with
  | Some plain => Ok (utf8_decode plain)
  | None => Throw "Failed to decrypt data"%string
  end.

(** ** What the service relies on from the cipher *)

(** Under the configured key the cipher seals with a 16-byte tag whenever it
    is given a 16-byte nonce, and opens what it sealed. *)
Record aead_correct (c : cipher) (key : list byte) : Prop := {
  seal_succeeds : forall iv pt, length iv = 16%nat ->
    exists ct tag, seal c key iv pt = Some (ct, tag) /\ length tag = 16%nat;
  open_seal : forall iv pt ct tag,
    seal c key iv pt = Some (ct, tag) -> open c key iv tag ct = Some pt
}.






(** ** A reference cipher

    A cipher that meets both contracts, so that they can be met: the
    ciphertext is the plaintext and the tag carries the sum of all nonce and
    ciphertext bytes modulo 256.  It accepts 32-byte keys only, as AES-256
    does. *)

Fixpoint total (bs : list byte) : N :=
  match bs with
  | [] => 0
  | b :: rest => Byte.to_N b + total rest
  end.

Definition checksum_tag (iv ct : list byte) : list byte :=
  byte_of_N (total (iv ++ ct) mod 256) :: replicate 15 x00.

Definition same_bytes (l l' : list byte) : bool :=
  bool_decide (map Byte.to_N l = map Byte.to_N l').

Definition checksum_cipher : cipher := {|
  seal key iv pt :=
    if bool_decide (length key = 32%nat)
    then Some (pt, checksum_tag iv pt) else None;
  open key iv tag ct :=
    if bool_decide (length key = 32%nat) && same_bytes tag (checksum_tag iv ct)
    then Some ct else None
|}.



(** The key when [ENCRYPTION_KEY] is not set (config/constants.js), and a
    nonce to evaluate the service on. *)
Definition default_KEY : js_string := to_js "default-32-char-encryption-key!!".
Definition example_key : list byte := derive_key default_KEY.
Definition example_iv : list byte :=
  map byte_of_N [1; 2; 3; 4; 5; 6; 7; 8; 9; 10; 11; 12; 13; 14; 15; 16].

(** What [encrypt] returns for the plaintext "Hi" under them. *)
Definition example_blob : string :=
  "AQIDBAUGBwgJCgsMDQ4PEDkAAAAAAAAAAAAAAAAAAABIaQ==".





End Vault.

(* ===================================================================== *)
(** * Values, database rows and the world the services run in *)
(* ===================================================================== *)

(** A JavaScript value as the services handle it. *)
Inductive val : Type :=
| VUndef
| VNull
| VBool (b : bool)
| VNum (n : Z)
| VStr (s : string).

#[global] Instance val_eq_dec : EqDecision val.
Proof. solve_decision. Defined.

#[global] Instance val_countable : Countable val.
Proof.
  refine (inj_countable'
            (fun v => match v with
                      | VUndef => inl (inl tt)
                      | VNull => inl (inr tt)
                      | VBool b => inr (inl b)
                      | VNum n => inr (inr (inl n))
                      | VStr s => inr (inr (inr s))
                      end)
            (fun x => match x with
                      | inl (inl _) => VUndef
                      | inl (inr _) => VNull
                      | inr (inl b) => VBool b
                      | inr (inr (inl n)) => VNum n
                      | inr (inr (inr s)) => VStr s
                      end) _).
  by intros [].
Defined.

(** A JavaScript object used as a record: a database row, a request body. *)
Abbreviation row := (gmap string val).

(** [obj.key]: a key the object does not have reads as [undefined]. *)
Definition get (r : row) (k : string) : val := default VUndef (r !! k).

(** The truth value of [v] in a condition. *)
Definition truthy (v : val) : bool :=
  match v with
  | VUndef | VNull => false
  | VBool b => b
  | VNum n => negb (n =? 0)%Z
  | VStr s => negb (bool_decide (s = ""))
  end.

(** [String(v)], also what a template literal inserts for [v]. *)
Definition to_str (v : val) : string :=
  match v with
  | VUndef => "undefined"
  | VNull => "null"
  | VBool true => "true"
  | VBool false => "false"
  | VNum n => pretty n
  | VStr s => s
  end.

(** [a || b] on values. *)
Definition or_else (a b : val) : val := if truthy a then a else b.

Definition to_js : string -> Vault.js_string := Vault.to_js.
Definition of_js : Vault.js_string -> string := Vault.of_js.

(** [s.length]. *)
Definition js_length (s : string) : nat := length (to_js s).

(** A thrown [Error]: its [name], [message], and the [statusCode] and [code]
    properties the error handler looks at. *)
Record error : Type := {
  err_name : string;
  err_message : string;
  err_statusCode : option Z;
  err_code : option string
}.

(** [new Error(message)]. *)
Definition Error (message : string) : error :=
  {| err_name := "Error"; err_message := message;
     err_statusCode := None; err_code := None |}.

(** [new TypeError(message)]. *)
Definition TypeError (message : string) : error :=
  {| err_name := "TypeError"; err_message := message;
     err_statusCode := None; err_code := None |}.

(** [new AppError(message, statusCode)] (middleware/errorHandler.js). *)
Definition AppError (message : string) (statusCode : Z) : error :=
  {| err_name := "AppError"; err_message := message;
     err_statusCode := Some statusCode; err_code := None |}.

(** One turn of a conversation sent to the AI provider. *)
Record turn : Type := { role : string; content : val }.

(** The statements the Bot model sends to [query]. *)
Inductive Sql : Type :=
| InsertBot (cols : row)
| SelectBotById (id : val)
| SelectBotByServiceId (serviceId : val)
| SelectBotsByUser (userId : val)
| UpdateBot (assignments : list (string * val)) (id : val)
| UpdateBotStatus (status id : val)
| UpdateBotRuntime (port pid id : val)
| IncrementMessages (id : val)
| DeleteBot (id : val)
| CountBotsByUser (userId : val)
| CountRunning
| SelectRunning
| SelectBotsByStatus (status : val).

(** The requests the services send out. *)
Inductive Call : Type :=
| GqlServiceCreate (name : string)
| GqlService (serviceId : string)
| GqlVariableUpsert (serviceId name value : string)
| GqlServiceInstanceDeploy (serviceId : string)
| GqlDeployment (deploymentId : string)
| RestCreateService (name : string)
| RestSetVariable (serviceId name value : string)
| RestDeploy (serviceId : string)
| TelegramGetWebhookInfo (token : string)
| TelegramSetWebhook (token url : string)
| TelegramDeleteWebhook (token : string)
| TelegramSendMessage (token : string) (chat_id : val) (text : string)
| OpenAIChatCompletion (apiKey model : string) (messages : list turn).

(** What comes back: whether the awaited request rejects (the network fails,
    the status is not ok, GraphQL reports errors), and the fields of the
    answer the callers read. *)
Record Resp : Type := {
  rejects : bool;
  r_message : string;
  r_id : string;
  r_status : string;
  r_domains : list string;
  r_ok : bool;
  r_error : bool;
  r_content : val
}.

(** What [SimpleBotRunner] keeps for a bot it runs. *)
Record running_bot : Type := {
  rb_token : val;
  rb_openaiKey : val;
  rb_model : val;
  rb_systemPrompt : val
}.

(** The state the services share: the [bots] table, the statements and the
    requests sent so far, the in-process runner's registry and conversation
    store, and the number of nonces drawn from [crypto.randomBytes]. *)
Record World : Type := {
  bots : list row;
  sql : list Sql;
  net : list Call;
  runningBots : gmap val running_bot;
  conversations : gmap string (list turn);
  draws : nat
}.

(** What the deployment fixes and the outside world decides: the cipher, the
    environment variables [ENCRYPTION_KEY] and [RAILWAY_PUBLIC_DOMAIN], the
    nonces [randomBytes] returns, the [bots] schema (the id the database
    gives the next row and the column defaults), [JSON.stringify], and the
    answer to every outbound request given the requests sent before it. *)
Record Env : Type := {
  cipher : Vault.cipher;
  ENCRYPTION_KEY : val;
  RAILWAY_PUBLIC_DOMAIN : val;
  randomBytes : nat -> list byte;
  next_id : list row -> string;
  column_defaults : row;
  JSON_stringify : val -> string;
  answer : list Call -> Call -> Resp
}.

(** config/constants.js. *)
Definition PLATFORMS : list string := ["telegram"; "discord"; "slack"].

(** The keys of [AI_PROVIDERS] with their [defaultModel]. *)
Definition AI_PROVIDERS : list (string * val) :=
  [("OPENAI", VStr "gpt-4o");
   ("ANTHROPIC", VStr "claude-3-5-sonnet-latest");
   ("OPENROUTER", VStr "openai/gpt-4o")].

(** [ENCRYPTION.KEY]: [process.env.ENCRYPTION_KEY] or the default. *)
Definition ENCRYPTION_KEY_or_default (E : Env) : string :=
  to_str (or_else (ENCRYPTION_KEY E) (VStr "default-32-char-encryption-key!!")).

(** [this.key] of the encryption service. *)
Definition key (E : Env) : list byte :=
  Vault.derive_key (to_js (ENCRYPTION_KEY_or_default E)).

(** ** The monad of the services: state and exceptions *)

Definition M (A : Type) : Type := World -> outcome error A * World.

#[global] Instance M_ret : MRet M := fun A a w => (Ok a, w).
#[global] Instance M_bind : MBind M := fun A B f m w =>
  match m w with
  | (Ok a, w') => f a w'
  | (Throw e, w') => (Throw e, w')
  end.

(** [throw e]. *)
Definition throw {A : Type} (e : error) : M A := fun w => (Throw e, w).

(** [try { body } catch (error) { handler(error) }]. *)
Definition try_catch {A : Type} (body : M A) (handler : error -> M A) : M A :=
  fun w =>
    match body w with
    | (Ok a, w') => (Ok a, w')
    | (Throw e, w') => handler e w'
    end.

(** Lifts a result of the vault. *)
Definition lift {A : Type} (r : outcome string A) : M A :=
  match r with
  | Ok a => mret a
  | Throw message => throw (Error message)
  end.

(** An awaited outbound request: it is recorded and the outside world's
    answer is returned; a request that rejects throws. *)
Definition request (E : Env) (c : Call) : M Resp := fun w =>
  let r := answer E (net w) c in
  let w' := {| bots := bots w; sql := sql w; net := net w ++ [c];
               runningBots := runningBots w;
               conversations := conversations w; draws := draws w |} in
  if rejects r then (Throw (Error (r_message r)), w') else (Ok r, w').

(** The next nonce of [crypto.randomBytes(16)]. *)
Definition draw (E : Env) : M (list byte) := fun w =>
  (Ok (randomBytes E (draws w)),
   {| bots := bots w; sql := sql w; net := net w;
      runningBots := runningBots w;
      conversations := conversations w; draws := S (draws w) |}).

(** [encryption.encrypt(v)]: a value that is not a string makes the cipher
    throw, which [encrypt] reports as its own error. *)
Definition encrypt (E : Env) (v : val) : M string :=
  iv ← draw E;
  match v with
  | VStr s => lift (Vault.encrypt (cipher E) (key E) iv (to_js s))
  | _ => throw (Error "Failed to encrypt data")
  end.

(** [encryption.decrypt(v)]. *)
Definition decrypt (E : Env) (v : val) : M string :=
  match v with
  | VStr blob =>
      u ← lift (Vault.decrypt (cipher E) (key E) blob);
      mret (of_js u)
  | _ => throw (Error "Failed to decrypt data")
  end.

(** ** The [bots] table *)

(** The value of a column: a column the row lacks is [NULL]. *)
Definition col (r : row) (k : string) : val := default VNull (r !! k).

(** [column = $n] in a [WHERE] clause: nothing equals [NULL]. *)
Definition sql_eq (a b : val) : bool :=
  match a, b with
  | (VNull | VUndef), _ | _, (VNull | VUndef) => false
  | _, _ => bool_decide (a = b)
  end.

(** [SET k1 = v1, k2 = v2, ...]. *)
Definition assign (assignments : list (string * val)) (r : row) : row :=
  foldl (fun acc kv => <[kv.1 := kv.2]> acc) r assignments.

(** The columns [findByUser] selects. *)
Definition user_columns : list string :=
  ["id"; "user_id"; "name"; "platform"; "status"; "ai_provider"; "ai_model";
   "internal_port"; "memory_usage_mb"; "total_messages"; "last_activity_at";
   "created_at"; "updated_at"].

(** [SELECT k1, k2, ... ]: the row restricted to the listed columns. *)
Definition project (columns : list string) (r : row) : row :=
  filter (fun kv => kv.1 ∈ columns) r.

Definition created_at (r : row) : Z :=
  match col r "created_at" with
  | VNum n => n
  | _ => 0
  end.

Fixpoint insert_desc (r : row) (l : list row) : list row :=
  match l with
  | [] => [r]
  | x :: rest =>
      if (created_at x <? created_at r)%Z then r :: x :: rest
      else x :: insert_desc r rest
  end.

(** [ORDER BY created_at DESC]. *)
Definition order_by_created_at_desc (l : list row) : list row :=
  foldr insert_desc [] l.

(** The row [INSERT] stores: the given columns, the schema's defaults for the
    others, and the id the database assigns. *)
Definition new_row (E : Env) (table : list row) (cols : row) : row :=
  <["id" := VStr (next_id E table)]> (cols ∪ column_defaults E).

Definition increment (v : val) : val :=
  match v with
  | VNum n => VNum (n + 1)
  | _ => VNull
  end.

(** [WHERE k = v]. *)
Definition where_ (k : string) (v : val) (r : row) : bool := sql_eq (col r k) v.

(** [UPDATE bots SET ... WHERE id = $n RETURNING *]: the rows changed and the
    table after the change. *)
Definition update_where (id : val) (f : row -> row) (table : list row)
  : list row * list row :=
  (f <$> List.filter (where_ "id" id) table,
   (fun r => if where_ "id" id r then f r else r) <$> table).

(** [SELECT COUNT( * )]: one row, its [count] column the number of rows. *)
Definition count_row (rows : list row) : list row :=
  [{[ "count" := VNum (Z.of_nat (length rows)) ]}].

(** The rows a statement returns and the table it leaves.  [NOW()] is not
    tracked: the columns it sets keep their value. *)
Definition exec (E : Env) (q : Sql) (table : list row) : list row * list row :=
  match q with
  | InsertBot cols =>
      let r := new_row E table cols in ([r], table ++ [r])
  | SelectBotById id => (List.filter (where_ "id" id) table, table)
  | SelectBotByServiceId serviceId =>
      (List.filter (where_ "railway_service_id" serviceId) table, table)
  | SelectBotsByUser userId =>
      (project user_columns <$>
         order_by_created_at_desc (List.filter (where_ "user_id" userId) table),
       table)
  | UpdateBot assignments id => update_where id (assign assignments) table
  | UpdateBotStatus status id => update_where id (<["status" := status]>) table
  | UpdateBotRuntime port pid id =>
      update_where id
        (fun r => <["process_pid" := pid]> (<["internal_port" := port]> r)) table
  | IncrementMessages id =>
      update_where id
        (fun r => <["total_messages" := increment (col r "total_messages")]> r)
        table
  | DeleteBot id =>
      ([], List.filter (fun r => negb (where_ "id" id r)) table)
  | CountBotsByUser userId =>
      (count_row (List.filter (where_ "user_id" userId) table), table)
  | CountRunning =>
      (count_row (List.filter (where_ "status" (VStr "running")) table), table)
  | SelectRunning => (List.filter (where_ "status" (VStr "running")) table, table)
  | SelectBotsByStatus status => (List.filter (where_ "status" status) table, table)
  end.

(** [query(text, params)] (config/database.js): the statement is run against
    the table and recorded. *)
Definition query (E : Env) (q : Sql) : M (list row) := fun w =>
  let (rows, table) := exec E q (bots w) in
  (Ok rows,
   {| bots := table; sql := sql w ++ [q]; net := net w;
      runningBots := runningBots w;
      conversations := conversations w; draws := draws w |}).

(** [parseInt(result.rows[0].count)]. *)
Definition parseInt (v : val) : Z :=
  match v with
  | VNum n => n
  | _ => 0
  end.

(* ===================================================================== *)
(** * Bot record store (models/Bot.js) *)
(* ===================================================================== *)

Module Bot.

(** The argument of [create]. *)
Record create_args : Type := {
  userId : val;
  name : val;
  platform : val;
  platformToken : val;
  aiProvider : val;
  aiToken : val;
  aiModel : val;
  systemPrompt : val;
  configJson : val
}.

(** [sanitize(bot)] for a bot that is there: the object without its two
    encrypted fields. *)
Definition sanitize (bot : row) : row :=
  delete "ai_token_encrypted" (delete "platform_token_encrypted" bot).

(** [result.rows[0] ? this.sanitize(result.rows[0]) : null]. *)
Definition sanitize_first (rows : list row) : option row :=
  sanitize <$> head rows.

Definition allowedFields : list string :=
  ["name"; "status"; "ai_provider"; "ai_model"; "system_prompt"; "config_json";
   "internal_port"; "process_pid"; "memory_usage_mb"; "cpu_usage_percent";
   "last_started_at"; "last_activity_at"; "total_messages";
   "railway_service_id"; "webhook_url"].

Section WithEnv.
Context (E : Env).

Definition create (a : create_args) : M (option row) :=
  platformTokenEncrypted ← encrypt E (platformToken a);
  aiTokenEncrypted ← encrypt E (aiToken a);
  rows ← query E (InsertBot
    {[ "user_id" := userId a;
       "name" := name a;
       "platform" := platform a;
       "platform_token_encrypted" := VStr platformTokenEncrypted;
       "ai_provider" := aiProvider a;
       "ai_token_encrypted" := VStr aiTokenEncrypted;
       "ai_model" := aiModel a;
       "system_prompt" := systemPrompt a;
       "config_json" := VStr (match configJson a with
                              | VUndef => "{}"
                              | v => JSON_stringify E v
                              end) ]});
  mret (sanitize_first rows).

Definition findById (id : val) : M (option row) :=
  rows ← query E (SelectBotById id);
  mret (sanitize_first rows).

(** The sanitized bot with [platformToken] and [aiToken] decrypted. *)
Definition findByIdWithTokens (id : val) : M (option row) :=
  rows ← query E (SelectBotById id);
  match rows with
  | [] => mret None
  | bot :: _ =>
      platformToken ← decrypt E (get bot "platform_token_encrypted");
      aiToken ← decrypt E (get bot "ai_token_encrypted");
      mret (Some (<["aiToken" := VStr aiToken]>
                    (<["platformToken" := VStr platformToken]> (sanitize bot))))
  end.

Definition findByServiceId (serviceId : val) : M (option row) :=
  rows ← query E (SelectBotByServiceId serviceId);
  mret (sanitize_first rows).

Definition findByUser (userId : val) : M (list row) :=
  query E (SelectBotsByUser userId).

(** The [SET] list [update] builds: the allowed fields among the entries of
    [updates], [config_json] stringified. *)
Definition regular_fields (updates : row) : list (string * val) :=
  (fun kv =>
     (kv.1, if bool_decide (kv.1 = "config_json")
            then VStr (JSON_stringify E kv.2) else kv.2))
    <$> List.filter (fun kv => bool_decide (kv.1 ∈ allowedFields))
          (map_to_list updates).

Definition update (id : val) (updates : row) : M (option row) :=
  let fields := regular_fields updates in
  encrypted ←
    (if truthy (get updates "ai_token")
     then blob ← encrypt E (get updates "ai_token");
          mret [("ai_token_encrypted", VStr blob)]
     else mret []);
  let fields := fields ++ encrypted in
  if bool_decide (length fields = 0%nat) then mret None
  else
    rows ← query E (UpdateBot fields id);
    mret (sanitize_first rows).

Definition updateStatus (id status : val) : M (option row) :=
  rows ← query E (UpdateBotStatus status id);
  mret (head rows).

Definition updateRuntime (id port pid : val) : M (option row) :=
  rows ← query E (UpdateBotRuntime port pid id);
  mret (head rows).

Definition incrementMessages (id : val) : M unit :=
  _ ← query E (IncrementMessages id);
  mret tt.

Definition delete (id : val) : M bool :=
  _ ← query E (DeleteBot id);
  mret true.

Definition countByUser (userId : val) : M Z :=
  rows ← query E (CountBotsByUser userId);
  match rows with
  | r :: _ => mret (parseInt (get r "count"))
  | [] => throw (TypeError "Cannot read properties of undefined")
  end.

Definition countRunning : M Z :=
  rows ← query E CountRunning;
  match rows with
  | r :: _ => mret (parseInt (get r "count"))
  | [] => throw (TypeError "Cannot read properties of undefined")
  end.

Definition getRunning : M (list row) := query E SelectRunning.

Definition getByStatus (status : val) : M (list row) :=
  rows ← query E (SelectBotsByStatus status);
  mret (sanitize <$> rows).

End WithEnv.
End Bot.

(* ===================================================================== *)
(** * Provisioning backends *)
(* ===================================================================== *)

(** [name.toLowerCase().replace(/[^a-z0-9]/g, '-')] on code units (the case
    mapping of the ASCII letters). *)
Definition slug_unit (c : N) : N :=
  let c := if ((65 <=? c) && (c <=? 90))%N then (c + 32)%N else c in
  if ((97 <=? c) && (c <=? 122) || (48 <=? c) && (c <=? 57))%N then c else 45%N.

(** The service name [provisionBot] derives from the bot's name and id:
    [openclaw-<slug of the name>-<first eight characters of the id>]; a name
    or an id that is not a string has no [toLowerCase] or [slice]. *)
Definition service_name (name botId : val) : outcome error string :=
  match name, botId with
  | VStr n, VStr id =>
      Ok ("openclaw-" +:+ of_js (slug_unit <$> to_js n) +:+ "-"
            +:+ of_js (take 8 (to_js id)))
  | VStr _, _ => Throw (TypeError "botId.slice is not a function")
  | _, _ => Throw (TypeError "Cannot read properties of undefined")
  end.

(** The argument of [provisionBot]. *)
Record bot_config : Type := {
  cfg_botId : val;
  cfg_userId : val;
  cfg_name : val;
  cfg_telegramToken : val;
  cfg_openaiKey : val;
  cfg_model : val;
  cfg_systemPrompt : val
}.

(** The environment variables [provisionBot] sets, in the order written. *)
Definition service_variables (c : bot_config) (webhookUrl : string)
  : list (string * val) :=
  [("TELEGRAM_BOT_TOKEN", cfg_telegramToken c);
   ("OPENAI_API_KEY", cfg_openaiKey c);
   ("OPENAI_MODEL", or_else (cfg_model c) (VStr "gpt-4o-mini"));
   ("DATABASE_URL", VStr "file:./data/openclaw.db");
   ("WEBHOOK_URL", VStr webhookUrl);
   ("BOT_NAME", cfg_name c);
   ("SYSTEM_PROMPT",
    or_else (cfg_systemPrompt c) (VStr "Tu es un assistant utile et intelligent."));
   ("PORT", VStr "3000");
   ("NODE_ENV", VStr "production");
   ("BOT_ID", cfg_botId c);
   ("USER_ID", cfg_userId c)].

(** The [botConfig] that [startBot] builds from the bot and its tokens. *)
Definition config_of (bot fullBot : row) : bot_config :=
  {| cfg_botId := get bot "id";
     cfg_userId := get bot "user_id";
     cfg_name := get bot "name";
     cfg_telegramToken := get fullBot "platformToken";
     cfg_openaiKey := get fullBot "aiToken";
     cfg_model := get bot "ai_model";
     cfg_systemPrompt := get bot "system_prompt" |}.

(** [for (...) { try { await step } catch { } }]: every step is tried. *)
Fixpoint for_each_try {A : Type} (step : A -> M unit) (l : list A) : M unit :=
  match l with
  | [] => mret tt
  | x :: rest =>
      _ ← try_catch (step x) (fun _ => mret tt);
      for_each_try step rest
  end.

(** ** MockProvisioner.js: no Railway, nothing is deployed *)

Module MockProvisioner.
Section WithEnv.
Context (E : Env).

Definition startBot (botId : val) : M row :=
  bot ← Bot.findById E botId;
  match bot with
  | None => throw (Error "Bot not found")
  | Some _ =>
      _ ← Bot.update E botId
            {[ "status" := VStr "stopped"; "webhook_url" := VNull ]};
      mret {[ "success" := VBool true;
              "serviceId" := VNull;
              "serviceName" := VStr ("bot-" +:+ to_str botId);
              "domain" := VNull;
              "deploymentId" := VNull;
              "message" := VStr "Bot prêt. Configurez le webhook Telegram manuellement ou déployez sur Railway." ]}
  end.

Definition stopBot (botId : val) : M row :=
  _ ← Bot.update E botId {[ "status" := VStr "stopped" ]};
  mret {[ "success" := VBool true ]}.

End WithEnv.
End MockProvisioner.

(** ** RailwayProvisionerV2.js: Railway's REST API *)

Module RailwayProvisionerV2.
Section WithEnv.
Context (E : Env).

Definition createService (name : string) : M Resp :=
  request E (RestCreateService name).

Definition setServiceVariables (serviceId : string)
    (variables : list (string * val)) : M unit :=
  for_each_try
    (fun kv => _ ← request E (RestSetVariable serviceId kv.1 (to_str kv.2)); mret tt)
    variables.

Definition deployService (serviceId : string) : M Resp :=
  request E (RestDeploy serviceId).

Definition provisionBot (c : bot_config) : M row :=
  try_catch
    (serviceName ← (match service_name (cfg_name c) (cfg_botId c) with
                    | Ok n => mret n
                    | Throw e => throw e
                    end);
     service ← createService serviceName;
     let domain := r_id service +:+ ".up.railway.app" in
     let webhookUrl := "https://" +:+ domain in
     _ ← setServiceVariables (r_id service) (service_variables c webhookUrl);
     deployment ← deployService (r_id service);
     _ ← Bot.update E (cfg_botId c)
           {[ "railway_service_id" := VStr (r_id service);
              "status" := VStr "deploying";
              "webhook_url" := VStr webhookUrl;
              "internal_port" := VNum 3000 ]};
     mret {[ "success" := VBool true;
             "serviceId" := VStr (r_id service);
             "serviceName" := VStr serviceName;
             "domain" := VStr webhookUrl;
             "deploymentId" := VStr (r_id deployment);
             "webhookUrl" := VStr (webhookUrl +:+ "/webhook/telegram") ]})
    (fun error =>
       _ ← Bot.update E (cfg_botId c) {[ "status" := VStr "error" ]};
       throw error).

Definition restartService (serviceId : val) : M row :=
  deployment ← deployService (to_str serviceId);
  mret {[ "success" := VBool true; "deploymentId" := VStr (r_id deployment) ]}.

Definition startBot (botId : val) : M row :=
  bot ← Bot.findById E botId;
  match bot with
  | None => throw (Error "Bot not found")
  | Some bot =>
      fullBot ← Bot.findByIdWithTokens E botId;
      match fullBot with
      | None => throw (Error "Failed to get bot tokens")
      | Some fullBot =>
          if truthy (get bot "railway_service_id")
          then restartService (get bot "railway_service_id")
          else provisionBot (config_of bot fullBot)
      end
  end.

Definition stopBot (botId : val) : M row :=
  bot ← Bot.findById E botId;
  match bot with
  | None => mret {[ "success" := VBool true ]}
  | Some _ =>
      _ ← Bot.update E botId {[ "status" := VStr "stopped" ]};
      mret {[ "success" := VBool true ]}
  end.

End WithEnv.
End RailwayProvisionerV2.

(** ** RailwayProvisioner: Railway's GraphQL API *)

Module RailwayProvisioner.
Section WithEnv.
Context (E : Env).

Definition graphqlQuery (c : Call) : M Resp := request E c.

Definition createOpenClawService (name : string) : M Resp :=
  graphqlQuery (GqlServiceCreate name).

Definition getServiceDomain (serviceId : string) : M string :=
  result ← graphqlQuery (GqlService serviceId);
  match r_domains result with
  | d :: _ => mret d
  | [] => mret (serviceId +:+ ".up.railway.app")
  end.

Definition setServiceVariables (serviceId : string)
    (variables : list (string * val)) : M unit :=
  for_each_try
    (fun kv =>
       _ ← graphqlQuery (GqlVariableUpsert serviceId kv.1 (to_str kv.2)); mret tt)
    variables.

Definition deployService (serviceId : string) : M Resp :=
  graphqlQuery (GqlServiceInstanceDeploy serviceId).

(** One turn of the polling loop: [Some domain] when the body returns, and
    [None] when the loop goes on; whatever the body throws is caught. *)
Definition poll_deployment (serviceId deploymentId : string) : M (option string) :=
  try_catch
    (deployment ← graphqlQuery (GqlDeployment deploymentId);
     if bool_decide (r_status deployment = "SUCCESS") then
       match r_domains deployment with
       | d :: _ => mret (Some ("https://" +:+ d))
       | [] => mret (Some ("https://" +:+ serviceId +:+ ".up.railway.app"))
       end
     else if bool_decide (r_status deployment = "FAILED") then
       throw (Error "Deployment failed")
     else mret None)
    (fun _ => mret None).

Fixpoint waitForDeployment_loop (attempts : nat) (serviceId deploymentId : string)
  : M string :=
  match attempts with
  | O => throw (Error "Deployment timeout")
  | S n =>
      r ← poll_deployment serviceId deploymentId;
      match r with
      | Some domain => mret domain
      | None => waitForDeployment_loop n serviceId deploymentId
      end
  end.

Definition waitForDeployment (serviceId deploymentId : string) : M string :=
  waitForDeployment_loop 30 serviceId deploymentId.

Definition configureTelegramWebhook (token : val) (webhookUrl : string) : M bool :=
  try_catch
    (_ ← request E (TelegramGetWebhookInfo (to_str token));
     setData ← request E (TelegramSetWebhook (to_str token) webhookUrl);
     mret (r_ok setData))
    (fun _ => mret false).

Definition provisionBot (c : bot_config) : M row :=
  try_catch
    (serviceName ← (match service_name (cfg_name c) (cfg_botId c) with
                    | Ok n => mret n
                    | Throw e => throw e
                    end);
     service ← createOpenClawService serviceName;
     serviceDomain ← getServiceDomain (r_id service);
     let webhookUrl := "https://" +:+ serviceDomain in
     _ ← setServiceVariables (r_id service) (service_variables c webhookUrl);
     deployment ← deployService (r_id service);
     domain ← waitForDeployment (r_id service) (r_id deployment);
     _ ← configureTelegramWebhook (cfg_telegramToken c)
           (domain +:+ "/webhook/telegram");
     _ ← Bot.update E (cfg_botId c)
           {[ "railway_service_id" := VStr (r_id service);
              "status" := VStr "running";
              "webhook_url" := VStr domain;
              "internal_port" := VNum 3000 ]};
     mret {[ "success" := VBool true;
             "serviceId" := VStr (r_id service);
             "serviceName" := VStr serviceName;
             "domain" := VStr domain;
             "deploymentId" := VStr (r_id deployment);
             "webhookUrl" := VStr (domain +:+ "/webhook/telegram") ]})
    (fun error =>
       _ ← Bot.update E (cfg_botId c) {[ "status" := VStr "error" ]};
       throw error).

Definition startBot (botId : val) : M row :=
  bot ← Bot.findById E botId;
  match bot with
  | None => throw (Error "Bot not found")
  | Some bot =>
      fullBot ← Bot.findByIdWithTokens E botId;
      match fullBot with
      | None => throw (Error "Failed to get bot tokens")
      | Some fullBot => provisionBot (config_of bot fullBot)
      end
  end.

Definition stopService (serviceId : val) : M row :=
  bot ← Bot.findByServiceId E serviceId;
  match bot with
  | None => mret {[ "success" := VBool true ]}
  | Some bot =>
      fullBot ← Bot.findByIdWithTokens E (get bot "id");
      _ ← (if truthy (from_option (fun b => get b "platformToken") VUndef fullBot)
           then _ ← request E (TelegramDeleteWebhook
                                 (to_str (from_option (fun b => get b "platformToken")
                                            VUndef fullBot)));
                mret tt
           else mret tt);
      _ ← Bot.update E (get bot "id") {[ "status" := VStr "stopped" ]};
      mret {[ "success" := VBool true ]}
  end.

Definition stopBot (botId : val) : M row :=
  bot ← Bot.findById E botId;
  match bot with
  | None => mret {[ "success" := VBool true ]}
  | Some bot =>
      if truthy (get bot "railway_service_id")
      then stopService (get bot "railway_service_id")
      else
        _ ← Bot.update E botId {[ "status" := VStr "stopped" ]};
        mret {[ "success" := VBool true ]}
  end.

End WithEnv.
End RailwayProvisioner.

(** ** SimpleBotRunner.js: bots run inside the server process *)

(** A Telegram update as [handleTelegramUpdate] reads it: [message], and in
    it [chat.id] ([None]: the message has no [chat]), [text],
    [from?.username] and [from?.first_name]. *)
Record tg_message : Type := {
  msg_chat : option val;
  msg_text : val;
  msg_username : val;
  msg_first_name : val
}.
Record tg_update : Type := { upd_message : option tg_message }.

Definition set_runningBots (f : gmap val running_bot -> gmap val running_bot)
  : M unit := fun w =>
  (Ok tt, {| bots := bots w; sql := sql w; net := net w;
             runningBots := f (runningBots w);
             conversations := conversations w; draws := draws w |}).

Definition set_conversations
    (f : gmap string (list turn) -> gmap string (list turn)) : M unit := fun w =>
  (Ok tt, {| bots := bots w; sql := sql w; net := net w;
             runningBots := runningBots w;
             conversations := f (conversations w); draws := draws w |}).

Definition get_running (botId : val) : M (option running_bot) := fun w =>
  (Ok (runningBots w !! botId), w).

Definition get_conversation (convKey : string) : M (option (list turn)) := fun w =>
  (Ok (conversations w !! convKey), w).

Module SimpleBotRunner.
Section WithEnv.
Context (E : Env).

Definition sendTelegramMessage (token chatId : val) (text : string) : M unit :=
  try_catch
    (_ ← request E (TelegramSendMessage (to_str token) chatId text); mret tt)
    (fun _ => mret tt).

Definition setTelegramWebhook (token : val) (url : string) : M Resp :=
  request E (TelegramSetWebhook (to_str token) url).

Definition deleteTelegramWebhook (token : val) : M unit :=
  try_catch
    (_ ← request E (TelegramDeleteWebhook (to_str token)); mret tt)
    (fun _ => mret tt).

Definition startBot (botId : val) : M row :=
  bot ← Bot.findById E botId;
  match bot with
  | None => throw (Error "Bot not found")
  | Some bot =>
      fullBot ← Bot.findByIdWithTokens E botId;
      match fullBot with
      | None => throw (Error "Failed to get bot tokens")
      | Some fullBot =>
          if truthy (RAILWAY_PUBLIC_DOMAIN E) then
            let webhookUrl :=
              "https://" +:+ to_str (RAILWAY_PUBLIC_DOMAIN E)
                +:+ "/webhook/telegram/" +:+ to_str botId in
            _ ← Bot.update E botId
                  {[ "status" := VStr "running"; "webhook_url" := VStr webhookUrl ]};
            _ ← set_runningBots
                  (<[botId := {| rb_token := get fullBot "platformToken";
                                 rb_openaiKey := get fullBot "aiToken";
                                 rb_model := get bot "ai_model";
                                 rb_systemPrompt := get bot "system_prompt" |}]>);
            _ ← setTelegramWebhook (get fullBot "platformToken") webhookUrl;
            mret {[ "success" := VBool true; "webhookUrl" := VStr webhookUrl ]}
          else throw (Error "RAILWAY_PUBLIC_DOMAIN not set")
      end
  end.

Definition stopBot (botId : val) : M row :=
  bot ← get_running botId;
  _ ← match bot with
      | Some bot =>
          _ ← deleteTelegramWebhook (rb_token bot);
          set_runningBots (delete botId)
      | None => mret tt
      end;
  _ ← Bot.update E botId {[ "status" := VStr "stopped"; "webhook_url" := VNull ]};
  mret {[ "success" := VBool true ]}.

(** [history.push(turn)] on the array the conversation store holds for
    [convKey]. *)
Definition history_push (convKey : string) (t : turn) : M unit :=
  set_conversations (fun m => <[convKey := default [] (m !! convKey) ++ [t]]> m).

(** [if (history.length > 10) history.shift()]. *)
Definition history_trim (convKey : string) : M unit :=
  set_conversations
    (fun m =>
       let history := default [] (m !! convKey) in
       if bool_decide (10 < length history)%nat
       then <[convKey := drop 1 history]> m else m).

(** The part of [handleTelegramUpdate] from the call of the AI provider on:
    the body of its [try] and the [catch]. *)
Definition reply_with_ai (botId : val) (bot : running_bot) (chatId : val)
    (convKey : string) : M unit :=
  try_catch
    (history ← get_conversation convKey;
     data ← request E
              (OpenAIChatCompletion (to_str (rb_openaiKey bot))
                 (to_str (or_else (rb_model bot) (VStr "gpt-4o-mini")))
                 ((if truthy (rb_systemPrompt bot)
                   then [{| role := "system"; content := rb_systemPrompt bot |}]
                   else []) ++ default [] history));
     if r_error data then
       sendTelegramMessage (rb_token bot) chatId
         "Désolé, je rencontre un problème. Réessayez plus tard."
     else
       let aiResponse := or_else (r_content data) (VStr "Je n'ai pas compris.") in
       _ ← history_push convKey {| role := "assistant"; content := aiResponse |};
       _ ← sendTelegramMessage (rb_token bot) chatId (to_str aiResponse);
       Bot.incrementMessages E botId)
    (fun _ =>
       sendTelegramMessage (rb_token bot) chatId
         "Désolé, une erreur s'est produite.").

Definition handleTelegramUpdate (botId : val) (update : option tg_update) : M unit :=
  bot ← get_running botId;
  match bot with
  | None => mret tt
  | Some bot =>
      match update with
      | None => throw (TypeError "Cannot read properties of undefined (reading 'message')")
      | Some update =>
          match upd_message update with
          | None => mret tt
          | Some message =>
              match msg_chat message with
              | None =>
                  throw (TypeError "Cannot read properties of undefined (reading 'id')")
              | Some chatId =>
                  match or_else (msg_text message) (VStr "") with
                  | VStr text =>
                      let userName :=
                        or_else (msg_username message)
                          (or_else (msg_first_name message) (VStr "User")) in
                      if bool_decide (text = "/start") then
                        sendTelegramMessage (rb_token bot) chatId
                          ("👋 Bonjour " +:+ to_str userName
                             +:+ "!" +:+ "

Je suis votre assistant IA. Comment puis-je vous aider ?")
                      else if bool_decide (text = "/help") then
                        sendTelegramMessage (rb_token bot) chatId
                          "📚 Commandes:
/start - Démarrer
/help - Aide
Envoyez un message pour discuter avec l'IA."
                      else
                        let convKey := to_str botId +:+ "-" +:+ to_str chatId in
                        h ← get_conversation convKey;
                        _ ← (if h is None
                             then set_conversations (<[convKey := []]>)
                             else mret tt);
                        _ ← history_push convKey {| role := "user"; content := VStr text |};
                        _ ← history_trim convKey;
                        reply_with_ai botId bot chatId convKey
                  | _ => throw (TypeError "text.substring is not a function")
                  end
              end
          end
      end
  end.

End WithEnv.
End SimpleBotRunner.

(** The backend variants, and the operations the controller calls on the one
    that is selected. *)
Inductive backend : Type :=
| Mock
| RailwayRest
| RailwayGraphQL
| InProcess.

Definition provisioner_startBot (E : Env) (p : backend) (botId : val) : M row :=
  match p with
  | Mock => MockProvisioner.startBot E botId
  | RailwayRest => RailwayProvisionerV2.startBot E botId
  | RailwayGraphQL => RailwayProvisioner.startBot E botId
  | InProcess => SimpleBotRunner.startBot E botId
  end.

Definition provisioner_stopBot (E : Env) (p : backend) (botId : val) : M row :=
  match p with
  | Mock => MockProvisioner.stopBot E botId
  | RailwayRest => RailwayProvisionerV2.stopBot E botId
  | RailwayGraphQL => RailwayProvisioner.stopBot E botId
  | InProcess => SimpleBotRunner.stopBot E botId
  end.

(* ===================================================================== *)
(** * HTTP layer *)
(* ===================================================================== *)

(** What a handler reads of the request: the parsed body, [params.id], and
    the user the [authenticate] middleware attached ([id] and [maxBots]). *)
Record http_request : Type := {
  req_body : row;
  req_params_id : val;
  req_user_id : val;
  req_user_maxBots : Z
}.

(** What a handler answers: the status and the fields of the JSON body. *)
Record http_response : Type := {
  res_status : Z;
  res_error : option string;
  res_message : option string;
  res_bot : option row;
  res_runtime : option row
}.

(** [res.status(code).json({ message, bot, runtime })]. *)
Definition json_reply (code : Z) (message : string) (bot : option row)
    (runtime : option row) : http_response :=
  {| res_status := code; res_error := None; res_message := Some message;
     res_bot := bot; res_runtime := runtime |}.

(** [errorHandler(err, req, res, next)] (middleware/errorHandler.js): the
    status and the [error] field of the body it sends. *)
Definition errorHandler (err : error) : http_response :=
  let statusCode := default 500%Z (err_statusCode err) in
  let message := if bool_decide (err_message err = "")
                 then "Internal server error" else err_message err in
  let '(statusCode, message) :=
    if bool_decide (err_name err = "ValidationError")
    then (400%Z, "Validation error") else (statusCode, message) in
  let '(statusCode, message) :=
    if bool_decide (err_name err = "UnauthorizedError")
    then (401%Z, "Unauthorized") else (statusCode, message) in
  let '(statusCode, message) :=
    if bool_decide (err_name err = "ForbiddenError")
    then (403%Z, "Forbidden") else (statusCode, message) in
  let '(statusCode, message) :=
    if bool_decide (err_code err = Some "23505")
    then (409%Z, "Resource already exists") else (statusCode, message) in
  {| res_status := statusCode; res_error := Some message; res_message := None;
     res_bot := None; res_runtime := None |}.

(** What a request leaves behind: the response sent, and the promises the
    handler started without awaiting them (each a [startBot] of the
    provisioner, named by its bot id). *)
Record handled : Type := {
  sent : http_response;
  unawaited : list val
}.

(** [asyncHandler(fn)]: what [fn] throws goes to the error handler. *)
Definition asyncHandler (fn : http_request -> M handled) (req : http_request)
  : World -> handled * World := fun w =>
  match fn req w with
  | (Ok h, w') => (h, w')
  | (Throw e, w') => ({| sent := errorHandler e; unawaited := [] |}, w')
  end.

(** ** controllers/botController.js *)

Module botController.

(** The double quote, for the messages of the validator. *)
Definition dq : string := String (Ascii.ascii_of_nat 34) EmptyString.
Definition quoted (s : string) : string := dq +:+ s +:+ dq.

(** A [Joi.string()] rule: presence, type, emptiness, the allowed values and
    the length bounds, in the order the validator checks them; the result is
    the message of the first rule broken. *)
Record string_rule : Type := {
  rule_required : bool;
  rule_allow_empty : bool;
  rule_valid : option (list string);
  rule_min : option nat;
  rule_max : option nat
}.

Definition check_string (label : string) (rule : string_rule) (v : val)
  : option string :=
  match v with
  | VUndef =>
      if rule_required rule then Some (quoted label +:+ " is required") else None
  | VStr s =>
      if bool_decide (s = "") then
        if rule_allow_empty rule then None
        else Some (quoted label +:+ " is not allowed to be empty")
      else if from_option (fun allowed => bool_decide (s ∉ allowed)) false
                (rule_valid rule)
      then Some (quoted label +:+ " must be one of the allowed values")
      else if from_option (fun n => bool_decide (js_length s < n)%nat) false
                (rule_min rule)
      then Some (quoted label +:+ " length must be at least "
                   +:+ pretty (default 0%nat (rule_min rule)) +:+ " characters long")
      else if from_option (fun n => bool_decide (n < js_length s)%nat) false
                (rule_max rule)
      then Some (quoted label +:+ " length must be less than or equal to "
                   +:+ pretty (default 0%nat (rule_max rule)) +:+ " characters long")
      else None
  | _ => Some (quoted label +:+ " must be a string")
  end.

(** [Joi.string().optional()]. *)
Definition plain : string_rule :=
  {| rule_required := false; rule_allow_empty := false; rule_valid := None;
     rule_min := None; rule_max := None |}.

(** [Joi.string().required()]. *)
Definition required_string : string_rule :=
  {| rule_required := true; rule_allow_empty := false; rule_valid := None;
     rule_min := None; rule_max := None |}.

(** [createBotSchema]. *)
Definition createBotSchema : list (string * string_rule) :=
  [("name",
    {| rule_required := true; rule_allow_empty := false; rule_valid := None;
       rule_min := Some 3%nat; rule_max := Some 50%nat |});
   ("platform",
    {| rule_required := true; rule_allow_empty := false;
       rule_valid := Some PLATFORMS; rule_min := None; rule_max := None |});
   ("platformToken", required_string);
   ("aiProvider",
    {| rule_required := true; rule_allow_empty := false;
       rule_valid := Some AI_PROVIDERS.*1; rule_min := None; rule_max := None |});
   ("aiToken", required_string);
   ("aiModel", plain);
   ("systemPrompt",
    {| rule_required := false; rule_allow_empty := true; rule_valid := None;
       rule_min := None; rule_max := Some 2000%nat |})].

(** [schema.validate(body)]: the message of the first error, or the value.
    The keys of the schema are checked in order, then the body is searched
    for a key the schema does not have. *)
Definition validate (schema : list (string * string_rule)) (body : row)
  : outcome string row :=
  match omap (fun kr => check_string kr.1 kr.2 (get body kr.1)) schema with
  | message :: _ => Throw message
  | [] =>
      match List.filter (fun kv => bool_decide (kv.1 ∉ schema.*1))
              (map_to_list body) with
      | kv :: _ => Throw (quoted kv.1 +:+ " is not allowed")
      | [] => Ok body
      end
  end.

(** [s.toUpperCase()] (the case mapping of the ASCII letters). *)
Definition toUpperCase (s : string) : string :=
  of_js ((fun c => if ((97 <=? c) && (c <=? 122))%N then (c - 32)%N else c)
           <$> to_js s).

(** [AI_PROVIDERS[key]?.defaultModel]. *)
Definition defaultModel (key : string) : val :=
  match List.find (fun kv => bool_decide (kv.1 = key)) AI_PROVIDERS with
  | Some kv => kv.2
  | None => VUndef
  end.

Section WithEnv.
Context (E : Env) (provisioner : backend).

(** [POST /api/bots]. *)
Definition createBot (req : http_request) : M handled :=
  match validate createBotSchema (req_body req) with
  | Throw message => throw (AppError message 400)
  | Ok value =>
      userBotCount ← Bot.countByUser E (req_user_id req);
      if (req_user_maxBots req <=? userBotCount)%Z then
        throw (AppError
                 ("Bot limit reached (" +:+ pretty (req_user_maxBots req)
                    +:+ "). Upgrade your plan to create more bots.") 403)
      else
        let aiModel :=
          or_else (get value "aiModel")
            (or_else (defaultModel (toUpperCase (to_str (get value "aiProvider"))))
               (VStr "gpt-4o")) in
        bot ← Bot.create E
                {| Bot.userId := req_user_id req;
                   Bot.name := get value "name";
                   Bot.platform := get value "platform";
                   Bot.platformToken := get value "platformToken";
                   Bot.aiProvider := get value "aiProvider";
                   Bot.aiToken := get value "aiToken";
                   Bot.aiModel := aiModel;
                   Bot.systemPrompt := get value "systemPrompt";
                   Bot.configJson := VUndef |};
        match bot with
        | None => throw (TypeError "Cannot read properties of null (reading 'id')")
        | Some bot =>
            mret {| sent := json_reply 201
                              "Bot created successfully. Deployment will start shortly."
                              (Some bot) None;
                    unawaited := [get bot "id"] |}
        end
  end.

(** A promise started with [provisioner.startBot(id).catch(...)] runs to its
    end; what it throws is logged and dropped. *)
Definition settle (botId : val) : M unit :=
  try_catch (_ ← provisioner_startBot E provisioner botId; mret tt)
            (fun _ => mret tt).

(** The world once the promises a request left unawaited have settled. *)
Definition settled (h : handled) (w : World) : World :=
  foldl (fun w botId => (settle botId w).2) w (unawaited h).

(** [POST /api/bots/:id/start]. *)
Definition startBot (req : http_request) : M handled :=
  bot ← Bot.findById E (req_params_id req);
  match bot with
  | None => throw (AppError "Bot not found" 404)
  | Some bot =>
      if bool_decide (get bot "user_id" ≠ req_user_id req) then
        throw (AppError "Bot not found" 404)
      else if bool_decide (get bot "status" = VStr "running") then
        throw (AppError "Bot is already running" 400)
      else
        try_catch
          (result ← provisioner_startBot E provisioner (get bot "id");
           found ← Bot.findById E (get bot "id");
           mret {| sent := json_reply 200 "Bot started successfully" found (Some result);
                   unawaited := [] |})
          (fun error =>
             throw (AppError ("Failed to start bot: " +:+ err_message error) 500))
  end.

(** [POST /api/bots/:id/stop]. *)
Definition stopBot (req : http_request) : M handled :=
  bot ← Bot.findById E (req_params_id req);
  match bot with
  | None => throw (AppError "Bot not found" 404)
  | Some bot =>
      if bool_decide (get bot "user_id" ≠ req_user_id req) then
        throw (AppError "Bot not found" 404)
      else if bool_decide (get bot "status" ≠ VStr "running") then
        throw (AppError "Bot is not running" 400)
      else
        try_catch
          (_ ← provisioner_stopBot E provisioner (get bot "id");
           found ← Bot.findById E (get bot "id");
           mret {| sent := json_reply 200 "Bot stopped successfully" found None;
                   unawaited := [] |})
          (fun error =>
             throw (AppError ("Failed to stop bot: " +:+ err_message error) 500))
  end.

End WithEnv.

(** The backend the controller is wired to: [const provisioner =
    mockProvisioner]. *)
Definition provisioner : backend := Mock.

End botController.

(* ===================================================================== *)
(** * The webhook endpoint (server.js) *)
(* ===================================================================== *)

Module Server.


(** What [express.json({ limit: '1mb' })] makes of the payload of a request:
    [req.body], or the error it hands to the error handler, with the status
    400 for a payload that is not JSON and 413 for one over the limit. *)
Inductive payload : Type :=
| Parsed (body : option tg_update)
| NotJson
| TooLarge.







End Server.

(* ===================================================================== *)
(** * The vocabulary of the properties *)
(* ===================================================================== *)

(** A bot object without the two encrypted fields. *)
Definition no_credentials (bot : row) : Prop :=
  bot !! "platform_token_encrypted" = None /\ bot !! "ai_token_encrypted" = None.

(** Every bot object a computation returns is without the encrypted fields,
    in whatever world it runs. *)
Definition returns_sanitized {A : Type} (bots_of : A -> list row) (m : M A) : Prop :=
  forall w, match (m w).1 with
            | Ok a => Forall no_credentials (bots_of a)
            | Throw _ => True
            end.

(** The world with one more nonce drawn. *)
Definition after_draw (w : World) : World :=
  {| bots := bots w; sql := sql w; net := net w; runningBots := runningBots w;
     conversations := conversations w; draws := S (draws w) |}.

(** The world after [query] ran the statement [q]. *)
Definition after_query (E : Env) (q : Sql) (w : World) : World :=
  {| bots := (exec E q (bots w)).2; sql := sql w ++ [q]; net := net w;
     runningBots := runningBots w; conversations := conversations w;
     draws := draws w |}.

(** Two worlds that differ at most in the record of the statements sent. *)
Definition same_state (w w' : World) : Prop :=
  bots w' = bots w /\ net w' = net w /\ runningBots w' = runningBots w /\
  conversations w' = conversations w /\ draws w' = draws w.

(** The ids of the rows of the [bots] table. *)
Definition ids (w : World) : list (option val) := (fun r : row => r !! "id") <$> bots w.

(** A computation that neither adds nor removes a bot record. *)
Definition keeps_ids {A : Type} (m : M A) : Prop :=
  forall w, ids (m w).2 = ids w.

(** The blob [encryption.encrypt(v)] returns when it draws the nonce number
    [n], or [None] when it throws. *)
Definition sealed (E : Env) (n : nat) (v : val) : option string :=
  match v with
  | VStr s =>
      match Vault.encrypt (cipher E) (key E) (randomBytes E n) (to_js s) with
      | Ok blob => Some blob
      | Throw _ => None
      end
  | _ => None
  end.

(** The columns [create] gives a value to. *)
Definition created_columns : list string :=
  ["user_id"; "name"; "platform"; "platform_token_encrypted"; "ai_provider";
   "ai_token_encrypted"; "ai_model"; "system_prompt"; "config_json"].

(** What [create] does in the world [w], [r] being its result and the world
    it leaves.  When both tokens are encrypted, it sends the database one
    statement, an insert of the columns above whose two credential columns
    hold the blobs [encrypt] returned, and returns the inserted row without
    them.  When a token cannot be encrypted, it throws and nothing is sent to
    the database. *)
Definition create_effect (E : Env) (a : Bot.create_args) (w : World)
    (r : outcome error (option row) * World) : Prop :=
  match sealed E (draws w) (Bot.platformToken a),
        sealed E (S (draws w)) (Bot.aiToken a) with
  | Some blob1, Some blob2 =>
      exists cols : row,
        cols !! "platform_token_encrypted" = Some (VStr blob1) /\
        cols !! "ai_token_encrypted" = Some (VStr blob2) /\
        (forall k, is_Some (cols !! k) -> k ∈ created_columns) /\
        sql r.2 = sql w ++ [InsertBot cols] /\
        bots r.2 = bots w ++ [new_row E (bots w) cols] /\
        r.1 = Ok (Some (Bot.sanitize (new_row E (bots w) cols)))
  | _, _ =>
      r.1 = Throw (Error "Failed to encrypt data") /\
      sql r.2 = sql w /\ bots r.2 = bots w
  end.

(** The number of bots of a user, as [countByUser] counts them. *)
Definition bot_count (userId : val) (w : World) : Z :=
  Z.of_nat (length (List.filter (where_ "user_id" userId) (bots w))).

(** The bot [findById] finds for an id, before it is sanitized. *)
Definition stored_bot (id : val) (w : World) : option row :=
  head (List.filter (where_ "id" id) (bots w)).

(** A request that is turned down with the given status: the body carries an
    error and no bot, and nothing is left running behind it. *)
Definition rejected (h : handled) (status : Z) : Prop :=
  res_status (sent h) = status /\ is_Some (res_error (sent h)) /\
  res_message (sent h) = None /\ res_bot (sent h) = None /\ unawaited h = [].



(** A creation request the schema accepts. *)
Definition valid_request (req : http_request) : Prop :=
  exists value,
    botController.validate botController.createBotSchema (req_body req) = Ok value.

(* ===================================================================== *)
(** * A deployment and worlds to evaluate the services on *)
(* ===================================================================== *)

Module Example.

(** An outside world in which every request succeeds: Railway names the new
    service [svc-new] and reports the deployment as successful, Telegram
    answers [ok], and the AI provider replies. *)
Definition accepted : Resp :=
  {| rejects := false; r_message := ""; r_id := "svc-new"; r_status := "SUCCESS";
     r_domains := []; r_ok := true; r_error := false; r_content := VStr "Bonjour" |}.

(** An outside world in which every request fails. *)
Definition refused : Resp :=
  {| rejects := true; r_message := "Railway API Error 503"; r_id := "";
     r_status := ""; r_domains := []; r_ok := false; r_error := false;
     r_content := VUndef |}.

(** The deployment: the reference cipher, no [ENCRYPTION_KEY] set, and a
    database that numbers the bots and starts them as [deploying]. *)
Definition env_with (answers : list Call -> Call -> Resp) : Env :=
  {| cipher := Vault.checksum_cipher;
     ENCRYPTION_KEY := VUndef;
     RAILWAY_PUBLIC_DOMAIN := VStr "saas.up.railway.app";
     randomBytes := fun _ => Vault.example_iv;
     next_id := fun table => "bot-" +:+ pretty (length table);
     column_defaults :=
       {[ "status" := VStr "deploying"; "railway_service_id" := VNull;
          "webhook_url" := VNull; "total_messages" := VNum 0 ]};
     JSON_stringify := to_str;
     answer := answers |}.

Definition env : Env := env_with (fun _ _ => accepted).
Definition offline : Env := env_with (fun _ _ => refused).

Definition nothing : World :=
  {| bots := []; sql := []; net := []; runningBots := ∅; conversations := ∅;
     draws := 0 |}.

(** A valid creation request of user [user-1], whose plan allows one bot. *)
Definition create_request : http_request :=
  {| req_body :=
       {[ "name" := VStr "helper"; "platform" := VStr "telegram";
          "platformToken" := VStr "123456:telegram-token";
          "aiProvider" := VStr "OPENAI"; "aiToken" := VStr "sk-openai-key" ]};
     req_params_id := VUndef;
     req_user_id := VStr "user-1";
     req_user_maxBots := 1 |}.

(** The same request with a name that is too short. *)
Definition short_name_request : http_request :=
  {| req_body := <["name" := VStr "ab"]> (req_body create_request);
     req_params_id := VUndef;
     req_user_id := VStr "user-1";
     req_user_maxBots := 1 |}.

(** The world once [user-1] has created the bot [bot-0]: the user is at the
    ceiling of the plan. *)
Definition one_bot : World :=
  (asyncHandler (botController.createBot env) create_request nothing).2.

(** [bot-0] deployed on Railway as the service [svc-1], then stopped. *)
Definition deployed : World :=
  (Bot.update env (VStr "bot-0")
     {[ "railway_service_id" := VStr "svc-1"; "status" := VStr "stopped" ]}
     one_bot).2.

(** [bot-0] running. *)
Definition running : World :=
  (Bot.update env (VStr "bot-0") {[ "status" := VStr "running" ]} one_bot).2.

(** The row of [bot-0]. *)
Definition bot_0 (w : World) : row := default ∅ (stored_bot (VStr "bot-0") w).

(** A request on [bot-0] by its owner. *)
Definition owner_request : http_request :=
  {| req_body := ∅; req_params_id := VStr "bot-0";
     req_user_id := VStr "user-1"; req_user_maxBots := 1 |}.

(** The in-process runner with [bot-0] registered. *)
Definition in_process : World :=
  {| bots := bots running; sql := []; net := [];
     runningBots :=
       {[ VStr "bot-0" :=
            {| rb_token := VStr "123456:telegram-token";
               rb_openaiKey := VStr "sk-openai-key";
               rb_model := VStr "gpt-4o"; rb_systemPrompt := VUndef |} ]};
     conversations := ∅; draws := 0 |}.

(** A text message in chat 42. *)
Definition text_message (text : string) : option tg_update :=
  Some {| upd_message :=
            Some {| msg_chat := Some (VNum 42); msg_text := VStr text;
                    msg_username := VStr "alice"; msg_first_name := VUndef |} |}.

(** The world after the runner has handled [n] text messages in a row. *)
Fixpoint after_messages (n : nat) (w : World) : World :=
  match n with
  | O => w
  | S k =>
      (SimpleBotRunner.handleTelegramUpdate env (VStr "bot-0")
         (text_message "bonjour") (after_messages k w)).2
  end.

End Example.

(* ===================================================================== *)
(** * The webhook rate limiter (middleware/rateLimit.js) *)
(* ===================================================================== *)

Module RateLimit.

Local Open Scope Z_scope.

(** An entry of [requestStore]. *)
Record entry : Type := { count : Z; resetTime : Z }.

(** What [webhookRateLimit] returns: [{ allowed: true }] or
    [{ allowed: false, retryAfter }]. *)
Inductive verdict : Type :=
| Allowed
| Refused (retryAfter : Z).

(** One minute, in milliseconds. *)
Definition windowMs : Z := 60 * 1000.

(** The default of [maxRequests]. *)
Definition default_maxRequests : Z := 100.

(** [Math.ceil(a / b)] for integers [a] and [b], [b] positive. *)
Definition ceil_div (a b : Z) : Z := - ((- a) / b).

(** The key of a bot in the store: [`webhook:${botId}`]. *)
Definition key_of (botId : val) : string := "webhook:" +:+ to_str botId.

(** [webhookRateLimit(botId, maxRequests)] when [Date.now()] is [now]: the
    verdict and the store the call leaves.  [data.count++] changes the entry
    the store holds. *)
Definition webhookRateLimit (botId : val) (maxRequests now : Z)
    (requestStore : gmap string entry) : verdict * gmap string entry :=
  let key := key_of botId in
  match requestStore !! key with
  | None =>
      (Allowed, <[key := {| count := 1; resetTime := now + windowMs |}]> requestStore)
  | Some data =>
      if resetTime data <? now then
        (Allowed,
         <[key := {| count := 1; resetTime := now + windowMs |}]> requestStore)
      else if maxRequests <=? count data then
        (Refused (ceil_div (resetTime data - now) 1000), requestStore)
      else
        (Allowed,
         <[key := {| count := count data + 1; resetTime := resetTime data |}]>
           requestStore)
  end.

(** The callback of [setInterval]: every entry whose window is over is
    deleted. *)
Definition cleanup (now : Z) (requestStore : gmap string entry)
  : gmap string entry :=
  filter (fun kv => ~ (resetTime kv.2 < now)) requestStore.

(** The verdicts of successive calls for one bot, made at the given times. *)
Fixpoint verdicts (botId : val) (maxRequests : Z) (times : list Z)
    (requestStore : gmap string entry) : list verdict :=
  match times with
  | [] => []
  | now :: later =>
      let r := webhookRateLimit botId maxRequests now requestStore in
      r.1 :: verdicts botId maxRequests later r.2
  end.

Definition allowed (v : verdict) : bool :=
  match v with
  | Allowed => true
  | Refused _ => false
  end.

End RateLimit.

(* ===================================================================== *)
(** * The other methods of MockProvisioner.js *)
(* ===================================================================== *)

Module MockRuntime.
Section WithEnv.
Context (E : Env).

Definition getBotStatus (botId : val) : M (option row) :=
  bot ← Bot.findById E botId;
  match bot with
  | None => mret None
  | Some bot =>
      let running := bool_decide (get bot "status" = VStr "running") in
      mret (Some
        {[ "id" := botId;
           "status" := get bot "status";
           "serviceId" := get bot "railway_service_id";
           "serviceStatus" := VStr (if running then "SUCCESS" else "STOPPED");
           "running" := VBool running;
           "domain" := get bot "webhook_url";
           "message" := VStr (if truthy (get bot "railway_service_id")
                              then "Déployé sur Railway"
                              else "Mode manuel - déploiement requis") ]})
  end.

Definition restartService (botId : val) : M row :=
  MockProvisioner.startBot E botId.

(** The class has no [deleteService]: calling it throws. *)
Definition deleteService (serviceId : val) : M row :=
  throw (TypeError "provisioner.deleteService is not a function").

Definition getServiceLogs (botId : val) : string :=
  "Logs: Mode manuel - pas de logs Railway pour le bot " +:+ to_str botId.

Definition readLogs (logPath : string) (limit : val) : M string :=
  mret "Mode manuel - logs non disponibles".

End WithEnv.
End MockRuntime.

(* ===================================================================== *)
(** * The other handlers of controllers/botController.js *)
(* ===================================================================== *)

(** The JSON bodies these handlers send; the logs are a text, or [None] for
    the empty array sent when reading them throws. *)
Inductive payload : Type :=
| ErrorBody (error : string)
| BotsBody (bots : list (row * option row))
| BotBody (bot : row) (runtime : option row)
| StatusBody (status : option row)
| LogsBody (logs : option string)
| MessageBody (message : string)
| MessageBotBody (message : string) (bot : option row)
| MessageBotRuntimeBody (message : string) (bot : option row) (runtime : row).

Record reply : Type := {
  reply_status : Z;
  reply_body : payload
}.

(** [asyncHandler(fn)] for a handler that leaves no promise behind: what
    [fn] throws is answered by the error handler. *)
Definition respond (fn : http_request -> M reply) (req : http_request)
  : World -> reply * World := fun w =>
  match fn req w with
  | (Ok r, w') => (r, w')
  | (Throw e, w') =>
      ({| reply_status := res_status (errorHandler e);
          reply_body := ErrorBody (default "" (res_error (errorHandler e))) |}, w')
  end.

(** The handlers as the controller is wired: [const provisioner =
    mockProvisioner]. *)
Module botHandlers.

(** [Joi.object()] for [config]: a value that is there must be an object,
    which no value of a flat body is. *)
Definition check_object (label : string) (v : val) : option string :=
  match v with
  | VUndef => None
  | _ => Some (botController.quoted label +:+ " must be of type object")
  end.

(** The string rules of the schema of [updateBot]. *)
Definition updateBotSchema : list (string * botController.string_rule) :=
  [("name",
    {| botController.rule_required := false;
       botController.rule_allow_empty := false;
       botController.rule_valid := None;
       botController.rule_min := Some 3%nat;
       botController.rule_max := Some 50%nat |});
   ("aiModel", botController.plain);
   ("aiToken", botController.plain);
   ("aiProvider",
    {| botController.rule_required := false;
       botController.rule_allow_empty := false;
       botController.rule_valid := Some AI_PROVIDERS.*1;
       botController.rule_min := None;
       botController.rule_max := None |});
   ("systemPrompt",
    {| botController.rule_required := false;
       botController.rule_allow_empty := true;
       botController.rule_valid := None;
       botController.rule_min := None;
       botController.rule_max := Some 2000%nat |})].

(** [schema.validate(req.body)] in [updateBot]: the string rules in order,
    then [config], then the keys the schema does not have. *)
Definition validate_update (body : row) : outcome string row :=
  match omap (fun kr => botController.check_string kr.1 kr.2 (get body kr.1))
          updateBotSchema
        ++ option_list (check_object "config" (get body "config")) with
  | message :: _ => Throw message
  | [] =>
      match List.filter
              (fun kv => bool_decide (kv.1 ∉ updateBotSchema.*1 ++ ["config"]))
              (map_to_list body) with
      | kv :: _ => Throw (botController.quoted kv.1 +:+ " is not allowed")
      | [] => Ok body
      end
  end.

(** [if (cond) updates[k] = v]. *)
Definition set_if (cond : bool) (k : string) (v : val) (updates : row) : row :=
  if cond then <[k := v]> updates else updates.

(** The [updates] object [updateBot] builds from the validated body. *)
Definition updates_of (value : row) : row :=
  set_if (truthy (get value "config")) "config_json" (get value "config")
    (set_if (negb (bool_decide (get value "systemPrompt" = VUndef)))
       "system_prompt" (get value "systemPrompt")
       (set_if (truthy (get value "aiProvider")) "ai_provider"
          (VStr (botController.toUpperCase (to_str (get value "aiProvider"))))
          (set_if (truthy (get value "aiToken")) "ai_token" (get value "aiToken")
             (set_if (truthy (get value "aiModel")) "ai_model" (get value "aiModel")
                (set_if (truthy (get value "name")) "name" (get value "name") ∅))))).

Section WithEnv.
Context (E : Env).

(** [!bot || bot.user_id !== req.user.id]: the bot of [req.params.id] when
    the requester owns it. *)
Definition owned_bot (req : http_request) : M row :=
  bot ← Bot.findById E (req_params_id req);
  match bot with
  | None => throw (AppError "Bot not found" 404)
  | Some bot =>
      if bool_decide (get bot "user_id" ≠ req_user_id req)
      then throw (AppError "Bot not found" 404)
      else mret bot
  end.

(** [Promise.all(bots.map(async (bot) => ...))]: the runtime status of each
    bot beside it, [null] when the provisioner throws. *)
Fixpoint enhance (bots : list row) : M (list (row * option row)) :=
  match bots with
  | [] => mret []
  | bot :: others =>
      runtime ← try_catch (MockRuntime.getBotStatus E (get bot "id"))
                  (fun _ => mret None);
      enhanced ← enhance others;
      mret ((bot, runtime) :: enhanced)
  end.

(** [GET /api/bots]. *)
Definition listBots (req : http_request) : M reply :=
  bots ← Bot.findByUser E (req_user_id req);
  enhancedBots ← enhance bots;
  mret {| reply_status := 200; reply_body := BotsBody enhancedBots |}.

(** [GET /api/bots/:id]. *)
Definition getBot (req : http_request) : M reply :=
  bot ← owned_bot req;
  runtimeStatus ← MockRuntime.getBotStatus E (get bot "id");
  mret {| reply_status := 200; reply_body := BotBody bot runtimeStatus |}.

(** [PUT /api/bots/:id]. *)
Definition updateBot (req : http_request) : M reply :=
  bot ← owned_bot req;
  match validate_update (req_body req) with
  | Throw message => throw (AppError message 400)
  | Ok value =>
      _ ← Bot.update E (req_params_id req) (updates_of value);
      let needsRestart :=
        (truthy (get value "aiToken") || truthy (get value "aiProvider")
         || truthy (get value "aiModel"))
        && bool_decide (get bot "status" = VStr "running") in
      _ ← (if needsRestart
           then try_catch
                  (_ ← MockProvisioner.stopBot E (get bot "id");
                   _ ← MockProvisioner.startBot E (get bot "id");
                   mret tt)
                  (fun _ => mret tt)
           else mret tt);
      found ← Bot.findById E (req_params_id req);
      mret {| reply_status := 200;
              reply_body :=
                MessageBotBody
                  (if needsRestart
                   then "Bot updated and restarted with new AI config"
                   else "Bot updated") found |}
  end.

(** [DELETE /api/bots/:id]. *)
Definition deleteBot (req : http_request) : M reply :=
  bot ← owned_bot req;
  _ ← (if bool_decide (get bot "status" = VStr "running")
          || truthy (get bot "railway_service_id")
       then try_catch
              (_ ← MockProvisioner.stopBot E (get bot "id");
               if truthy (get bot "railway_service_id")
               then _ ← MockRuntime.deleteService (get bot "railway_service_id");
                    mret tt
               else mret tt)
              (fun _ => mret tt)
       else mret tt);
  _ ← Bot.delete E (req_params_id req);
  mret {| reply_status := 200;
          reply_body := MessageBody "Bot deleted successfully" |}.

(** [GET /api/bots/:id/logs]; the mock's [readLogs] does not look at the
    limit. *)
Definition getBotLogs (limit : val) (req : http_request) : M reply :=
  bot ← owned_bot req;
  try_catch
    (logs ← MockRuntime.readLogs (MockRuntime.getServiceLogs (get bot "id")) limit;
     mret {| reply_status := 200; reply_body := LogsBody (Some logs) |})
    (fun _ => mret {| reply_status := 200; reply_body := LogsBody None |}).

(** [POST /api/bots/:id/restart]. *)
Definition restartBot (req : http_request) : M reply :=
  bot ← owned_bot req;
  try_catch
    (result ← MockRuntime.restartService E (get bot "id");
     found ← Bot.findById E (get bot "id");
     mret {| reply_status := 200;
             reply_body :=
               MessageBotRuntimeBody "Bot restarted successfully" found
                 {[ "port" := get result "port"; "pid" := get result "pid" ]} |})
    (fun error =>
       throw (AppError ("Failed to restart bot: " +:+ err_message error) 500)).

(** [GET /api/bots/:id/status]. *)
Definition getBotStatus (req : http_request) : M reply :=
  bot ← owned_bot req;
  status ← MockRuntime.getBotStatus E (get bot "id");
  mret {| reply_status := 200; reply_body := StatusBody status |}.

(** The handlers that act on the bot of [req.params.id]. *)
Definition on_one_bot : list (http_request -> M reply) :=
  [getBot; updateBot; deleteBot; getBotLogs (VNum 100); restartBot; getBotStatus].

End WithEnv.
End botHandlers.

(* ===================================================================== *)
(** * More vocabulary *)
(* ===================================================================== *)

(** A computation that leaves every world related to the one it started
    in. *)
Definition preserves {A : Type} (R : World -> World -> Prop) (m : M A) : Prop :=
  forall w, R w (m w).2.

(** The world after the request [c] was sent. *)
Definition after_request (c : Call) (w : World) : World :=
  {| bots := bots w; sql := sql w; net := net w ++ [c];
     runningBots := runningBots w; conversations := conversations w;
     draws := draws w |}.

(** The world after the requests [cs] were sent, in that order. *)
Definition after_requests (cs : list Call) (w : World) : World :=
  foldl (fun w c => after_request c w) w cs.

(** Nothing was sent out between two worlds. *)
Definition nothing_sent (w w' : World) : Prop := net w' = net w.

(** Nothing but the record of the statements and the requests differs. *)
Definition same_records (w w' : World) : Prop :=
  bots w' = bots w /\ runningBots w' = runningBots w /\
  conversations w' = conversations w /\ draws w' = draws w.

(** The column [k] has the same content in every row of the two tables, row
    by row. *)
Definition same_column (k : string) (table table' : list row) : Prop :=
  Forall2 (fun r r' : row => r' !! k = r !! k) table table'.

(** The rows that [id] does not select are the same in the two tables, row
    by row. *)
Definition same_other_rows (id : val) (table table' : list row) : Prop :=
  Forall2 (fun r r' : row => where_ "id" id r = false -> r' = r) table table'.

(** The UTF-8 text of a well-formed JavaScript string: it is read and
    written back unchanged. *)
Definition utf8_text (s : string) : Prop :=
  Vault.well_formed (to_js s) = true /\ of_js (to_js s) = s.

(** Rows in the order [ORDER BY created_at DESC] gives. *)
Fixpoint newest_first (rows : list row) : Prop :=
  match rows with
  | [] => True
  | r :: older =>
      Forall (fun r' : row => (created_at r' <= created_at r)%Z) older /\
      newest_first older
  end.

(** The reply to a request that is turned down with the given status. *)
Definition turned_down (r : reply) (status : Z) (message : string) : Prop :=
  reply_status r = status /\ reply_body r = ErrorBody message.

(** The requester does not own a bot of id [req.params.id]. *)
Definition not_owner (req : http_request) (w : World) : Prop :=
  match stored_bot (req_params_id req) w with
  | None => True
  | Some bot => get bot "user_id" <> req_user_id req
  end.

(** The outside world never reports the deployment as successful. *)
Definition never_succeeds (E : Env) (deploymentId : string) : Prop :=
  forall sent,
    let r := answer E sent (GqlDeployment deploymentId) in
    rejects r = true \/ r_status r <> "SUCCESS".

(** The AI provider cannot be reached or answers with an error, whatever it
    is asked. *)
Definition ai_fails (E : Env) : Prop :=
  forall sent apiKey model messages,
    let r := answer E sent (OpenAIChatCompletion apiKey model messages) in
    rejects r = true \/ r_error r = true.

(** What the in-process runner answers when it got no reply from the AI
    provider: the first text when the provider answers with an error, the
    second when the request itself fails. *)
Definition apologies : list string :=
  ["Désolé, je rencontre un problème. Réessayez plus tard.";
   "Désolé, une erreur s'est produite."].

(* ===================================================================== *)
(** * More worlds to evaluate the services on *)
(* ===================================================================== *)

Module Scenario.

(** A request on [bot-0] by another user. *)
Definition stranger_request : http_request :=
  {| req_body := ∅; req_params_id := VStr "bot-0";
     req_user_id := VStr "user-2"; req_user_maxBots := 1 |}.

(** The owner changes the model of [bot-0]. *)
Definition model_request : http_request :=
  {| req_body := {[ "aiModel" := VStr "gpt-4o-mini" ]};
     req_params_id := VStr "bot-0";
     req_user_id := VStr "user-1"; req_user_maxBots := 1 |}.

(** An outside world in which Railway accepts every request and reports
    every deployment as failed. *)
Definition failing : Env :=
  Example.env_with
    (fun _ c =>
       match c with
       | GqlDeployment _ =>
           {| rejects := false; r_message := ""; r_id := "dep-1";
              r_status := "FAILED"; r_domains := []; r_ok := false;
              r_error := false; r_content := VUndef |}
       | _ => Example.accepted
       end).

(** An outside world in which the AI provider answers with an error. *)
Definition ai_down : Env :=
  Example.env_with
    (fun _ c =>
       match c with
       | OpenAIChatCompletion _ _ _ =>
           {| rejects := false; r_message := ""; r_id := ""; r_status := "";
              r_domains := []; r_ok := false; r_error := true;
              r_content := VUndef |}
       | _ => Example.accepted
       end).

(** The arguments of [create] for a second bot. *)
Definition second_bot : Bot.create_args :=
  {| Bot.userId := VStr "user-2"; Bot.name := VStr "second";
     Bot.platform := VStr "telegram";
     Bot.platformToken := VStr "654321:other-token";
     Bot.aiProvider := VStr "ANTHROPIC"; Bot.aiToken := VStr "sk-ant-key";
     Bot.aiModel := VStr "claude-3-5-sonnet-latest";
     Bot.systemPrompt := VUndef; Bot.configJson := VUndef |}.



(** Another nonce. *)
Definition other_iv : list byte :=
  map Vault.byte_of_N [16; 15; 14; 13; 12; 11; 10; 9; 8; 7; 6; 5; 4; 3; 2; 1]%N.

End Scenario.

(* ===================================================================== *)
(** * Properties of the credential vault *)
(* ===================================================================== *)

Module VaultFacts.
Import Vault.
Local Open Scope N_scope.

(** ** The encodings *)

Lemma to_N_byte_of_N (n : N) : n < 256 -> Byte.to_N (byte_of_N n) = n.
Proof.
  intros Hn. unfold byte_of_N. rewrite N.mod_small by exact Hn.
  destruct (Byte.of_N n) as [b|] eqn:E.
  - by apply Byte.to_of_N.
  - apply Byte.of_N_None_iff in E. lia.
Qed.

Lemma byte_of_N_to_N (b : byte) : byte_of_N (Byte.to_N b) = b.
Proof.
  unfold byte_of_N. pose proof (Byte.to_N_bounded b).
  rewrite N.mod_small by lia. by rewrite Byte.of_to_N.
Qed.

Lemma unbase64_b64_char (n : N) : n < 64 -> unbase64 (b64_char n) = Some n.
Proof.
  intros Hn. rewrite <- (N2Nat.id n). assert (N.to_nat n < 64)%nat as Hk by lia.
  generalize dependent (N.to_nat n). clear. intros k Hk.
  do 64 (destruct k as [|k]; [reflexivity|]). lia.
Qed.

Lemma list_ind3 {A} (P : list A -> Prop) :
  P [] -> (forall a, P [a]) -> (forall a b, P [a; b]) ->
  (forall a b c r, P r -> P (a :: b :: c :: r)) -> forall l, P l.
Proof.
  intros H0 H1 H2 H3.
  fix IH 1. intros [|a [|b [|c r]]]; [apply H0 | apply H1 | apply H2 | apply H3, IH].
Qed.


Lemma unbase64_pad : unbase64 "="%char = None.
Proof. reflexivity. Qed.

Ltac byte_eq := etransitivity; [ | apply byte_of_N_to_N ]; f_equal; lia.

Lemma base64_list_roundtrip (bs : list byte) :
  bytes_of_sextets (sextets (base64_encode_list bs)) = bs.
Proof.
  induction bs as [|a|a b|a b c r IH] using list_ind3.
  - reflexivity.
  - pose proof (Byte.to_N_bounded a).
    cbn [base64_encode_list sextets].
    rewrite !unbase64_b64_char, unbase64_pad by lia.
    cbn [Ascii.eqb Bool.eqb bytes_of_sextets].
    f_equal. byte_eq.
  - pose proof (Byte.to_N_bounded a). pose proof (Byte.to_N_bounded b).
    cbn [base64_encode_list sextets].
    rewrite !unbase64_b64_char, unbase64_pad by lia.
    cbn [Ascii.eqb Bool.eqb bytes_of_sextets].
    f_equal; [byte_eq | f_equal; byte_eq].
  - pose proof (Byte.to_N_bounded a). pose proof (Byte.to_N_bounded b).
    pose proof (Byte.to_N_bounded c).
    cbn [base64_encode_list sextets app].
    rewrite !unbase64_b64_char by lia.
    cbn [bytes_of_sextets app]. rewrite IH.
    f_equal; [byte_eq | f_equal; [byte_eq | f_equal; byte_eq]].
Qed.

Lemma base64_roundtrip (bs : list byte) : base64_decode (base64_encode bs) = bs.
Proof.
  unfold base64_decode, base64_encode.
  rewrite String.list_ascii_of_string_of_list_ascii. apply base64_list_roundtrip.
Qed.

Ltac bool_lia :=
  repeat match goal with
  | H : _ && _ = true |- _ => apply andb_true_iff in H; destruct H
  | H : _ && _ = false |- _ => apply andb_false_iff in H; destruct H
  | H : negb _ = true |- _ => apply negb_true_iff in H
  | H : negb _ = false |- _ => apply negb_false_iff in H
  | H : (_ <=? _) = true |- _ => apply N.leb_le in H
  | H : (_ <=? _) = false |- _ => apply N.leb_gt in H
  | H : (_ <? _) = true |- _ => apply N.ltb_lt in H
  | H : (_ <? _) = false |- _ => apply N.ltb_ge in H
  | H : (_ =? _) = true |- _ => apply N.eqb_eq in H
  | H : (_ =? _) = false |- _ => apply N.eqb_neq in H
  end; try lia.

Ltac step_if :=
  match goal with
  | |- context [if (if ?b then _ else _) then _ else _] =>
      let E := fresh "E" in destruct b eqn:E; bool_lia
  | |- context [if ?b then _ else _] =>
      let E := fresh "E" in destruct b eqn:E; bool_lia
  end.

Ltac decode_head :=
  cbn [app];
  match goal with
  | |- utf8_decode (_ :: ?r0) = _ =>
      let t := fresh "t" in
      let Et := fresh "Et" in
      remember r0 as t eqn:Et; cbn [utf8_decode]; subst t; cbv beta iota zeta
  end;
  unfold is_continuation, second_of_3, second_of_4, in_range, low6;
  rewrite ?to_N_byte_of_N by lia;
  repeat step_if.


Lemma utf8_decode_1 (c : N) (r : list byte) :
  c < 0x80 -> utf8_decode (utf8_1 c ++ r) = c :: utf8_decode r.
Proof. intros Hc. unfold utf8_1. decode_head. reflexivity. Qed.

Lemma utf8_decode_2 (c : N) (r : list byte) :
  0x80 <= c < 0x800 -> utf8_decode (utf8_2 c ++ r) = c :: utf8_decode r.
Proof.
  intros Hc. unfold utf8_2.
  set (q1 := c / 64); set (q2 := c mod 64).
  assert (q1 < 32 /\ q2 < 64 /\ c = q1 * 64 + q2) as Hq by (subst q1 q2; lia).
  clearbody q1 q2. decode_head; f_equal; lia.
Qed.

Lemma utf8_decode_3 (c : N) (r : list byte) :
  0x800 <= c < 0x10000 -> c < 0xD800 \/ 0xE000 <= c ->
  utf8_decode (utf8_3 c ++ r) = c :: utf8_decode r.
Proof.
  intros Hc Hs. unfold utf8_3.
  set (q1 := c / 4096); set (q2 := (c / 64) mod 64); set (q3 := c mod 64).
  assert (q1 < 16 /\ q2 < 64 /\ q3 < 64 /\ c = q1 * 4096 + q2 * 64 + q3) as Hq
    by (subst q1 q2 q3; lia).
  clearbody q1 q2 q3. decode_head; f_equal; lia.
Qed.

Lemma utf8_decode_4 (cp : N) (r : list byte) :
  0x10000 <= cp < 0x110000 ->
  utf8_decode (utf8_4 cp ++ r) = surrogates_of cp ++ utf8_decode r.
Proof.
  intros Hc. unfold utf8_4.
  set (q1 := cp / 262144); set (q2 := (cp / 4096) mod 64);
  set (q3 := (cp / 64) mod 64); set (q4 := cp mod 64).
  assert (q1 < 5 /\ q2 < 64 /\ q3 < 64 /\ q4 < 64 /\
          cp = q1 * 262144 + q2 * 4096 + q3 * 64 + q4) as Hq
    by (subst q1 q2 q3 q4; lia).
  clearbody q1 q2 q3 q4. decode_head; f_equal; f_equal; lia.
Qed.

Lemma surrogates_of_pair (hi lo : N) :
  is_high_surrogate hi = true -> is_low_surrogate lo = true ->
  surrogates_of (pair_code_point hi lo) = [hi; lo].
Proof.
  unfold is_high_surrogate, is_low_surrogate, surrogates_of, pair_code_point.
  intros Hh Hl. bool_lia. f_equal; [|f_equal]; lia.
Qed.

Lemma pair_code_point_range (hi lo : N) :
  is_high_surrogate hi = true -> is_low_surrogate lo = true ->
  0x10000 <= pair_code_point hi lo < 0x110000.
Proof.
  unfold is_high_surrogate, is_low_surrogate, pair_code_point.
  intros Hh Hl. bool_lia.
Qed.

Lemma utf8_roundtrip_upto (n : nat) :
  forall s : js_string, (length s <= n)%nat -> well_formed s = true ->
    utf8_decode (utf8_encode s) = s.
Proof.
  induction n as [|n IH]; intros [|c rest] Hlen Hwf; try reflexivity.
  - cbn in Hlen. lia.
  - cbn [length] in Hlen. cbn [well_formed] in Hwf. cbn [utf8_encode].
    destruct (is_high_surrogate c) eqn:Hhi.
    + destruct rest as [|d rest']; [discriminate|].
      apply andb_true_iff in Hwf as [Hlo Hwf]. rewrite Hlo.
      assert ((c <? 0x80) = false) as ->
        by (unfold is_high_surrogate in Hhi; apply N.ltb_ge; bool_lia).
      assert ((c <? 0x800) = false) as ->
        by (unfold is_high_surrogate in Hhi; apply N.ltb_ge; bool_lia).
      rewrite utf8_decode_4 by (by apply pair_code_point_range).
      rewrite surrogates_of_pair by done. cbn [app]. do 2 f_equal.
      apply IH; [cbn [length] in Hlen; lia | done].
    + apply andb_true_iff in Hwf as [Hwf Hrest].
      apply andb_true_iff in Hwf as [Hc Hlo].
      apply negb_true_iff in Hlo. rewrite Hlo.
      assert (utf8_decode (utf8_encode rest) = rest) as Hrec by (apply IH; [lia|done]).
      unfold is_high_surrogate in Hhi. unfold is_low_surrogate in Hlo.
      destruct (c <? 0x80) eqn:E1; [rewrite utf8_decode_1, Hrec; bool_lia; done|].
      destruct (c <? 0x800) eqn:E2; [rewrite utf8_decode_2, Hrec; bool_lia; done|].
      rewrite utf8_decode_3, Hrec; bool_lia; done.
Qed.

Lemma utf8_roundtrip (s : js_string) :
  well_formed s = true -> utf8_decode (utf8_encode s) = s.
Proof. apply (utf8_roundtrip_upto (length s)). lia. Qed.

Lemma utf8_decode_replacement (r : list byte) :
  utf8_decode (replacement ++ r) = 0xFFFD :: utf8_decode r.
Proof. unfold replacement. apply utf8_decode_3; lia. Qed.

(** What comes back of any string of 16-bit code units once it has been
    written as UTF-8 and read again. *)
Lemma utf8_decode_encode_upto (n : nat) :
  forall s : js_string, (length s <= n)%nat -> Forall (fun u => u < 0x10000) s ->
    utf8_decode (utf8_encode s) = to_well_formed s.
Proof.
  induction n as [|n IH]; intros [|c rest] Hlen Hall; try reflexivity.
  - cbn in Hlen. lia.
  - cbn [length] in Hlen. apply Forall_cons in Hall as [Hc Hall].
    assert (utf8_decode (utf8_encode rest) = to_well_formed rest) as Hrec
      by (apply IH; [lia|done]).
    destruct (is_high_surrogate c) eqn:Hhi.
    + cbn [utf8_encode to_well_formed]. rewrite Hhi.
      assert ((c <? 0x80) = false) as ->
        by (unfold is_high_surrogate in Hhi; apply N.ltb_ge; bool_lia).
      assert ((c <? 0x800) = false) as ->
        by (unfold is_high_surrogate in Hhi; apply N.ltb_ge; bool_lia).
      destruct rest as [|d rest'].
      * rewrite <- (app_nil_r replacement). by rewrite utf8_decode_replacement.
      * destruct (is_low_surrogate d) eqn:Hlo.
        -- rewrite utf8_decode_4 by (by apply pair_code_point_range).
           rewrite surrogates_of_pair by done. cbn [app]. do 2 f_equal.
           apply Forall_cons in Hall as [_ Hall].
           apply IH; [cbn [length] in Hlen; lia | done].
        -- by rewrite utf8_decode_replacement, Hrec.
    + cbn [utf8_encode to_well_formed]. rewrite Hhi.
      unfold is_high_surrogate in Hhi.
      destruct (c <? 0x80) eqn:E1.
      { assert (is_low_surrogate c = false) as ->
          by (unfold is_low_surrogate; apply andb_false_iff; left;
              apply N.leb_gt; bool_lia).
        rewrite utf8_decode_1, Hrec; bool_lia; done. }
      destruct (c <? 0x800) eqn:E2.
      { assert (is_low_surrogate c = false) as ->
          by (unfold is_low_surrogate; apply andb_false_iff; left;
              apply N.leb_gt; bool_lia).
        rewrite utf8_decode_2, Hrec; bool_lia; done. }
      destruct (is_low_surrogate c) eqn:Hlo.
      * by rewrite utf8_decode_replacement, Hrec.
      * unfold is_low_surrogate in Hlo.
        rewrite utf8_decode_3, Hrec; bool_lia; done.
Qed.

Lemma utf8_decode_encode (s : js_string) :
  Forall (fun u => u < 0x10000) s ->
  utf8_decode (utf8_encode s) = to_well_formed s.
Proof. apply (utf8_decode_encode_upto (length s)). lia. Qed.

(** A well-formed string is left as it is, and only such a string is. *)
Lemma to_well_formed_id_upto (n : nat) :
  forall s : js_string, (length s <= n)%nat ->
    (well_formed s = true -> to_well_formed s = s) /\
    (Forall (fun u => u < 0x10000) s -> to_well_formed s = s ->
     well_formed s = true).
Proof.
  induction n as [|n IH]; intros [|c rest] Hlen; try (by split).
  - cbn in Hlen. lia.
  - cbn [length] in Hlen. cbn [well_formed to_well_formed].
    destruct (is_high_surrogate c) eqn:Hhi.
    + destruct rest as [|d rest']; [split; [done|]|].
      * intros _ [= <-]. by vm_compute in Hhi.
      * cbn [length] in Hlen.
        destruct (IH rest' ltac:(lia)) as [IH1 IH2].
        destruct (is_low_surrogate d) eqn:Hlo; cbn [andb]; split.
        -- intros Hwf. by rewrite IH1.
        -- intros Hall [= Heq]. apply IH2; [|done].
           by do 2 apply Forall_cons in Hall as [_ Hall].
        -- done.
        -- intros _ [= <- _]. by vm_compute in Hhi.
    + destruct (IH rest ltac:(lia)) as [IH1 IH2].
      destruct (is_low_surrogate c) eqn:Hlo; split.
      * by rewrite andb_false_r.
      * intros _ [= <- _]. by vm_compute in Hhi.
      * intros Hwf. apply andb_true_iff in Hwf as [_ Hwf]. by rewrite IH1.
      * intros Hall [= Heq]. apply Forall_cons in Hall as [Hc Hall].
        rewrite (proj2 (N.ltb_lt _ _) Hc). cbn [negb andb]. by apply IH2.
Qed.

(** *** The blob layout *)

Lemma blob_layout (iv tag ct : list byte) :
  length iv = 16%nat -> length tag = 16%nat ->
  take 16 (iv ++ tag ++ ct) = iv /\
  take 16 (drop 16 (iv ++ tag ++ ct)) = tag /\
  drop 32 (iv ++ tag ++ ct) = ct.
Proof.
  intros Hiv Htag. repeat split.
  - by rewrite take_app_length'.
  - rewrite drop_app_length' by done. by rewrite take_app_length'.
  - rewrite drop_app_ge by lia. rewrite Hiv. by rewrite drop_app_length'.
Qed.

Lemma decrypt_of_data (c : cipher) (key iv tag ct : list byte) (blob : string) :
  base64_decode blob = iv ++ tag ++ ct ->
  length iv = 16%nat -> length tag = 16%nat ->
  decrypt c key blob =
  match open c key iv tag ct with
  | Some plain => Ok (utf8_decode plain)
  | None => Throw "Failed to decrypt data"%string
  end.
Proof.
  intros Hdata Hiv Htag. unfold decrypt. rewrite Hdata, base64_roundtrip.
  by destruct (blob_layout iv tag ct Hiv Htag) as (-> & -> & ->).
Qed.

Lemma decrypt_layout (c : cipher) (key iv tag ct : list byte) :
  length iv = 16%nat -> length tag = 16%nat ->
  decrypt c key (base64_encode (iv ++ tag ++ ct)) =
  match open c key iv tag ct with
  | Some plain => Ok (utf8_decode plain)
  | None => Throw "Failed to decrypt data"%string
  end.
Proof. apply decrypt_of_data, base64_roundtrip. Qed.

Lemma encrypt_blob (c : cipher) (key iv ct tag : list byte) (text : js_string) :
  seal c key iv (utf8_encode text) = Some (ct, tag) ->
  encrypt c key iv text = Ok (base64_encode (iv ++ tag ++ ct)).
Proof. intros H. unfold encrypt. rewrite H. by rewrite base64_roundtrip. Qed.

Lemma encrypt_inv (c : cipher) (key iv : list byte) (text : js_string) (blob : string) :
  encrypt c key iv text = Ok blob ->
  exists ct tag, seal c key iv (utf8_encode text) = Some (ct, tag) /\
                 blob = base64_encode (iv ++ tag ++ ct).
Proof.
  unfold encrypt. destruct (seal c key iv (utf8_encode text)) as [[ct tag]|]; [|done].
  intros [= <-]. exists ct, tag. by rewrite base64_roundtrip.
Qed.

Lemma encrypt_throws (c : cipher) (key iv : list byte) (text : js_string)
    (message : string) :
  encrypt c key iv text = Throw message -> message = "Failed to encrypt data"%string.
Proof.
  unfold encrypt. destruct (seal c key iv (utf8_encode text)) as [[ct tag]|]; [done|].
  by intros [= <-].
Qed.

(** Whatever the plaintext, decrypting an encrypted blob yields the string
    its UTF-8 bytes decode to. *)
Lemma decrypt_encrypt_utf8 (c : cipher) (key iv : list byte) (text : js_string) :
  aead_correct c key -> length iv = 16%nat ->
  exists blob, encrypt c key iv text = Ok blob /\
               decrypt c key blob = Ok (utf8_decode (utf8_encode text)).
Proof.
  intros [Hseal Hopen] Hiv.
  destruct (Hseal iv (utf8_encode text) Hiv) as (ct & tag & Hs & Htag).
  exists (base64_encode (iv ++ tag ++ ct)). split; [by apply encrypt_blob|].
  rewrite decrypt_layout by done. by rewrite (Hopen _ _ _ _ Hs).
Qed.

(** *** The reference cipher meets the contracts *)

Lemma same_bytes_eq (l l' : list byte) : same_bytes l l' = true <-> l = l'.
Proof.
  unfold same_bytes. rewrite bool_decide_eq_true. split; [|by intros ->].
  revert l'. induction l as [|a l IH]; intros [|a' l']; try done.
  cbn. intros [= Ha Hl]. f_equal; [|by apply IH].
  by rewrite <- (byte_of_N_to_N a), Ha, byte_of_N_to_N.
Qed.






Lemma checksum_cipher_correct (key : list byte) :
  length key = 32%nat -> aead_correct checksum_cipher key.
Proof.
  intros Hk. split; cbn.
  - intros iv pt _. exists pt, (checksum_tag iv pt).
    rewrite bool_decide_eq_true_2 by done. done.
  - intros iv pt ct tag. rewrite bool_decide_eq_true_2 by done.
    intros [= <- <-]. cbn.
    by rewrite (proj2 (same_bytes_eq _ _) eq_refl).
Qed.





(** *** Round trip *)

(** C1 (as amended): for every plaintext string [P] (a sequence of 16-bit
    code units), under a key the cipher accepts and whatever 16-byte nonce
    [randomBytes] returned, [encrypt] returns a blob and [decrypt] of that
    blob returns [P] with U+FFFD in the place of every unpaired surrogate:
    exactly [P] when [P] is well formed, and another string when it is
    not. *)
Theorem decrypt_encrypt_to_well_formed
    (c : cipher) (key iv : list byte) (P : js_string) :
  aead_correct c key -> length iv = 16%nat ->
  Forall (fun u => u < 0x10000) P ->
  exists blob,
    encrypt c key iv P = Ok blob /\
    decrypt c key blob = Ok (to_well_formed P) /\
    (well_formed P = true -> decrypt c key blob = Ok P) /\
    (well_formed P = false -> to_well_formed P <> P).
Proof.
  intros Hc Hiv Hall.
  destruct (decrypt_encrypt_utf8 c key iv P Hc Hiv) as (blob & He & Hd).
  destruct (to_well_formed_id_upto (length P) P ltac:(lia)) as [Hid Honly].
  exists blob. rewrite Hd, utf8_decode_encode by done.
  split; [done|]. split; [done|]. split.
  - intros Hwf. by rewrite Hid.
  - intros Hwf Heq. rewrite Honly in Hwf; done.
Qed.

Lemma decrypt_encrypt_to_well_formed_witness :
  exists blob,
    encrypt checksum_cipher example_key example_iv [72; 0xD800; 105; 0xD83D; 0xDE00]
    = Ok blob /\
    decrypt checksum_cipher example_key blob
    = Ok (to_well_formed [72; 0xD800; 105; 0xD83D; 0xDE00]) /\
    (well_formed [72; 0xD800; 105; 0xD83D; 0xDE00] = true ->
     decrypt checksum_cipher example_key blob
     = Ok [72; 0xD800; 105; 0xD83D; 0xDE00]) /\
    (well_formed [72; 0xD800; 105; 0xD83D; 0xDE00] = false ->
     to_well_formed [72; 0xD800; 105; 0xD83D; 0xDE00]
     <> [72; 0xD800; 105; 0xD83D; 0xDE00]).
Proof.
  apply (decrypt_encrypt_to_well_formed checksum_cipher example_key example_iv).
  - apply checksum_cipher_correct. reflexivity.
  - reflexivity.
  - repeat (apply Forall_cons; split; [reflexivity|]). apply Forall_nil_2.
Defined.

(** C1 (as stated) fails on a plaintext that holds an unpaired surrogate:
    the code unit U+D800 is encrypted as the bytes of U+FFFD, and that is
    what [decrypt] returns. *)
Lemma unpaired_surrogate_not_restored :
  aead_correct checksum_cipher example_key /\
  exists blob,
    encrypt checksum_cipher example_key example_iv [0xD800] = Ok blob /\
    decrypt checksum_cipher example_key blob = Ok [0xFFFD].
Proof.
  split; [by apply checksum_cipher_correct|].
  eexists. split; [vm_compute; reflexivity|]. vm_compute. reflexivity.
Qed.

(** *** Tampering *)


(** *** One character of the text *)














(** *** The key *)

Lemma utf8_encode_ascii (s : js_string) :
  Forall (fun c => c < 0x80) s -> length (utf8_encode s) = length s.
Proof.
  induction 1 as [|c s Hc _ IH]; [done|].
  cbn [utf8_encode]. rewrite (proj2 (N.ltb_lt _ _) Hc). cbn. by rewrite IH.
Qed.

(** The key derived from a secret of ASCII characters only, whatever its
    length, is 32 bytes long, as AES-256 requires. *)
Theorem derive_key_ascii_length (KEY : js_string) :
  Forall (fun c => c < 0x80) KEY -> length (derive_key KEY) = 32%nat.
Proof.
  intros Hascii. unfold derive_key. rewrite utf8_encode_ascii.
  - rewrite length_take, length_app, repeat_length. lia.
  - apply Forall_take, Forall_app. split; [done|].
    apply Forall_forall. intros c Hc. apply list_elem_of_In, repeat_spec in Hc.
    subst c. lia.
Qed.

Lemma derive_key_ascii_length_witness : length (derive_key default_KEY) = 32%nat.
Proof.
  apply derive_key_ascii_length.
  unfold default_KEY. apply Forall_forall. intros c Hc.
  vm_compute in Hc.
  repeat (apply elem_of_cons in Hc as [->|Hc]; [reflexivity|]).
  by apply elem_of_nil in Hc.
Defined.

End VaultFacts.

(* ===================================================================== *)
(** * Properties of the bot record store *)
(* ===================================================================== *)

Section StoreFacts.
Context (E : Env).

(** Running a computation that binds. *)
Lemma run_bind {A B : Type} (m : M A) (f : A -> M B) (w : World) :
  (m ≫= f) w =
  match m w with
  | (Ok a, w') => f a w'
  | (Throw e, w') => (Throw e, w')
  end.
Proof. reflexivity. Qed.

Lemma run_query (q : Sql) (w : World) :
  query E q w = (Ok (exec E q (bots w)).1, after_query E q w).
Proof. unfold query, after_query. by destruct (exec E q (bots w)). Qed.

Lemma run_encrypt (v : val) (w : World) :
  encrypt E v w =
  (match v with
   | VStr s =>
       match Vault.encrypt (cipher E) (key E) (randomBytes E (draws w)) (to_js s) with
       | Ok blob => Ok blob
       | Throw message => Throw (Error message)
       end
   | _ => Throw (Error "Failed to encrypt data")
   end, after_draw w).
Proof.
  unfold encrypt. rewrite run_bind. cbn.
  destruct v as [| | | |s]; try reflexivity.
  by destruct (Vault.encrypt _ _ _ _).
Qed.

Lemma sanitize_no_credentials (bot : row) : no_credentials (Bot.sanitize bot).
Proof.
  unfold no_credentials, Bot.sanitize. split.
  - rewrite lookup_delete_ne by done. apply lookup_delete_eq.
  - apply lookup_delete_eq.
Qed.

Lemma project_no_credentials (bot : row) :
  no_credentials (project user_columns bot).
Proof.
  unfold no_credentials, project.
  split; apply map_lookup_filter_None; right; intros v _ Hin; cbn in Hin;
    by repeat (apply elem_of_cons in Hin as [?|Hin]; [done|]); inversion Hin.
Qed.

Lemma sanitize_first_no_credentials (rows : list row) :
  Forall no_credentials (option_list (Bot.sanitize_first rows)).
Proof.
  unfold Bot.sanitize_first. destruct rows as [|r rows]; cbn; [constructor|].
  repeat constructor; apply sanitize_no_credentials.
Qed.

Lemma returns_sanitized_ret {A : Type} (bots_of : A -> list row) (a : A) :
  Forall no_credentials (bots_of a) -> returns_sanitized bots_of (mret a).
Proof. intros H w. exact H. Qed.

Lemma returns_sanitized_bind {A B : Type} (bots_of : B -> list row)
    (m : M A) (f : A -> M B) :
  (forall a, returns_sanitized bots_of (f a)) ->
  returns_sanitized bots_of (m ≫= f).
Proof.
  intros H w. rewrite run_bind. destruct (m w) as [[a|e] w']; [apply H|done].
Qed.

Lemma create_sanitized (a : Bot.create_args) :
  returns_sanitized option_list (Bot.create E a).
Proof.
  unfold Bot.create.
  do 3 (apply returns_sanitized_bind; intros ?).
  apply returns_sanitized_ret, sanitize_first_no_credentials.
Qed.

Lemma findById_sanitized (id : val) :
  returns_sanitized option_list (Bot.findById E id).
Proof.
  unfold Bot.findById. apply returns_sanitized_bind; intros ?.
  apply returns_sanitized_ret, sanitize_first_no_credentials.
Qed.

Lemma findByServiceId_sanitized (serviceId : val) :
  returns_sanitized option_list (Bot.findByServiceId E serviceId).
Proof.
  unfold Bot.findByServiceId. apply returns_sanitized_bind; intros ?.
  apply returns_sanitized_ret, sanitize_first_no_credentials.
Qed.

Lemma findByUser_sanitized (userId : val) :
  returns_sanitized (fun rows => rows) (Bot.findByUser E userId).
Proof.
  intros w. unfold Bot.findByUser. rewrite run_query. cbn.
  apply Forall_fmap, Forall_forall. intros r _. apply project_no_credentials.
Qed.

Lemma update_sanitized (id : val) (updates : row) :
  returns_sanitized option_list (Bot.update E id updates).
Proof.
  unfold Bot.update. apply returns_sanitized_bind; intros encrypted.
  case_bool_decide.
  - apply returns_sanitized_ret. constructor.
  - apply returns_sanitized_bind; intros ?.
    apply returns_sanitized_ret, sanitize_first_no_credentials.
Qed.

Lemma create_stores_ciphertext (a : Bot.create_args) (w : World) :
  create_effect E a w (Bot.create E a w).
Proof.
  unfold Bot.create, create_effect, sealed. rewrite run_bind, run_encrypt.
  destruct (Bot.platformToken a) as [| | | |s1] eqn:H1; try done.
  destruct (Vault.encrypt _ _ _ (to_js s1)) as [blob1|m1] eqn:He1.
  2: { apply VaultFacts.encrypt_throws in He1 as ->. done. }
  rewrite run_bind, run_encrypt. cbn [draws after_draw].
  destruct (Bot.aiToken a) as [| | | |s2] eqn:H2; try done.
  destruct (Vault.encrypt _ _ _ (to_js s2)) as [blob2|m2] eqn:He2.
  2: { apply VaultFacts.encrypt_throws in He2 as ->. done. }
  rewrite run_bind, run_query.
  eexists. cbn [fst snd exec after_query sql bots mret M_ret Bot.sanitize_first
                head fmap option_fmap option_map].
  split; [|split; [|split; [|done]]].
  - by simplify_map_eq.
  - by simplify_map_eq.
  - intros k [v Hk]. unfold created_columns.
    repeat (apply lookup_insert_Some in Hk as [[<- _]|[_ Hk]];
            [set_solver|]).
    apply lookup_singleton_Some in Hk as [<- _]. set_solver.
Qed.

(** C3: every bot object returned by [create], [findById], [findByUser],
    [findByServiceId] and [update] is without [platform_token_encrypted] and
    [ai_token_encrypted]; and [create] encrypts the two tokens first and then
    sends the database one statement, an insert whose credential columns
    hold the blobs [encrypt] returned, and returns the inserted row without
    them, so the only row it makes visible carries ciphertext; when a token
    cannot be encrypted it throws and sends the database nothing. *)
Theorem store_returns_sanitized_and_create_encrypts :
  (forall a, returns_sanitized option_list (Bot.create E a)) /\
  (forall id, returns_sanitized option_list (Bot.findById E id)) /\
  (forall userId, returns_sanitized (fun rows => rows) (Bot.findByUser E userId)) /\
  (forall serviceId, returns_sanitized option_list (Bot.findByServiceId E serviceId)) /\
  (forall id updates, returns_sanitized option_list (Bot.update E id updates)) /\
  (forall a w, create_effect E a w (Bot.create E a w)).
Proof.
  repeat split.
  - apply create_sanitized.
  - apply findById_sanitized.
  - apply findByUser_sanitized.
  - apply findByServiceId_sanitized.
  - apply update_sanitized.
  - apply create_stores_ciphertext.
Qed.

Lemma filter_none {A : Type} (f : A -> bool) (l : list A) :
  Forall (fun x => f x = false) l -> List.filter f l = [].
Proof. induction 1 as [|x l Hx _ IH]; cbn; [done|]. by rewrite Hx. Qed.

Lemma regular_fields_none (updates : row) :
  (forall k, k ∈ Bot.allowedFields -> updates !! k = None) ->
  Bot.regular_fields E updates = [].
Proof.
  intros Hnone. unfold Bot.regular_fields. rewrite filter_none; [done|].
  apply Forall_forall. intros [k v] Hin. apply bool_decide_eq_false. intros Hk.
  apply elem_of_map_to_list in Hin. cbn in Hk. by rewrite (Hnone k Hk) in Hin.
Qed.

(** C10: when [updates] holds no allowed field and no [ai_token], [update]
    returns [null] and leaves the world as it was: no statement is sent and
    no row changes. *)
Theorem update_without_fields_is_noop (id : val) (updates : row) (w : World) :
  (forall k, k ∈ Bot.allowedFields -> updates !! k = None) ->
  updates !! "ai_token" = None ->
  Bot.update E id updates w = (Ok None, w).
Proof.
  intros Hnone Htoken. unfold Bot.update.
  rewrite (regular_fields_none updates Hnone). unfold get. rewrite Htoken.
  reflexivity.
Qed.

End StoreFacts.

Lemma update_without_fields_is_noop_witness :
  Bot.update Example.env (VStr "bot-0")
    {[ "id" := VStr "bot-9"; "platform_token_encrypted" := VStr "leak" ]}
    Example.one_bot
  = (Ok None, Example.one_bot).
Proof.
  apply update_without_fields_is_noop.
  - intros k Hk. unfold Bot.allowedFields in Hk.
    repeat (apply elem_of_cons in Hk as [->|Hk]; [reflexivity|]).
    by apply elem_of_nil in Hk.
  - reflexivity.
Defined.

(* ===================================================================== *)
(** * Properties of the controller *)
(* ===================================================================== *)

Section ControllerFacts.
Context (E : Env).

Lemma same_state_refl (w : World) : same_state w w.
Proof. by repeat split. Qed.

Lemma same_state_trans (w1 w2 w3 : World) :
  same_state w1 w2 -> same_state w2 w3 -> same_state w1 w3.
Proof.
  unfold same_state. intros (?&?&?&?&?) (?&?&?&?&?). repeat split; congruence.
Qed.

Lemma select_same_state (id : val) (w : World) :
  same_state w (after_query E (SelectBotById id) w).
Proof. by repeat split. Qed.

Lemma count_same_state (userId : val) (w : World) :
  same_state w (after_query E (CountBotsByUser userId) w).
Proof. by repeat split. Qed.

Lemma run_findById (id : val) (w : World) :
  Bot.findById E id w =
  (Ok (Bot.sanitize <$> stored_bot id w), after_query E (SelectBotById id) w).
Proof. unfold Bot.findById. by rewrite run_bind, run_query. Qed.

Lemma run_countByUser (userId : val) (w : World) :
  Bot.countByUser E userId w =
  (Ok (bot_count userId w), after_query E (CountBotsByUser userId) w).
Proof. unfold Bot.countByUser. by rewrite run_bind, run_query. Qed.

Lemma get_sanitize (bot : row) (k : string) :
  k <> "platform_token_encrypted" -> k <> "ai_token_encrypted" ->
  get (Bot.sanitize bot) k = get bot k.
Proof.
  intros H1 H2. unfold get, Bot.sanitize. by rewrite !lookup_delete_ne.
Qed.

Lemma errorHandler_AppError (message : string) (statusCode : Z) :
  errorHandler (AppError message statusCode) =
  {| res_status := statusCode;
     res_error := Some (if bool_decide (message = "")
                        then "Internal server error" else message);
     res_message := None; res_bot := None; res_runtime := None |}.
Proof. reflexivity. Qed.

Lemma rejected_AppError (message : string) (statusCode : Z) :
  rejected {| sent := errorHandler (AppError message statusCode); unawaited := [] |}
    statusCode.
Proof. rewrite errorHandler_AppError. by repeat split. Qed.

(** C4 (as amended): when the user's bot count is at or above [maxBots], a
    creation request is turned down before anything is stored, sent out or
    started: a valid request with 403 [Bot limit reached], the spec's
    QuotaExceeded, and a request the schema refuses with 400; the bot count
    is unchanged. *)
Theorem createBot_at_ceiling_rejected (req : http_request) (w : World) :
  (req_user_maxBots req <= bot_count (req_user_id req) w)%Z ->
  let r := asyncHandler (botController.createBot E) req w in
  rejected r.1
    (if botController.validate botController.createBotSchema (req_body req)
     is Ok _ then 403 else 400)%Z /\
  same_state w r.2 /\
  bot_count (req_user_id req) r.2 = bot_count (req_user_id req) w.
Proof.
  intros Hceiling. unfold asyncHandler, botController.createBot.
  destruct (botController.validate _ _) as [value|message]; cbn zeta.
  - rewrite run_bind, run_countByUser.
    rewrite (proj2 (Z.leb_le _ _) Hceiling).
    split; [apply rejected_AppError|]. split; [apply count_same_state|done].
  - split; [apply rejected_AppError|]. split; [apply same_state_refl|done].
Qed.

(** C5: for a bot whose status is not [running], the stop request is turned
    down (400 for its owner, 404 for anyone else) and changes nothing; for a
    bot whose status is [running], so is the start request. *)
Theorem stop_and_start_in_wrong_state_rejected
    (p : backend) (req : http_request) (w : World) (bot : row) :
  stored_bot (req_params_id req) w = Some bot ->
  let status := if bool_decide (get bot "user_id" = req_user_id req)
                then 400%Z else 404%Z in
  (get bot "status" <> VStr "running" ->
   let r := asyncHandler (botController.stopBot E p) req w in
   rejected r.1 status /\ same_state w r.2) /\
  (get bot "status" = VStr "running" ->
   let r := asyncHandler (botController.startBot E p) req w in
   rejected r.1 status /\ same_state w r.2).
Proof.
  intros Hbot. cbn zeta. split; intros Hstatus.
  - unfold asyncHandler, botController.stopBot.
    rewrite run_bind, run_findById, Hbot. cbn [fmap option_fmap option_map].
    rewrite !get_sanitize by done.
    destruct (decide (get bot "user_id" = req_user_id req)) as [Howner|Hother].
    + rewrite (bool_decide_eq_true_2 _ Howner).
      rewrite bool_decide_eq_false_2 by (intros H; by apply H).
      rewrite bool_decide_eq_true_2 by done.
      split; [apply rejected_AppError|apply select_same_state].
    + rewrite (bool_decide_eq_false_2 _ Hother).
      rewrite bool_decide_eq_true_2 by done.
      split; [apply rejected_AppError|apply select_same_state].
  - unfold asyncHandler, botController.startBot.
    rewrite run_bind, run_findById, Hbot. cbn [fmap option_fmap option_map].
    rewrite !get_sanitize by done.
    destruct (decide (get bot "user_id" = req_user_id req)) as [Howner|Hother].
    + rewrite (bool_decide_eq_true_2 _ Howner).
      rewrite bool_decide_eq_false_2 by (intros H; by apply H).
      rewrite bool_decide_eq_true_2 by done.
      split; [apply rejected_AppError|apply select_same_state].
    + rewrite (bool_decide_eq_false_2 _ Hother).
      rewrite bool_decide_eq_true_2 by done.
      split; [apply rejected_AppError|apply select_same_state].
Qed.

End ControllerFacts.

Lemma createBot_at_ceiling_rejected_witness :
  let r := asyncHandler (botController.createBot Example.env)
             Example.create_request Example.one_bot in
  rejected r.1 403%Z /\ same_state Example.one_bot r.2 /\
  bot_count (VStr "user-1") r.2 = bot_count (VStr "user-1") Example.one_bot.
Proof.
  assert (req_user_maxBots Example.create_request
          <= bot_count (req_user_id Example.create_request) Example.one_bot)%Z
    as Hceiling by (by vm_compute).
  exact (createBot_at_ceiling_rejected Example.env Example.create_request
           Example.one_bot Hceiling).
Defined.

(** C4 (as stated) fails on a request the schema refuses: at the ceiling, a
    creation request whose name is too short is turned down by the
    validation, with status 400 and not with the 403 of the bot limit. *)
Lemma invalid_request_at_ceiling_is_a_validation_error :
  (req_user_maxBots Example.short_name_request
   <= bot_count (req_user_id Example.short_name_request) Example.one_bot)%Z /\
  res_status (sent (asyncHandler (botController.createBot Example.env)
                      Example.short_name_request Example.one_bot).1) = 400%Z.
Proof. split; by vm_compute. Qed.

Lemma stop_and_start_in_wrong_state_rejected_witness :
  let r := asyncHandler (botController.stopBot Example.env Mock)
             Example.owner_request Example.one_bot in
  rejected r.1 400%Z /\ same_state Example.one_bot r.2.
Proof.
  assert (stored_bot (req_params_id Example.owner_request) Example.one_bot
          = Some (Example.bot_0 Example.one_bot)) as Hbot by reflexivity.
  assert (get (Example.bot_0 Example.one_bot) "status" <> VStr "running")
    as Hstatus by (vm_compute; discriminate).
  exact (proj1 (stop_and_start_in_wrong_state_rejected Example.env Mock
                  Example.owner_request Example.one_bot _ Hbot) Hstatus).
Defined.

(* ===================================================================== *)
(** * What the backends leave of the bot records *)
(* ===================================================================== *)

Section KeepsIds.
Context (E : Env).







Lemma keeps_ids_draw : keeps_ids (draw E).
Proof. by intros w. Qed.

Lemma keeps_ids_encrypt (v : val) : keeps_ids (encrypt E v).
Proof. intros w. by rewrite run_encrypt. Qed.






Lemma assign_other (assignments : list (string * val)) (r : row) (k : string) :
  k ∉ assignments.*1 -> assign assignments r !! k = r !! k.
Proof.
  unfold assign. revert r.
  induction assignments as [|[k' v] l IH]; intros r Hk; [done|].
  cbn in *. apply not_elem_of_cons in Hk as [Hne Hk].
  rewrite IH by done. by apply lookup_insert_ne.
Qed.






Lemma regular_fields_keys (updates : row) (k : string) :
  k ∈ (Bot.regular_fields E updates).*1 -> k ∈ Bot.allowedFields.
Proof.
  unfold Bot.regular_fields. intros Hk.
  apply list_elem_of_fmap in Hk as ([k' v] & -> & Hin).
  apply list_elem_of_fmap in Hin as ([k'' v'] & [= -> _] & Hin).
  apply list_elem_of_In, filter_In in Hin as [_ Hin].
  by apply bool_decide_eq_true in Hin.
Qed.

Lemma id_not_allowed : "id" ∉ Bot.allowedFields.
Proof. compute_done. Qed.















End KeepsIds.

(* ===================================================================== *)
(** * Creation and the provisioning it triggers *)
(* ===================================================================== *)

Section CreationFacts.
Context (E : Env).

Lemma omap_nil_inv {A B : Type} (f : A -> option B) (l : list A) (x : A) :
  omap f l = [] -> x ∈ l -> f x = None.
Proof.
  induction l as [|y l IH]; intros Hnil Hin; [by apply elem_of_nil in Hin|].
  cbn in Hnil. destruct (f y) eqn:Hy; [done|].
  apply elem_of_cons in Hin as [->|Hin]; [done|by apply IH].
Qed.

Lemma check_required_string (label : string) (rule : botController.string_rule)
    (v : val) :
  botController.rule_required rule = true ->
  botController.check_string label rule v = None -> exists s, v = VStr s.
Proof.
  intros Hreq. unfold botController.check_string.
  destruct v; try done; [by rewrite Hreq|by eauto].
Qed.

Lemma validate_create_inv (body value : row) :
  botController.validate botController.createBotSchema body = Ok value ->
  value = body /\
  (exists s, get body "platformToken" = VStr s) /\
  (exists s, get body "aiToken" = VStr s).
Proof.
  unfold botController.validate.
  destruct (omap _ botController.createBotSchema) as [|m ms] eqn:Hchecks; [|done].
  destruct (List.filter _ _); [|done]. intros [= <-]. split; [done|].
  split.
  - apply (check_required_string "platformToken" botController.required_string);
      [done|].
    apply (omap_nil_inv _ _ ("platformToken", botController.required_string) Hchecks).
    unfold botController.createBotSchema.
    do 2 apply list_elem_of_further. apply list_elem_of_here.
  - apply (check_required_string "aiToken" botController.required_string);
      [done|].
    apply (omap_nil_inv _ _ ("aiToken", botController.required_string) Hchecks).
    unfold botController.createBotSchema.
    do 4 apply list_elem_of_further. apply list_elem_of_here.
Qed.

Lemma encrypt_succeeds (s : string) (w : World) :
  Vault.aead_correct (cipher E) (key E) ->
  (forall n, length (randomBytes E n) = 16%nat) ->
  exists blob, encrypt E (VStr s) w = (Ok blob, after_draw w).
Proof.
  intros Hc Hiv. rewrite run_encrypt.
  destruct (VaultFacts.decrypt_encrypt_utf8 (cipher E) (key E) (randomBytes E (draws w))
              (to_js s) Hc (Hiv _)) as (blob & -> & _).
  by exists blob.
Qed.


End CreationFacts.



(* ===================================================================== *)
(** * Start on a bot that is already deployed *)
(* ===================================================================== *)

(** C6 does not hold of the GraphQL backend: [bot-0] is deployed as the
    service [svc-1], and [RailwayProvisioner.startBot] provisions it anew.
    Its first request creates a service, and the new service's id replaces
    the handle in the record.  On the same bot [RailwayProvisionerV2.startBot]
    sends one request, the redeploy of [svc-1]. *)
Theorem graphql_startBot_creates_a_second_service :
  let started := (RailwayProvisioner.startBot Example.env (VStr "bot-0")
                    Example.deployed).2 in
  get (Example.bot_0 Example.deployed) "railway_service_id" = VStr "svc-1" /\
  head (net started) = Some (GqlServiceCreate "openclaw-helper-bot-0") /\
  get (Example.bot_0 started) "railway_service_id" = VStr "svc-new" /\
  net (RailwayProvisionerV2.startBot Example.env (VStr "bot-0")
         Example.deployed).2 = [RestDeploy "svc-1"].
Proof. repeat split; by vm_compute. Qed.

Lemma run_decrypt (E : Env) (v : val) (w : World) :
  exists r, decrypt E v w = (r, w).
Proof.
  unfold decrypt. destruct v; try by eexists.
  rewrite run_bind. unfold lift. destruct (Vault.decrypt _ _ _); by eexists.
Qed.

Lemma run_findByIdWithTokens (E : Env) (id : val) (w : World) :
  exists r, Bot.findByIdWithTokens E id w = (r, after_query E (SelectBotById id) w).
Proof.
  unfold Bot.findByIdWithTokens. rewrite run_bind, run_query. cbn [fst].
  destruct (exec E (SelectBotById id) (bots w)).1 as [|bot rows]; [by eexists|].
  rewrite run_bind.
  destruct (run_decrypt E (get bot "platform_token_encrypted")
              (after_query E (SelectBotById id) w)) as [[token1|e1] ->];
    [|by eexists].
  rewrite run_bind.
  destruct (run_decrypt E (get bot "ai_token_encrypted")
              (after_query E (SelectBotById id) w)) as [[token2|e2] ->];
    by eexists.
Qed.

(** On a bot that has a deployment handle, the REST backend's [startBot]
    sends nothing but the redeploy of that handle (and nothing at all when
    the tokens cannot be decrypted); it creates no service and changes no
    record. *)
Theorem rest_startBot_redeploys_existing_service
    (E : Env) (botId : val) (w : World) (bot : row) :
  stored_bot botId w = Some bot ->
  truthy (get bot "railway_service_id") = true ->
  let w' := (RailwayProvisionerV2.startBot E botId w).2 in
  bots w' = bots w /\
  (net w' = net w \/
   net w' = net w ++ [RestDeploy (to_str (get bot "railway_service_id"))]).
Proof.
  intros Hbot Hhandle. cbn zeta.
  unfold RailwayProvisionerV2.startBot.
  rewrite run_bind, run_findById, Hbot. cbn [fmap option_fmap option_map].
  rewrite run_bind.
  destruct (run_findByIdWithTokens E botId (after_query E (SelectBotById botId) w))
    as [[[fullBot|]|e] ->]; try (by split; [|left]).
  rewrite !get_sanitize by done. rewrite Hhandle.
  unfold RailwayProvisionerV2.restartService, RailwayProvisionerV2.deployService.
  rewrite run_bind. unfold request.
  destruct (rejects _); by split; [|right].
Qed.

Lemma rest_startBot_redeploys_existing_service_witness :
  let w' := (RailwayProvisionerV2.startBot Example.env (VStr "bot-0")
               Example.deployed).2 in
  bots w' = bots Example.deployed /\
  (net w' = net Example.deployed \/
   net w' = net Example.deployed
            ++ [RestDeploy (to_str (get (Example.bot_0 Example.deployed)
                                      "railway_service_id"))]).
Proof.
  apply (rest_startBot_redeploys_existing_service Example.env (VStr "bot-0")
           Example.deployed (Example.bot_0 Example.deployed)).
  - reflexivity.
  - reflexivity.
Defined.

(* ===================================================================== *)
(** * The webhook route and the in-process runner *)
(* ===================================================================== *)



(** C9 does not hold: the history is trimmed by one turn when the user's
    message is added and not when the reply is, so from the sixth exchange
    on it holds more than ten turns and grows by one with every exchange;
    the seventh request to the AI provider already carries eleven turns. *)
Theorem history_grows_past_ten_turns :
  let turns (n : nat) :=
    length <$> conversations (Example.after_messages n Example.in_process)
                 !! "bot-0-42" in
  turns 5%nat = Some 10%nat /\ turns 6%nat = Some 11%nat /\
  turns 7%nat = Some 12%nat /\ turns 20%nat = Some 25%nat /\
  (exists key model messages,
     net (Example.after_messages 7 Example.in_process) !! 12%nat
     = Some (OpenAIChatCompletion key model messages) /\
     length messages = 11%nat).
Proof.
  repeat split; try by vm_compute.
  eexists _, _, _. split; by vm_compute.
Qed.

(** The in-process runner drops an update for a bot id it has not
    registered, whatever the update, and an update without a message for a
    bot it has registered: [handleTelegramUpdate] returns without throwing,
    sends nothing and changes nothing. *)
Theorem runner_drops_unregistered_or_empty_update
    (E : Env) (botId : val) (update : option tg_update) (w : World) :
  runningBots w !! botId = None \/ update = Some {| upd_message := None |} ->
  SimpleBotRunner.handleTelegramUpdate E botId update w = (Ok tt, w).
Proof.
  intros Hdrop. unfold SimpleBotRunner.handleTelegramUpdate. rewrite run_bind.
  unfold get_running. destruct (runningBots w !! botId) as [bot|]; [|done].
  by destruct Hdrop as [?| ->].
Qed.

Lemma runner_drops_unregistered_or_empty_update_witness :
  SimpleBotRunner.handleTelegramUpdate Example.env (VStr "bot-7")
    (Example.text_message "bonjour") Example.in_process
  = (Ok tt, Example.in_process) /\
  SimpleBotRunner.handleTelegramUpdate Example.env (VStr "bot-0")
    (Some {| upd_message := None |}) Example.in_process
  = (Ok tt, Example.in_process).
Proof.
  split.
  - apply runner_drops_unregistered_or_empty_update. left. reflexivity.
  - apply runner_drops_unregistered_or_empty_update. by right.
Defined.

(* ===================================================================== *)
(** * Properties of the webhook rate limiter *)
(* ===================================================================== *)

Module RateLimitFacts.
Import RateLimit.
Local Open Scope Z_scope.

Lemma verdicts_in_window (botId : val) (maxRequests : Z) (times : list Z)
    (store : gmap string entry) (data : entry) :
  store !! key_of botId = Some data ->
  Forall (fun t => t <= resetTime data) times ->
  forall (i : nat) (v : verdict),
    verdicts botId maxRequests times store !! i = Some v ->
    allowed v = bool_decide (count data + Z.of_nat i < maxRequests).
Proof.
  intros Hdata Htimes. revert store data Hdata Htimes.
  induction times as [|t times IH]; intros store data Hdata Htimes i v Hv;
    [done|].
  apply Forall_cons in Htimes as [Ht Htimes].
  cbn [verdicts] in Hv. unfold webhookRateLimit in Hv. rewrite Hdata in Hv.
  cbn zeta in Hv.
  rewrite (proj2 (Z.ltb_ge _ _) Ht) in Hv.
  destruct (Z.leb_spec maxRequests (count data)) as [Hfull|Hroom].
  - destruct i as [|i]; cbn in Hv.
    + injection Hv as <-. cbn. symmetry. apply bool_decide_eq_false. lia.
    + rewrite (IH store data Hdata Htimes i v Hv).
      rewrite !bool_decide_eq_false_2 by lia. done.
  - destruct i as [|i]; cbn [fst snd lookup list_lookup] in Hv.
    + injection Hv as <-. cbn. symmetry. apply bool_decide_eq_true. lia.
    + cbn in Hv.
      rewrite (IH _ {| count := count data + 1; resetTime := resetTime data |}
                 (lookup_insert_eq _ _ _) Htimes i v Hv).
      cbn [count]. apply bool_decide_ext. lia.
Qed.

(** Of the requests for one bot that arrive within one minute of the first
    one, the limiter lets through the first [maxRequests] and refuses all
    the others; the very first request passes even when [maxRequests] is
    zero or negative. *)
Theorem webhookRateLimit_window_quota
    (botId : val) (maxRequests t0 : Z) (times : list Z)
    (store : gmap string entry) :
  store !! key_of botId = None ->
  Forall (fun t => t <= t0 + windowMs) times ->
  forall (i : nat) (v : verdict),
    verdicts botId maxRequests (t0 :: times) store !! i = Some v ->
    allowed v = bool_decide (Z.of_nat i < Z.max 1 maxRequests).
Proof.
  intros Hnone Htimes i v Hv.
  cbn [verdicts] in Hv. unfold webhookRateLimit in Hv. rewrite Hnone in Hv.
  cbn zeta in Hv. destruct i as [|i]; cbn in Hv.
  - injection Hv as <-. cbn. symmetry. apply bool_decide_eq_true. lia.
  - rewrite (verdicts_in_window _ _ _ _
               {| count := 1; resetTime := t0 + windowMs |}
               (lookup_insert_eq _ _ _) Htimes i v Hv).
    cbn [count]. apply bool_decide_ext. lia.
Qed.

Lemma webhookRateLimit_window_quota_witness :
  verdicts (VStr "bot-0") 2 [1000; 1500; 60500] ∅ !! 2%nat
  = Some (Refused 1) /\
  allowed (Refused 1) = false.
Proof.
  split; [reflexivity|].
  refine (webhookRateLimit_window_quota (VStr "bot-0") 2 1000 [1500; 60500] ∅
            eq_refl _ 2%nat (Refused 1) eq_refl).
  repeat constructor; unfold windowMs; lia.
Defined.

Lemma cleanup_insert (now : Z) (key : string) (e : entry)
    (store : gmap string entry) :
  now <= resetTime e ->
  cleanup now (<[key := e]> store) = <[key := e]> (cleanup now store).
Proof.
  intros He. unfold cleanup. apply map_filter_insert_True. cbn. lia.
Qed.

Lemma cleanup_lookup (now : Z) (key : string) (store : gmap string entry) :
  cleanup now store !! key =
  match store !! key with
  | Some e => if resetTime e <? now then None else Some e
  | None => None
  end.
Proof.
  unfold cleanup. destruct (store !! key) as [e|] eqn:He.
  - destruct (Z.ltb_spec (resetTime e) now) as [Hlt|Hge].
    + apply map_lookup_filter_None. right. intros e' He'. cbn.
      rewrite He in He'. injection He' as <-. lia.
    + apply map_lookup_filter_Some. split; [done|]. cbn. lia.
  - apply map_lookup_filter_None. by left.
Qed.

(** The periodic cleanup does not change what the limiter answers: a call
    made after a cleanup gets the verdict it would have got without it, and
    leaves the store the cleanup would have left after the call; so the
    verdicts of any later calls are the same. *)
Theorem cleanup_is_transparent
    (botId : val) (maxRequests now : Z) (store : gmap string entry) :
  (forall now', now <= now' ->
     webhookRateLimit botId maxRequests now' (cleanup now store)
     = ((webhookRateLimit botId maxRequests now' store).1,
        cleanup now (webhookRateLimit botId maxRequests now' store).2)) /\
  (forall times, Forall (fun t => now <= t) times ->
     verdicts botId maxRequests times (cleanup now store)
     = verdicts botId maxRequests times store).
Proof.
  assert (forall store now', now <= now' ->
     webhookRateLimit botId maxRequests now' (cleanup now store)
     = ((webhookRateLimit botId maxRequests now' store).1,
        cleanup now (webhookRateLimit botId maxRequests now' store).2)) as Hstep.
  { clear store. intros store now' Hle. unfold webhookRateLimit.
    rewrite cleanup_lookup. cbn zeta.
    destruct (store !! key_of botId) as [data|] eqn:Hdata; cbn [fst snd].
    - destruct (Z.ltb_spec (resetTime data) now) as [Hold|Hlive].
      + rewrite (proj2 (Z.ltb_lt (resetTime data) now')) by lia. cbn [fst snd].
        rewrite cleanup_insert; [done|]. cbn. unfold windowMs. lia.
      + destruct (resetTime data <? now'); cbn [fst snd].
        * rewrite cleanup_insert; [done|]. cbn. unfold windowMs. lia.
        * destruct (maxRequests <=? count data); cbn [fst snd]; [done|].
          by rewrite cleanup_insert.
    - rewrite cleanup_insert; [done|]. cbn. unfold windowMs. lia. }
  split; [apply Hstep|].
  intros times Htimes. revert store.
  induction Htimes as [|t times Ht _ IH]; intros store; [done|].
  cbn [verdicts]. rewrite (Hstep store t Ht). cbn [fst snd]. by rewrite IH.
Qed.

End RateLimitFacts.

(* ===================================================================== *)
(** * More properties of the credential vault *)
(* ===================================================================== *)

Module VaultLayout.
Import Vault.

(** The nonce travels in clear at the head of the blob, so two encryptions
    made under different nonces never give the same blob, whatever the
    plaintexts. *)
Theorem blob_starts_with_nonce
    (c : cipher) (key iv iv' : list byte) (P P' : js_string)
    (blob blob' : string) :
  length iv = 16%nat -> length iv' = 16%nat ->
  encrypt c key iv P = Ok blob -> encrypt c key iv' P' = Ok blob' ->
  take 16 (base64_decode blob) = iv /\ (iv <> iv' -> blob <> blob').
Proof.
  intros Hiv Hiv' Henc Henc'.
  destruct (VaultFacts.encrypt_inv _ _ _ _ _ Henc) as (ct & tag & _ & ->).
  destruct (VaultFacts.encrypt_inv _ _ _ _ _ Henc') as (ct' & tag' & _ & ->).
  assert (forall iv tag ct, length iv = 16%nat ->
            take 16 (base64_decode (base64_encode (iv ++ tag ++ ct))) = iv) as Hhead.
  { intros iv0 tag0 ct0 H0. rewrite VaultFacts.base64_roundtrip.
    by rewrite take_app_length'. }
  split; [by apply Hhead|].
  intros Hne Heq. apply Hne.
  rewrite <- (Hhead iv tag ct Hiv), <- (Hhead iv' tag' ct' Hiv'). by rewrite Heq.
Qed.

Lemma blob_starts_with_nonce_witness :
  take 16 (base64_decode example_blob) = example_iv /\
  (example_iv <> Scenario.other_iv ->
   example_blob <> "EA8ODQwLCgkIBwYFBAMCATkAAAAAAAAAAAAAAAAAAABIaQ==").
Proof.
  apply (blob_starts_with_nonce checksum_cipher example_key
           example_iv Scenario.other_iv [72; 105]%N [72; 105]%N).
  - reflexivity.
  - reflexivity.
  - vm_compute. reflexivity.
  - vm_compute. reflexivity.
Defined.

End VaultLayout.

Module VaultKey.
Import Vault.
Local Open Scope N_scope.

Lemma utf8_encode_length_upto (n : nat) (s : js_string) :
  (length s <= n)%nat ->
  (length s <= length (utf8_encode s))%nat /\
  (length (utf8_encode s) = length s -> Forall (fun c => c < 0x80) s).
Proof.
  revert s. induction n as [|n IH]; intros s Hn.
  - destruct s; [|cbn in Hn; lia]. by split.
  - destruct s as [|c rest]; [by split|]. cbn in Hn.
    destruct (IH rest ltac:(lia)) as [Hle Heq].
    cbn [utf8_encode].
    destruct (N.ltb_spec c 0x80) as [Hc|Hc].
    { cbn. split; [lia|]. intros H. apply Forall_cons. split; [done|].
      apply Heq. lia. }
    destruct (c <? 0x800).
    { cbn. split; [lia|]. intros H. lia. }
    destruct (is_high_surrogate c).
    + destruct rest as [|d rest']; [cbn; split; [lia|intros; lia]|].
      destruct (is_low_surrogate d).
      * destruct (IH rest' ltac:(cbn in Hn; lia)) as [Hle' _].
        cbn. cbn in Hle'. split; [lia|intros; lia].
      * rewrite length_app. cbn [replacement utf8_3 length].
        split; [cbn in *; lia|intros; cbn in *; lia].
    + destruct (is_low_surrogate c); rewrite length_app; cbn [replacement utf8_3 length];
        (split; [cbn in *; lia|intros; cbn in *; lia]).
Qed.

Lemma utf8_encode_length (s : js_string) :
  (length s <= length (utf8_encode s))%nat /\
  (length (utf8_encode s) = length s -> Forall (fun c => c < 0x80) s).
Proof. by apply (utf8_encode_length_upto (length s)). Qed.

(** The key is not always 32 bytes long: the secret is cut to 32 characters,
    not to 32 bytes, so a secret with a character outside ASCII among the 32
    that are kept gives a longer key.  A cipher that takes 32-byte keys
    only, as AES-256 does, then refuses it, and every [encrypt] throws. *)
Theorem non_ascii_secret_breaks_the_vault (c : cipher) (KEY : js_string) :
  (forall key iv pt, length key <> 32%nat -> seal c key iv pt = None) ->
  ~ Forall (fun ch => ch < 0x80) (take 32 (KEY ++ repeat 33 (32 - length KEY)%nat)) ->
  (32 < length (derive_key KEY))%nat /\
  forall iv text,
    encrypt c (derive_key KEY) iv text = Throw "Failed to encrypt data"%string.
Proof.
  intros Hlen Hascii.
  assert (32 < length (derive_key KEY))%nat as Hlong.
  { unfold derive_key.
    set (kept := take 32 (KEY ++ repeat 33 (32 - length KEY)%nat)) in *.
    assert (length kept = 32%nat) as Hkept.
    { unfold kept. rewrite length_take, length_app, repeat_length. lia. }
    destruct (utf8_encode_length kept) as [Hle Heq].
    destruct (decide (length (utf8_encode kept) = length kept)) as [He|Hne].
    - by apply Heq in He.
    - lia. }
  split; [done|]. intros iv text. unfold encrypt. rewrite Hlen; [done|lia].
Qed.

Lemma non_ascii_secret_breaks_the_vault_witness :
  (32 < length (derive_key [233%N]))%nat /\
  forall iv text,
    encrypt checksum_cipher (derive_key [233]) iv text
    = Throw "Failed to encrypt data"%string.
Proof.
  apply (non_ascii_secret_breaks_the_vault checksum_cipher [233]).
  - intros key iv pt Hkey. cbn. by rewrite bool_decide_eq_false_2.
  - intros H. apply Forall_cons in H as [H _]. lia.
Defined.

End VaultKey.

(* ===================================================================== *)
(** * More properties of the bot record store *)
(* ===================================================================== *)

Section StoreLookups.
Context (E : Env).

Lemma sql_eq_true (a b : val) :
  sql_eq a b = true -> a = b /\ a <> VNull /\ a <> VUndef.
Proof.
  destruct a, b; cbn; try discriminate; intros H%bool_decide_eq_true;
    by repeat split.
Qed.

Lemma where_lookup (k : string) (v : val) (r : row) :
  where_ k v r = true -> r !! k = Some v.
Proof.
  unfold where_, col. intros (Heq & Hnull & _)%sql_eq_true.
  destruct (r !! k) as [x|]; cbn in *; [by subst|done].
Qed.

Lemma where_other (id id' : val) (r : row) :
  id' <> id -> where_ "id" id' r = true -> where_ "id" id r = false.
Proof.
  intros Hne H. apply where_lookup in H as Hid.
  unfold where_, col in *. rewrite Hid in *. cbn in *.
  destruct id', id; cbn in *; try done; by apply bool_decide_eq_false.
Qed.

Lemma Forall_insert_desc (P : row -> Prop) (r : row) (l : list row) :
  Forall P (insert_desc r l) <-> P r /\ Forall P l.
Proof.
  induction l as [|x l IH]; cbn.
  - rewrite Forall_singleton. split; [by intros|by intros []].
  - destruct (created_at x <? created_at r)%Z.
    + by rewrite Forall_cons.
    + rewrite !Forall_cons, IH. tauto.
Qed.

Lemma Forall_order_by (P : row -> Prop) (l : list row) :
  Forall P l -> Forall P (order_by_created_at_desc l).
Proof.
  unfold order_by_created_at_desc. induction 1 as [|x l Hx _ IH]; cbn; [done|].
  by apply Forall_insert_desc.
Qed.

Lemma length_insert_desc (r : row) (l : list row) :
  length (insert_desc r l) = S (length l).
Proof.
  induction l as [|x l IH]; cbn; [done|].
  destruct (created_at x <? created_at r)%Z; cbn; by rewrite ?IH.
Qed.

Lemma length_order_by (l : list row) :
  length (order_by_created_at_desc l) = length l.
Proof.
  unfold order_by_created_at_desc. induction l as [|x l IH]; cbn; [done|].
  by rewrite length_insert_desc, IH.
Qed.

Lemma newest_first_insert_desc (r : row) (l : list row) :
  newest_first l -> newest_first (insert_desc r l).
Proof.
  induction l as [|x l IH]; cbn; [done|]. intros [Hx Hl].
  destruct (Z.ltb_spec (created_at x) (created_at r)) as [Hlt|Hge]; cbn.
  - repeat split; [|done..]. apply Forall_cons. split; [lia|].
    eapply Forall_impl; [exact Hx|]. cbn. intros; lia.
  - split; [|by apply IH]. apply Forall_insert_desc. by split.
Qed.

Lemma newest_first_order_by (l : list row) :
  newest_first (order_by_created_at_desc l).
Proof.
  unfold order_by_created_at_desc. induction l as [|x l IH]; cbn; [done|].
  by apply newest_first_insert_desc.
Qed.

Lemma project_lookup (columns : list string) (r : row) (k : string) :
  k ∈ columns -> project columns r !! k = r !! k.
Proof.
  intros Hk. unfold project. destruct (r !! k) as [v|] eqn:Hv.
  - by apply map_lookup_filter_Some.
  - apply map_lookup_filter_None. by left.
Qed.

Lemma created_at_project (r : row) :
  created_at (project user_columns r) = created_at r.
Proof.
  unfold created_at, col. rewrite project_lookup; [done|]. compute_done.
Qed.

Lemma newest_first_project (l : list row) :
  newest_first l -> newest_first (project user_columns <$> l).
Proof.
  induction l as [|x l IH]; cbn; [done|]. intros [Hx Hl]. split; [|by apply IH].
  apply Forall_fmap. eapply Forall_impl; [exact Hx|]. cbn. intros r.
  by rewrite !created_at_project.
Qed.

(** [findByUser] lists the bots of the user and no others: every row it
    returns carries the user's id, there are as many as [countByUser]
    counts, and nothing is changed by listing them. *)
Theorem findByUser_lists_the_bots_of_the_user (userId : val) (w : World) :
  exists rows,
    (Bot.findByUser E userId w).1 = Ok rows /\
    Forall (fun r : row => r !! "user_id" = Some userId) rows /\
    (Bot.countByUser E userId w).1 = Ok (Z.of_nat (length rows)) /\
    same_state w (Bot.findByUser E userId w).2.
Proof.
  unfold Bot.findByUser. rewrite run_query. cbn [fst snd exec].
  eexists. split; [done|]. split; [|split].
  - apply Forall_fmap, Forall_order_by, Forall_forall.
    intros r Hr. apply list_elem_of_In, filter_In in Hr as [_ Hr].
    cbn. rewrite project_lookup by compute_done. by apply where_lookup.
  - rewrite run_countByUser. cbn. unfold bot_count.
    by rewrite length_fmap, length_order_by.
  - by repeat split.
Qed.

(** [findByUser] returns the bots newest first. *)
Theorem findByUser_newest_first (userId : val) (w : World) :
  exists rows,
    (Bot.findByUser E userId w).1 = Ok rows /\ newest_first rows.
Proof.
  unfold Bot.findByUser. rewrite run_query. cbn [fst snd exec].
  eexists. split; [done|]. apply newest_first_project, newest_first_order_by.
Qed.

Lemma filter_filter_other (id id' : val) (table : list row) :
  id' <> id ->
  List.filter (where_ "id" id')
    (List.filter (fun r => negb (where_ "id" id r)) table)
  = List.filter (where_ "id" id') table.
Proof.
  intros Hne. induction table as [|r table IH]; cbn; [done|].
  destruct (where_ "id" id' r) eqn:Hr.
  - rewrite (where_other id id' r Hne Hr). cbn. by rewrite Hr, IH.
  - destruct (where_ "id" id r); cbn; [done|]. by rewrite Hr.
Qed.

Lemma filter_filter_same {A : Type} (f : A -> bool) (l : list A) :
  List.filter f (List.filter (fun x => negb (f x)) l) = [].
Proof.
  induction l as [|x l IH]; cbn; [done|].
  destruct (f x) eqn:Hx; cbn; [done|]. by rewrite Hx.
Qed.

Lemma run_delete (id : val) (w : World) :
  Bot.delete E id w = (Ok true, after_query E (DeleteBot id) w).
Proof. unfold Bot.delete. by rewrite run_bind, run_query. Qed.

(** After [delete], [findById] no longer finds the bot, every other bot is
    found as before, and nothing was sent out. *)
Theorem delete_removes_the_bot_only (id : val) (w : World) :
  let w' := (Bot.delete E id w).2 in
  (Bot.findById E id w').1 = Ok None /\
  (forall id', id' <> id -> stored_bot id' w' = stored_bot id' w) /\
  nothing_sent w w'.
Proof.
  cbn zeta. rewrite run_delete. cbn [snd]. split; [|split].
  - rewrite run_findById. cbn [fst]. unfold stored_bot, after_query.
    cbn [bots exec snd]. by rewrite filter_filter_same.
  - intros id' Hne. unfold stored_bot, after_query. cbn [bots exec snd].
    by rewrite filter_filter_other.
  - done.
Qed.

Lemma Forall2_fmap_same {A : Type} (R : A -> A -> Prop) (g : A -> A) (l : list A) :
  (forall x, R x (g x)) -> Forall2 R l (g <$> l).
Proof. intros Hg. induction l; constructor; auto. Qed.

Lemma update_where_same_column (k : string) (id : val) (f : row -> row)
    (table : list row) :
  (forall r, f r !! k = r !! k) ->
  same_column k table (update_where id f table).2.
Proof.
  intros Hf. unfold update_where. cbn. apply Forall2_fmap_same.
  intros r. by destruct (where_ "id" id r).
Qed.

Lemma update_where_same_other_rows (id : val) (f : row -> row) (table : list row) :
  same_other_rows id table (update_where id f table).2.
Proof.
  unfold update_where. cbn. apply Forall2_fmap_same. by intros r ->.
Qed.

Lemma same_column_refl (k : string) (table : list row) : same_column k table table.
Proof. unfold same_column. induction table; by constructor. Qed.

Lemma same_other_rows_refl (id : val) (table : list row) :
  same_other_rows id table table.
Proof. unfold same_other_rows. induction table; by constructor. Qed.

(** What [update] does: it may draw a nonce, and it sends either nothing or
    one [UPDATE] whose [SET] list names allowed fields and
    [ai_token_encrypted] only. *)
Lemma run_update (id : val) (updates : row) (w : World) :
  exists w0,
    (w0 = w \/ w0 = after_draw w) /\
    ((Bot.update E id updates w).2 = w0 \/
     exists fields,
       (forall k, k ∈ fields.*1 ->
          k ∈ Bot.allowedFields \/ k = "ai_token_encrypted") /\
       (Bot.update E id updates w).2 = after_query E (UpdateBot fields id) w0).
Proof.
  unfold Bot.update. rewrite run_bind.
  assert (forall (encrypted : list (string * val)) w0,
    (forall k, k ∈ encrypted.*1 -> k = "ai_token_encrypted") ->
    let w' := ((if bool_decide
                     (length (Bot.regular_fields E updates ++ encrypted) = 0%nat)
                then mret None
                else rows ← query E
                              (UpdateBot (Bot.regular_fields E updates ++ encrypted) id);
                     mret (Bot.sanitize_first rows)) w0).2 in
    w' = w0 \/
    exists fields,
      (forall k, k ∈ fields.*1 ->
         k ∈ Bot.allowedFields \/ k = "ai_token_encrypted") /\
      w' = after_query E (UpdateBot fields id) w0) as Htail.
  { intros encrypted w0 Henc. cbn zeta. case_bool_decide; [by left|].
    right. rewrite run_bind, run_query. cbn [snd].
    eexists. split; [|done]. intros k Hk.
    rewrite fmap_app in Hk. apply elem_of_app in Hk as [Hk|Hk].
    - left. by eapply regular_fields_keys.
    - right. by apply Henc. }
  destruct (truthy (get updates "ai_token")).
  - rewrite run_bind, run_encrypt. exists (after_draw w). split; [by right|].
    destruct (match get updates "ai_token" with VStr _ => _ | _ => _ end)
      as [blob|e]; [|by left].
    cbn [mret M_ret]. apply Htail.
    intros k Hk. cbn in Hk. apply elem_of_cons in Hk as [->|Hk]; [done|].
    by apply elem_of_nil in Hk.
  - cbn [mret M_ret]. exists w. split; [by left|]. apply Htail.
    intros k Hk. by apply elem_of_nil in Hk.
Qed.

Lemma update_same_column (id : val) (updates : row) (w : World) (k : string) :
  k ∉ Bot.allowedFields -> k <> "ai_token_encrypted" ->
  same_column k (bots w) (bots (Bot.update E id updates w).2).
Proof.
  intros Hk Hk'.
  destruct (run_update id updates w) as (w0 & Hw0 & [-> | (fields & Hf & ->)]).
  - destruct Hw0 as [-> | ->]; apply same_column_refl.
  - cbn [bots after_query exec].
    assert (bots w0 = bots w) as -> by (by destruct Hw0 as [-> | ->]).
    apply update_where_same_column. intros r. apply assign_other.
    intros Hin. by destruct (Hf k Hin).
Qed.

Lemma update_same_other_rows (id : val) (updates : row) (w : World) :
  same_other_rows id (bots w) (bots (Bot.update E id updates w).2).
Proof.
  destruct (run_update id updates w) as (w0 & Hw0 & [-> | (fields & Hf & ->)]).
  - destruct Hw0 as [-> | ->]; apply same_other_rows_refl.
  - cbn [bots after_query exec].
    assert (bots w0 = bots w) as -> by (by destruct Hw0 as [-> | ->]).
    apply update_where_same_other_rows.
Qed.

Lemma update_nothing_sent (id : val) (updates : row) (w : World) :
  nothing_sent w (Bot.update E id updates w).2.
Proof.
  unfold nothing_sent.
  destruct (run_update id updates w) as (w0 & Hw0 & [-> | (fields & Hf & ->)]);
    by destruct Hw0 as [-> | ->].
Qed.

(** [update] cannot change a column that is not an allowed field: the id,
    the owner, the platform and the platform token of every bot are after
    it what they were before; the bots the id does not select are left as
    they were; and nothing is sent out. *)
Theorem update_keeps_protected_columns
    (id : val) (updates : row) (w : World) (k : string) :
  k ∉ Bot.allowedFields -> k <> "ai_token_encrypted" ->
  let w' := (Bot.update E id updates w).2 in
  same_column k (bots w) (bots w') /\
  same_other_rows id (bots w) (bots w') /\
  nothing_sent w w'.
Proof.
  intros Hk Hk'. cbn zeta. split; [by apply update_same_column|].
  split; [apply update_same_other_rows|apply update_nothing_sent].
Qed.

Lemma head_filter_fmap (id : val) (f : row -> row) (table : list row) :
  head (f <$> List.filter (where_ "id" id) table)
  = f <$> head (List.filter (where_ "id" id) table).
Proof. by destruct (List.filter _ _). Qed.

(** [updateStatus] and [updateRuntime] return the stored row with the change
    applied and nothing taken away: unlike what [update] returns, it still
    carries the encrypted credential columns. *)
Theorem updateStatus_returns_the_stored_row
    (id status : val) (w : World) (bot : row) :
  stored_bot id w = Some bot ->
  (Bot.updateStatus E id status w).1 = Ok (Some (<["status" := status]> bot)) /\
  (forall port pid,
     (Bot.updateRuntime E id port pid w).1
     = Ok (Some (<["process_pid" := pid]> (<["internal_port" := port]> bot)))) /\
  (forall k, k = "platform_token_encrypted" \/ k = "ai_token_encrypted" ->
     (<["status" := status]> bot) !! k = bot !! k).
Proof.
  intros Hbot. unfold stored_bot in Hbot. split; [|split].
  - unfold Bot.updateStatus. rewrite run_bind, run_query. cbn [fst exec update_where].
    by rewrite head_filter_fmap, Hbot.
  - intros port pid. unfold Bot.updateRuntime. rewrite run_bind, run_query.
    cbn [fst exec update_where].
    by rewrite (head_filter_fmap id
                  (fun r => <["process_pid" := pid]> (<["internal_port" := port]> r))),
      Hbot.
  - intros k [-> | ->]; by rewrite lookup_insert_ne.
Qed.

End StoreLookups.

Lemma update_keeps_protected_columns_witness :
  let w' := (Bot.update Example.env (VStr "bot-0")
               {[ "user_id" := VStr "user-2"; "name" := VStr "renamed" ]}
               Example.one_bot).2 in
  same_column "user_id" (bots Example.one_bot) (bots w') /\
  same_other_rows (VStr "bot-0") (bots Example.one_bot) (bots w') /\
  nothing_sent Example.one_bot w'.
Proof.
  apply (update_keeps_protected_columns Example.env (VStr "bot-0")
           {[ "user_id" := VStr "user-2"; "name" := VStr "renamed" ]}
           Example.one_bot "user_id").
  - compute_done.
  - done.
Defined.

Lemma updateStatus_returns_the_stored_row_witness :
  (Bot.updateStatus Example.env (VStr "bot-0") (VStr "running") Example.one_bot).1
  = Ok (Some (<["status" := VStr "running"]> (Example.bot_0 Example.one_bot))).
Proof.
  refine (proj1 (updateStatus_returns_the_stored_row Example.env (VStr "bot-0")
                   (VStr "running") Example.one_bot
                   (Example.bot_0 Example.one_bot) _)).
  reflexivity.
Defined.

Section RoundTrip.
Context (E : Env).

Lemma run_decrypt_blob (blob : string) (w : World) :
  decrypt E (VStr blob) w =
  (match Vault.decrypt (cipher E) (key E) blob with
   | Ok u => Ok (of_js u)
   | Throw message => Throw (Error message)
   end, w).
Proof.
  unfold decrypt. rewrite run_bind. by destruct (Vault.decrypt _ _ _).
Qed.

Lemma encrypt_then_decrypt (s : string) (n : nat) :
  Vault.aead_correct (cipher E) (key E) ->
  length (randomBytes E n) = 16%nat -> utf8_text s ->
  exists blob,
    Vault.encrypt (cipher E) (key E) (randomBytes E n) (to_js s) = Ok blob /\
    Vault.decrypt (cipher E) (key E) blob = Ok (to_js s).
Proof.
  intros Hc Hiv [Hwf _].
  destruct (VaultFacts.decrypt_encrypt_utf8 _ _ _ (to_js s) Hc Hiv)
    as (blob & Henc & Hdec).
  exists blob. split; [done|]. by rewrite Hdec, VaultFacts.utf8_roundtrip.
Qed.

Lemma filter_app_fresh (id : val) (table : list row) (r : row) :
  head (List.filter (where_ "id" id) table) = None ->
  where_ "id" id r = true ->
  List.filter (where_ "id" id) (table ++ [r]) = [r].
Proof.
  intros Hnone Hr. rewrite List.filter_app. cbn. rewrite Hr.
  by destruct (List.filter _ table).
Qed.

(** What [create] stores can be read back: when the cipher works under the
    configured key (it seals, and opens what it sealed), the two tokens are
    well-formed text and the id the database assigns is fresh, [create]
    returns the new bot under that id, and [findByIdWithTokens] on it
    returns the two tokens that were given, decrypted, beside the fields
    [create] returned. *)
Theorem create_then_findByIdWithTokens
    (a : Bot.create_args) (w : World) (s1 s2 : string) :
  Vault.aead_correct (cipher E) (key E) ->
  (forall n, length (randomBytes E n) = 16%nat) ->
  Bot.platformToken a = VStr s1 -> Bot.aiToken a = VStr s2 ->
  utf8_text s1 -> utf8_text s2 ->
  stored_bot (VStr (next_id E (bots w))) w = None ->
  exists bot w1 full w2,
    Bot.create E a w = (Ok (Some bot), w1) /\
    get bot "id" = VStr (next_id E (bots w)) /\
    Bot.findByIdWithTokens E (get bot "id") w1 = (Ok (Some full), w2) /\
    get full "platformToken" = VStr s1 /\
    get full "aiToken" = VStr s2 /\
    (forall k, k <> "platformToken" -> k <> "aiToken" -> full !! k = bot !! k).
Proof.
  intros Hc Hiv H1 H2 Ht1 Ht2 Hfresh.
  destruct (encrypt_then_decrypt s1 (draws w) Hc (Hiv _) Ht1) as (blob1 & He1 & Hd1).
  destruct (encrypt_then_decrypt s2 (S (draws w)) Hc (Hiv _) Ht2)
    as (blob2 & He2 & Hd2).
  unfold Bot.create.
  rewrite run_bind, run_encrypt, H1, He1.
  rewrite run_bind, run_encrypt, H2. cbn [draws after_draw]. rewrite He2.
  rewrite run_bind, run_query. cbn [fst exec].
  change (bots (after_draw (after_draw w))) with (bots w).
  match goal with |- context [InsertBot ?c] => set (cols := c) end.
  set (r := new_row E (bots w) cols).
  assert (r !! "id" = Some (VStr (next_id E (bots w)))) as Hid.
  { unfold r, new_row. apply lookup_insert_eq. }
  assert (r !! "platform_token_encrypted" = Some (VStr blob1)) as Hp.
  { unfold r, new_row. rewrite lookup_insert_ne by done.
    by apply lookup_union_Some_l. }
  assert (r !! "ai_token_encrypted" = Some (VStr blob2)) as Ha.
  { unfold r, new_row. rewrite lookup_insert_ne by done.
    by apply lookup_union_Some_l. }
  assert (get (Bot.sanitize r) "id" = VStr (next_id E (bots w))) as Hgid.
  { rewrite get_sanitize by done. unfold get. by rewrite Hid. }
  eexists (Bot.sanitize r), _, _, _. split; [reflexivity|]. split; [done|].
  rewrite Hgid. unfold Bot.findByIdWithTokens.
  rewrite run_bind, run_query. cbn [fst exec after_query bots snd].
  change (bots (after_draw (after_draw w))) with (bots w). fold r.
  rewrite filter_app_fresh; [|done|].
  2:{ unfold where_, col. rewrite Hid. cbn. by apply bool_decide_eq_true. }
  assert (get r "platform_token_encrypted" = VStr blob1) as ->
    by (unfold get; by rewrite Hp).
  assert (get r "ai_token_encrypted" = VStr blob2) as ->
    by (unfold get; by rewrite Ha).
  rewrite run_bind, run_decrypt_blob, Hd1.
  rewrite run_bind, run_decrypt_blob, Hd2.
  split; [reflexivity|].
  destruct Ht1 as [_ ->], Ht2 as [_ ->].
  split; [|split].
  - unfold get. rewrite lookup_insert_ne by done. by rewrite lookup_insert_eq.
  - unfold get. by rewrite lookup_insert_eq.
  - intros k Hk1 Hk2. by rewrite !lookup_insert_ne.
Qed.

End RoundTrip.

Lemma create_then_findByIdWithTokens_witness :
  exists bot w1 full w2,
    Bot.create Example.env Scenario.second_bot Example.one_bot = (Ok (Some bot), w1) /\
    get bot "id" = VStr (next_id Example.env (bots Example.one_bot)) /\
    Bot.findByIdWithTokens Example.env (get bot "id") w1 = (Ok (Some full), w2) /\
    get full "platformToken" = VStr "654321:other-token" /\
    get full "aiToken" = VStr "sk-ant-key" /\
    (forall k, k <> "platformToken" -> k <> "aiToken" -> full !! k = bot !! k).
Proof.
  apply (create_then_findByIdWithTokens Example.env Scenario.second_bot
           Example.one_bot "654321:other-token" "sk-ant-key").
  - apply VaultFacts.checksum_cipher_correct. reflexivity.
  - reflexivity.
  - reflexivity.
  - reflexivity.
  - split; reflexivity.
  - split; reflexivity.
  - reflexivity.
Defined.

Section UpdateFacts.
Context (E : Env).

Lemma assign_snoc (l : list (string * val)) (k : string) (v : val) (r : row) :
  assign (l ++ [(k, v)]) r = <[k := v]> (assign l r).
Proof. unfold assign. by rewrite foldl_app. Qed.

Lemma assign_lookup (l : list (string * val)) (r : row) (k : string) (v : val) :
  NoDup l.*1 -> (k, v) ∈ l -> assign l r !! k = Some v.
Proof.
  induction l as [|[k' v'] l IH] using rev_ind; intros Hnd Hin.
  - by apply elem_of_nil in Hin.
  - rewrite assign_snoc. rewrite fmap_app in Hnd.
    apply NoDup_app in Hnd as (Hl & Hfresh & _).
    apply elem_of_app in Hin as [Hin|Hin].
    + rewrite lookup_insert_ne; [by apply IH|].
      intros <-. apply (Hfresh k'); [|by left].
      apply list_elem_of_fmap. by exists (k', v).
    + apply list_elem_of_singleton in Hin as [= -> ->]. apply lookup_insert_eq.
Qed.

Lemma NoDup_filter_fst {A B : Type} (p : A * B -> bool) (l : list (A * B)) :
  NoDup l.*1 -> NoDup (List.filter p l).*1.
Proof.
  induction l as [|x l IH]; cbn; [done|]. intros [Hx Hl]%NoDup_cons.
  destruct (p x); cbn; [|by apply IH]. apply NoDup_cons. split; [|by apply IH].
  intros Hin. apply Hx. apply list_elem_of_fmap in Hin as (y & -> & Hy).
  apply list_elem_of_fmap. exists y. split; [done|].
  by apply list_elem_of_In, filter_In, proj1, list_elem_of_In in Hy.
Qed.

Lemma regular_fields_NoDup (updates : row) :
  NoDup (Bot.regular_fields E updates).*1.
Proof.
  unfold Bot.regular_fields. rewrite <- list_fmap_compose.
  apply (NoDup_filter_fst _ (map_to_list updates)), NoDup_fst_map_to_list.
Qed.

Lemma regular_fields_elem (updates : row) (k : string) (v : val) :
  updates !! k = Some v -> k ∈ Bot.allowedFields ->
  (k, if bool_decide (k = "config_json") then VStr (JSON_stringify E v) else v)
    ∈ Bot.regular_fields E updates.
Proof.
  intros Hk Hallowed. unfold Bot.regular_fields.
  apply list_elem_of_fmap. exists (k, v). split; [done|].
  apply list_elem_of_In, filter_In. split.
  - by apply list_elem_of_In, elem_of_map_to_list.
  - by apply bool_decide_eq_true.
Qed.

Lemma regular_fields_updates (updates : row) (k : string) :
  k ∈ (Bot.regular_fields E updates).*1 -> is_Some (updates !! k).
Proof.
  unfold Bot.regular_fields. intros Hk.
  apply list_elem_of_fmap in Hk as ([k' v] & -> & Hin).
  apply list_elem_of_fmap in Hin as ([k'' v'] & [= -> _] & Hin).
  apply list_elem_of_In, filter_In in Hin as [Hin _].
  apply list_elem_of_In, elem_of_map_to_list in Hin. by exists v'.
Qed.

(** [update] without an [ai_token] and with an allowed field sends one
    statement. *)
Lemma run_update_plain (id : val) (updates : row) (w : World) (k : string) :
  truthy (get updates "ai_token") = false ->
  k ∈ Bot.allowedFields -> is_Some (updates !! k) ->
  Bot.update E id updates w =
  (Ok (Bot.sanitize_first
         (exec E (UpdateBot (Bot.regular_fields E updates) id) (bots w)).1),
   after_query E (UpdateBot (Bot.regular_fields E updates) id) w).
Proof.
  intros Htoken Hk [v Hv]. unfold Bot.update. rewrite Htoken, run_bind.
  cbn [mret M_ret]. rewrite app_nil_r.
  rewrite bool_decide_eq_false_2; [by rewrite run_bind, run_query|].
  intros Hlen. pose proof (regular_fields_elem updates k v Hv Hk) as Hin.
  destruct (Bot.regular_fields E updates); [by apply elem_of_nil in Hin|done].
Qed.

Lemma where_assign (id : val) (fields : list (string * val)) (r : row) :
  "id" ∉ fields.*1 -> where_ "id" id (assign fields r) = where_ "id" id r.
Proof. intros Hid. unfold where_, col. by rewrite assign_other. Qed.

Lemma filter_fmap_where (id : val) (g : row -> row) (table : list row) :
  (forall r, where_ "id" id (g r) = where_ "id" id r) ->
  List.filter (where_ "id" id) (g <$> table)
  = g <$> List.filter (where_ "id" id) table.
Proof.
  intros Hg. induction table as [|r table IH]; cbn; [done|].
  rewrite Hg. destruct (where_ "id" id r); cbn; by rewrite IH.
Qed.

(** The bot an id selects once an [UPDATE] of that id has run. *)
Lemma stored_bot_after_update (id : val) (fields : list (string * val)) (w : World) :
  "id" ∉ fields.*1 ->
  stored_bot id (after_query E (UpdateBot fields id) w)
  = assign fields <$> stored_bot id w.
Proof.
  intros Hid. unfold stored_bot, after_query. cbn [bots exec update_where snd].
  rewrite filter_fmap_where.
  - destruct (List.filter _ _) as [|r l] eqn:Hf; [done|]. cbn.
    assert (where_ "id" id r = true) as ->; [|done].
    assert (In r (List.filter (where_ "id" id) (bots w))) as Hin
      by (rewrite Hf; by left).
    by apply filter_In in Hin as [_ Hin].
  - intros r. destruct (where_ "id" id r) eqn:Hr; [|done].
    by rewrite where_assign.
Qed.

Lemma exec_update_rows (id : val) (fields : list (string * val)) (table : list row) :
  head (exec E (UpdateBot fields id) table).1
  = assign fields <$> head (List.filter (where_ "id" id) table).
Proof. cbn. by destruct (List.filter _ _). Qed.

Lemma regular_fields_no_id (updates : row) :
  "id" ∉ (Bot.regular_fields E updates).*1.
Proof. intros Hin. by apply regular_fields_keys, id_not_allowed in Hin. Qed.

(** What [update] writes can be read back: the bot is returned and stored
    with every allowed field of [updates] set to the value given, and with
    every other column as it was. *)
Theorem update_then_read
    (id : val) (updates : row) (w : World) (bot : row) (k0 : string) :
  stored_bot id w = Some bot ->
  truthy (get updates "ai_token") = false ->
  k0 ∈ Bot.allowedFields -> is_Some (updates !! k0) ->
  exists bot',
    stored_bot id (Bot.update E id updates w).2 = Some bot' /\
    (Bot.update E id updates w).1 = Ok (Some (Bot.sanitize bot')) /\
    (forall k v, updates !! k = Some v -> k ∈ Bot.allowedFields ->
       bot' !! k = Some (if bool_decide (k = "config_json")
                         then VStr (JSON_stringify E v) else v)) /\
    (forall k, k ∉ Bot.allowedFields \/ updates !! k = None ->
       bot' !! k = bot !! k).
Proof.
  intros Hbot Htoken Hk0 Hsome.
  rewrite (run_update_plain id updates w k0 Htoken Hk0 Hsome). cbn [fst snd].
  exists (assign (Bot.regular_fields E updates) bot).
  split; [|split; [|split]].
  - rewrite stored_bot_after_update by apply regular_fields_no_id.
    by rewrite Hbot.
  - unfold Bot.sanitize_first. rewrite exec_update_rows.
    unfold stored_bot in Hbot. by rewrite Hbot.
  - intros k v Hv Hk. apply assign_lookup; [apply regular_fields_NoDup|].
    by apply regular_fields_elem.
  - intros k Hk. apply assign_other. intros Hin. destruct Hk as [Hk|Hk].
    + by apply Hk, (regular_fields_keys E updates).
    + apply regular_fields_updates in Hin as [v Hv]. congruence.
Qed.

End UpdateFacts.

Lemma update_then_read_witness :
  exists bot',
    stored_bot (VStr "bot-0")
      (Bot.update Example.env (VStr "bot-0")
         {[ "name" := VStr "renamed"; "user_id" := VStr "user-2" ]}
         Example.one_bot).2 = Some bot' /\
    bot' !! "name" = Some (VStr "renamed") /\
    bot' !! "user_id" = Some (VStr "user-1").
Proof.
  destruct (update_then_read Example.env (VStr "bot-0")
              {[ "name" := VStr "renamed"; "user_id" := VStr "user-2" ]}
              Example.one_bot (Example.bot_0 Example.one_bot) "name")
    as (bot' & Hstored & _ & Hset & Hkept).
  - reflexivity.
  - reflexivity.
  - compute_done.
  - by eexists.
  - exists bot'. split; [done|]. split.
    + by apply (Hset "name" (VStr "renamed")); [|compute_done].
    + rewrite (Hkept "user_id"); [reflexivity|]. left. compute_done.
Defined.

(* ===================================================================== *)
(** * More properties of the provisioning backends *)
(* ===================================================================== *)

Section ProvisionerFacts.
Context (E : Env).

Lemma run_request (c : Call) (w : World) :
  request E c w =
  (if rejects (answer E (net w) c)
   then Throw (Error (r_message (answer E (net w) c)))
   else Ok (answer E (net w) c),
   after_request c w).
Proof. unfold request. by destruct (rejects _). Qed.

(** A request whose failure is caught and dropped. *)
Lemma run_tried_request (c : Call) (w : World) :
  try_catch (_ ← request E c; mret tt) (fun _ => mret tt) w
  = (Ok tt, after_request c w).
Proof.
  unfold try_catch. rewrite run_bind, run_request. by destruct (rejects _).
Qed.

Lemma net_after_requests (cs : list Call) (w : World) :
  net (after_requests cs w) = net w ++ cs.
Proof.
  unfold after_requests. revert w.
  induction cs as [|c cs IH]; intros w; cbn; [by rewrite app_nil_r|].
  rewrite IH. cbn. by rewrite <- app_assoc.
Qed.

Lemma same_records_after_requests (cs : list Call) (w : World) :
  same_records w (after_requests cs w) /\ sql (after_requests cs w) = sql w.
Proof.
  unfold after_requests. revert w.
  induction cs as [|c cs IH]; intros w; cbn; [by repeat split|].
  destruct (IH (after_request c w)) as ((?&?&?&?)&?). by repeat split.
Qed.

Lemma run_for_each_tried_request {A : Type} (call : A -> Call) (l : list A)
    (w : World) :
  for_each_try (fun x => _ ← request E (call x); mret tt) l w
  = (Ok tt, after_requests (call <$> l) w).
Proof.
  revert w. induction l as [|x l IH]; intros w; [done|].
  cbn [for_each_try]. rewrite run_bind, run_tried_request. apply IH.
Qed.

(** [setServiceVariables] tries every variable, in order, and never throws:
    a variable Railway refuses is skipped without a word, and the ones after
    it are still sent.  This holds of the REST and of the GraphQL backend. *)
Theorem setServiceVariables_tries_every_variable
    (serviceId : string) (variables : list (string * val)) (w : World) :
  let rest := (fun kv : string * val =>
                 RestSetVariable serviceId kv.1 (to_str kv.2)) <$> variables in
  let gql := (fun kv : string * val =>
                GqlVariableUpsert serviceId kv.1 (to_str kv.2)) <$> variables in
  RailwayProvisionerV2.setServiceVariables E serviceId variables w
  = (Ok tt, after_requests rest w) /\
  RailwayProvisioner.setServiceVariables E serviceId variables w
  = (Ok tt, after_requests gql w) /\
  net (after_requests rest w) = net w ++ rest /\
  net (after_requests gql w) = net w ++ gql.
Proof.
  cbn zeta. repeat split.
  - apply (run_for_each_tried_request
             (fun kv => RestSetVariable serviceId kv.1 (to_str kv.2))).
  - apply (run_for_each_tried_request
             (fun kv => GqlVariableUpsert serviceId kv.1 (to_str kv.2))).
  - apply net_after_requests.
  - apply net_after_requests.
Qed.

Lemma run_poll_never_succeeds (serviceId deploymentId : string) (w : World) :
  never_succeeds E deploymentId ->
  RailwayProvisioner.poll_deployment E serviceId deploymentId w
  = (Ok None, after_request (GqlDeployment deploymentId) w).
Proof.
  intros Hnever. unfold RailwayProvisioner.poll_deployment,
    RailwayProvisioner.graphqlQuery, try_catch.
  rewrite run_bind, run_request.
  destruct (Hnever (net w)) as [Hr|Hs].
  - by rewrite Hr.
  - destruct (rejects _); [done|].
    rewrite bool_decide_eq_false_2 by done. by case_bool_decide.
Qed.

Lemma run_loop_never_succeeds (n : nat) (serviceId deploymentId : string)
    (w : World) :
  never_succeeds E deploymentId ->
  RailwayProvisioner.waitForDeployment_loop E n serviceId deploymentId w
  = (Throw (Error "Deployment timeout"),
     after_requests (replicate n (GqlDeployment deploymentId)) w).
Proof.
  intros Hnever. revert w. induction n as [|n IH]; intros w; [done|].
  cbn [RailwayProvisioner.waitForDeployment_loop].
  rewrite run_bind, run_poll_never_succeeds by done. apply IH.
Qed.

(** A deployment that Railway never reports as successful makes
    [waitForDeployment] give up with [Deployment timeout] after exactly 30
    polls.  A deployment reported as [FAILED] is no exception: the error
    raised for it is caught by the loop's own [catch], so the failure is
    polled 30 times and reported as a timeout. *)
Theorem waitForDeployment_gives_up_after_30_polls
    (serviceId deploymentId : string) (w : World) :
  never_succeeds E deploymentId ->
  let r := RailwayProvisioner.waitForDeployment E serviceId deploymentId w in
  r.1 = Throw (Error "Deployment timeout") /\
  net r.2 = net w ++ replicate 30 (GqlDeployment deploymentId) /\
  same_records w r.2.
Proof.
  intros Hnever. cbn zeta. unfold RailwayProvisioner.waitForDeployment.
  rewrite run_loop_never_succeeds by done. cbn [fst snd].
  split; [done|]. split; [apply net_after_requests|].
  apply same_records_after_requests.
Qed.

Lemma try_catch_throws {A : Type} (body : M A) (handler : error -> M A)
    (w : World) (e : error) :
  (try_catch body handler w).1 = Throw e ->
  exists e0 w0, body w = (Throw e0, w0) /\ try_catch body handler w = handler e0 w0.
Proof.
  unfold try_catch. destruct (body w) as [[a|e0] w0]; [done|]. by exists e0, w0.
Qed.

Lemma run_update_status (id status : val) (w : World) :
  Bot.update E id {[ "status" := status ]} w
  = (Ok (Bot.sanitize_first
           (exec E (UpdateBot [("status", status)] id) (bots w)).1),
     after_query E (UpdateBot [("status", status)] id) w).
Proof.
  rewrite (run_update_plain E id _ w "status"); [done|done|compute_done|].
  by eexists.
Qed.

(** What marking a bot as failed leaves behind. *)
Lemma marked_as_error (id : val) (e0 : error) (w0 : World) :
  let w' := ((_ ← Bot.update E id {[ "status" := VStr "error" ]};
              throw e0 : M row) w0).2 in
  last (sql w') = Some (UpdateBot [("status", VStr "error")] id) /\
  (forall bot, stored_bot id w' = Some bot -> get bot "status" = VStr "error").
Proof.
  cbn zeta. rewrite run_bind, run_update_status. cbn [snd throw]. split.
  - cbn [sql after_query]. apply last_snoc.
  - intros bot. rewrite stored_bot_after_update.
    + destruct (stored_bot id w0) as [bot0|]; [|done]. intros [= <-].
      unfold get. cbn. by rewrite lookup_insert_eq.
    + cbn. intros Hin. apply list_elem_of_singleton in Hin. done.
Qed.

(** As long as the store answers, when [provisionBot] throws, whichever of
    its steps outside the store failed (a name or an id that is not a
    string, a request that Railway or Telegram refuses, a deployment that
    times out), the last thing it did was to mark the bot as failed: the
    last statement sent sets its status to [error], and that is the status
    the bot is left with.  This holds of the REST and of the GraphQL
    backend.  (A failure of the store itself is outside [query] as it is
    modelled here.) *)
Theorem provisionBot_failure_is_recorded (c : bot_config) (w : World) :
  let failed (r : outcome error row * World) :=
    (exists e, r.1 = Throw e) ->
    last (sql r.2) = Some (UpdateBot [("status", VStr "error")] (cfg_botId c)) /\
    (forall bot, stored_bot (cfg_botId c) r.2 = Some bot ->
       get bot "status" = VStr "error") in
  failed (RailwayProvisionerV2.provisionBot E c w) /\
  failed (RailwayProvisioner.provisionBot E c w).
Proof.
  cbn zeta. split; intros [e He].
  - unfold RailwayProvisionerV2.provisionBot in *.
    apply try_catch_throws in He as (e0 & w0 & _ & ->).
    apply marked_as_error.
  - unfold RailwayProvisioner.provisionBot in *.
    apply try_catch_throws in He as (e0 & w0 & _ & ->).
    apply marked_as_error.
Qed.

End ProvisionerFacts.

Lemma waitForDeployment_gives_up_after_30_polls_witness :
  let r := RailwayProvisioner.waitForDeployment Scenario.failing "svc-1" "dep-1"
             Example.deployed in
  r.1 = Throw (Error "Deployment timeout") /\
  net r.2 = net Example.deployed ++ replicate 30 (GqlDeployment "dep-1") /\
  same_records Example.deployed r.2.
Proof.
  apply (waitForDeployment_gives_up_after_30_polls Scenario.failing "svc-1"
           "dep-1" Example.deployed).
  intros sent. right. discriminate.
Defined.

Lemma provisionBot_failure_is_recorded_witness :
  let c := {| cfg_botId := VStr "bot-0"; cfg_userId := VStr "user-1";
              cfg_name := VStr "helper";
              cfg_telegramToken := VStr "123456:telegram-token";
              cfg_openaiKey := VStr "sk-openai-key"; cfg_model := VStr "gpt-4o";
              cfg_systemPrompt := VUndef |} in
  let r := RailwayProvisionerV2.provisionBot Example.offline c Example.one_bot in
  r.1 = Throw (Error "Railway API Error 503") /\
  last (sql r.2) = Some (UpdateBot [("status", VStr "error")] (VStr "bot-0")) /\
  (forall bot, stored_bot (VStr "bot-0") r.2 = Some bot ->
     get bot "status" = VStr "error").
Proof.
  cbn zeta.
  match goal with |- ?r = _ /\ _ =>
    assert (r = Throw (Error "Railway API Error 503")) as Hthrows
      by (vm_compute; reflexivity)
  end.
  split; [exact Hthrows|].
  exact (proj1 (provisionBot_failure_is_recorded Example.offline
                  {| cfg_botId := VStr "bot-0"; cfg_userId := VStr "user-1";
                     cfg_name := VStr "helper";
                     cfg_telegramToken := VStr "123456:telegram-token";
                     cfg_openaiKey := VStr "sk-openai-key";
                     cfg_model := VStr "gpt-4o";
                     cfg_systemPrompt := VUndef |} Example.one_bot)
           (ex_intro _ _ Hthrows)).
Defined.

(* ===================================================================== *)
(** * More properties of the in-process runner *)
(* ===================================================================== *)

Section RunnerFacts.
Context (E : Env).

Lemma run_sendTelegramMessage (token chatId : val) (text : string) (w : World) :
  SimpleBotRunner.sendTelegramMessage E token chatId text w
  = (Ok tt, after_request (TelegramSendMessage (to_str token) chatId text) w).
Proof. apply run_tried_request. Qed.

Lemma run_deleteTelegramWebhook (token : val) (w : World) :
  SimpleBotRunner.deleteTelegramWebhook E token w
  = (Ok tt, after_request (TelegramDeleteWebhook (to_str token)) w).
Proof. apply run_tried_request. Qed.

Lemma run_update_stopped (id : val) (w : World) :
  let fields := Bot.regular_fields E
                  {[ "status" := VStr "stopped"; "webhook_url" := VNull ]} in
  Bot.update E id {[ "status" := VStr "stopped"; "webhook_url" := VNull ]} w
  = (Ok (Bot.sanitize_first (exec E (UpdateBot fields id) (bots w)).1),
     after_query E (UpdateBot fields id) w).
Proof.
  cbn zeta. rewrite (run_update_plain E id _ w "status"); [done|done|compute_done|].
  by eexists.
Qed.

Lemma stopped_after_update (id : val) (w : World) (bot : row) :
  let fields := Bot.regular_fields E
                  {[ "status" := VStr "stopped"; "webhook_url" := VNull ]} in
  stored_bot id (after_query E (UpdateBot fields id) w) = Some bot ->
  get bot "status" = VStr "stopped" /\ get bot "webhook_url" = VNull.
Proof.
  cbn zeta. rewrite stored_bot_after_update by apply regular_fields_no_id.
  destruct (stored_bot id w) as [bot0|]; [|done]. cbn [fmap option_fmap option_map].
  intros H. apply (inj Some) in H. subst bot. unfold get. split.
  - rewrite (assign_lookup _ bot0 "status" (VStr "stopped")); [done| |].
    + apply regular_fields_NoDup.
    + by apply (regular_fields_elem E _ "status" (VStr "stopped")); [|compute_done].
  - rewrite (assign_lookup _ bot0 "webhook_url" VNull); [done| |].
    + apply regular_fields_NoDup.
    + by apply (regular_fields_elem E _ "webhook_url" VNull); [|compute_done].
Qed.

Lemma run_in_process_stopBot (botId : val) (w : World) :
  exists w1,
    SimpleBotRunner.stopBot E botId w =
    (Ok {[ "success" := VBool true ]},
     after_query E
       (UpdateBot (Bot.regular_fields E
                     {[ "status" := VStr "stopped"; "webhook_url" := VNull ]})
          botId) w1) /\
    bots w1 = bots w /\ runningBots w1 = delete botId (runningBots w) /\
    conversations w1 = conversations w.
Proof.
  unfold SimpleBotRunner.stopBot. rewrite run_bind.
  unfold get_running at 1.
  destruct (runningBots w !! botId) as [bot|] eqn:Hbot.
  - rewrite run_bind, run_bind, run_deleteTelegramWebhook. cbv beta iota.
    unfold set_runningBots at 1. cbv beta iota.
    rewrite run_bind, run_update_stopped. cbv beta iota.
    eexists. split; [reflexivity|]. by repeat split.
  - rewrite run_bind. cbn [mret M_ret]. cbv beta iota.
    rewrite run_bind, run_update_stopped. cbv beta iota.
    exists w. split; [reflexivity|]. repeat split. by rewrite delete_id.
Qed.

(** [stopBot] of the in-process runner does not depend on Telegram: whether
    or not the bot is registered and whether or not Telegram can be reached,
    as long as the store answers it returns [success], the bot is no longer
    registered, the other registrations and the conversations are untouched,
    and the bot's record, if there is one, says [stopped] with no webhook
    address.  (A failure of the store itself is outside [query] as it is
    modelled here.) *)
Theorem in_process_stopBot_succeeds_without_telegram (botId : val) (w : World) :
  let r := SimpleBotRunner.stopBot E botId w in
  r.1 = Ok {[ "success" := VBool true ]} /\
  runningBots r.2 = delete botId (runningBots w) /\
  conversations r.2 = conversations w /\
  (forall bot, stored_bot botId r.2 = Some bot ->
     get bot "status" = VStr "stopped" /\ get bot "webhook_url" = VNull).
Proof.
  cbn zeta. destruct (run_in_process_stopBot botId w) as (w1 & -> & Hb & Hr & Hc).
  cbn [fst snd]. split; [done|]. split; [done|]. split; [done|].
  intros bot' Hbot. by apply stopped_after_update in Hbot.
Qed.

Lemma run_command
    (botId chatId : val) (bot : running_bot) (message : tg_message)
    (text : string) (w : World) :
  runningBots w !! botId = Some bot ->
  msg_chat message = Some chatId ->
  or_else (msg_text message) (VStr "") = VStr text ->
  text = "/start" \/ text = "/help" ->
  exists answer,
    SimpleBotRunner.handleTelegramUpdate E botId
      (Some {| upd_message := Some message |}) w
    = (Ok tt,
       after_request (TelegramSendMessage (to_str (rb_token bot)) chatId answer) w).
Proof.
  intros Hbot Hchat Htext Hcommand.
  unfold SimpleBotRunner.handleTelegramUpdate. rewrite run_bind.
  unfold get_running at 1. rewrite Hbot. cbn [upd_message]. rewrite Hchat, Htext.
  destruct Hcommand as [-> | ->].
  - rewrite bool_decide_eq_true_2 by done. rewrite run_sendTelegramMessage.
    by eexists.
  - rewrite bool_decide_eq_false_2 by done.
    rewrite bool_decide_eq_true_2 by done. rewrite run_sendTelegramMessage.
    by eexists.
Qed.

(** The commands [/start] and [/help] are answered with one Telegram message
    and nothing else: the AI provider is not called, nothing is added to the
    conversation, and no record changes. *)
Theorem commands_are_answered_without_the_ai
    (botId chatId : val) (bot : running_bot) (message : tg_message)
    (text : string) (w : World) :
  runningBots w !! botId = Some bot ->
  msg_chat message = Some chatId ->
  or_else (msg_text message) (VStr "") = VStr text ->
  text = "/start" \/ text = "/help" ->
  let r := SimpleBotRunner.handleTelegramUpdate E botId
             (Some {| upd_message := Some message |}) w in
  r.1 = Ok tt /\
  (exists answer,
     net r.2 = net w ++ [TelegramSendMessage (to_str (rb_token bot)) chatId answer]) /\
  same_records w r.2 /\ sql r.2 = sql w.
Proof.
  intros Hbot Hchat Htext Hcommand. cbn zeta.
  destruct (run_command botId chatId bot message text w Hbot Hchat Htext Hcommand)
    as [answer ->].
  split; [done|]. split; [by exists answer|]. by repeat split.
Qed.

End RunnerFacts.

Lemma commands_are_answered_without_the_ai_witness :
  let r := SimpleBotRunner.handleTelegramUpdate Example.env (VStr "bot-0")
             (Example.text_message "/help") Example.in_process in
  r.1 = Ok tt /\
  (exists answer,
     net r.2 = net Example.in_process
               ++ [TelegramSendMessage "123456:telegram-token" (VNum 42) answer]) /\
  same_records Example.in_process r.2 /\ sql r.2 = sql Example.in_process.
Proof.
  apply (commands_are_answered_without_the_ai Example.env (VStr "bot-0") (VNum 42)
           {| rb_token := VStr "123456:telegram-token";
              rb_openaiKey := VStr "sk-openai-key";
              rb_model := VStr "gpt-4o"; rb_systemPrompt := VUndef |}
           {| msg_chat := Some (VNum 42); msg_text := VStr "/help";
              msg_username := VStr "alice"; msg_first_name := VUndef |}
           "/help" Example.in_process).
  - reflexivity.
  - reflexivity.
  - reflexivity.
  - by right.
Defined.

(* ===================================================================== *)
(** * Relations that the controller preserves *)
(* ===================================================================== *)

Section Preserves.
Context (E : Env) (R : World -> World -> Prop) `{!PreOrder R}.

Lemma preserves_ret {A : Type} (a : A) : preserves R (mret a : M A).
Proof. by intros w. Qed.

Lemma preserves_throw {A : Type} (e : error) : preserves R (throw e : M A).
Proof. by intros w. Qed.

Lemma preserves_bind {A B : Type} (m : M A) (f : A -> M B) :
  preserves R m -> (forall a, preserves R (f a)) -> preserves R (m ≫= f).
Proof.
  intros Hm Hf w. rewrite run_bind. specialize (Hm w).
  destruct (m w) as [[a|e] w']; cbn in *; [|done].
  by etransitivity; [|apply Hf].
Qed.

Lemma preserves_try_catch {A : Type} (body : M A) (handler : error -> M A) :
  preserves R body -> (forall e, preserves R (handler e)) ->
  preserves R (try_catch body handler).
Proof.
  intros Hb Hh w. unfold try_catch. specialize (Hb w).
  destruct (body w) as [[a|e] w']; cbn in *; [done|].
  by etransitivity; [|apply Hh].
Qed.

(** The relation is assumed of the two reads and of [update]; it then holds
    of everything the mock backend and the handlers build from them. *)
Context (Hselect : forall id, preserves R (query E (SelectBotById id)))
        (Hlist : forall userId, preserves R (query E (SelectBotsByUser userId)))
        (Hupdate : forall id updates, preserves R (Bot.update E id updates)).

Ltac preserve_step :=
  lazymatch goal with
  | |- preserves _ (mret _) => apply preserves_ret
  | |- preserves _ (throw _) => apply preserves_throw
  | |- preserves _ (_ ≫= _) => apply preserves_bind
  | |- preserves _ (try_catch _ _) => apply preserves_try_catch
  | |- preserves _ (query _ (SelectBotById _)) => apply Hselect
  | |- preserves _ (Bot.findByUser _ _) => apply Hlist
  | |- preserves _ (Bot.update _ _ _) => apply Hupdate
  | |- preserves _ (match ?x with _ => _ end) => destruct x
  | |- forall _, _ => intros
  end.

Lemma preserves_findById (id : val) : preserves R (Bot.findById E id).
Proof. unfold Bot.findById. repeat preserve_step. Qed.

Lemma preserves_mock_startBot (botId : val) :
  preserves R (MockProvisioner.startBot E botId).
Proof.
  unfold MockProvisioner.startBot.
  apply preserves_bind; [apply preserves_findById|]. repeat preserve_step.
Qed.

Lemma preserves_mock_stopBot (botId : val) :
  preserves R (MockProvisioner.stopBot E botId).
Proof. unfold MockProvisioner.stopBot. repeat preserve_step. Qed.

Lemma preserves_mock_getBotStatus (botId : val) :
  preserves R (MockRuntime.getBotStatus E botId).
Proof.
  unfold MockRuntime.getBotStatus.
  apply preserves_bind; [apply preserves_findById|]. repeat preserve_step.
Qed.

Lemma preserves_owned_bot (req : http_request) :
  preserves R (botHandlers.owned_bot E req).
Proof.
  unfold botHandlers.owned_bot.
  apply preserves_bind; [apply preserves_findById|]. repeat preserve_step.
Qed.

Lemma preserves_enhance (bots : list row) :
  preserves R (botHandlers.enhance E bots).
Proof.
  induction bots as [|bot bots IH]; cbn [botHandlers.enhance].
  - apply preserves_ret.
  - apply preserves_bind.
    + apply preserves_try_catch; [apply preserves_mock_getBotStatus|].
      intros; apply preserves_ret.
    + intros runtime. apply preserves_bind; [done|]. intros; apply preserves_ret.
Qed.

Lemma preserves_listBots (req : http_request) :
  preserves R (botHandlers.listBots E req).
Proof.
  unfold botHandlers.listBots. apply preserves_bind; [apply Hlist|].
  intros bots. apply preserves_bind; [apply preserves_enhance|].
  intros; apply preserves_ret.
Qed.

Lemma preserves_getBot (req : http_request) :
  preserves R (botHandlers.getBot E req).
Proof.
  unfold botHandlers.getBot. apply preserves_bind; [apply preserves_owned_bot|].
  intros bot. apply preserves_bind; [apply preserves_mock_getBotStatus|].
  intros; apply preserves_ret.
Qed.

Lemma preserves_getBotStatus (req : http_request) :
  preserves R (botHandlers.getBotStatus E req).
Proof.
  unfold botHandlers.getBotStatus.
  apply preserves_bind; [apply preserves_owned_bot|].
  intros bot. apply preserves_bind; [apply preserves_mock_getBotStatus|].
  intros; apply preserves_ret.
Qed.

Lemma preserves_getBotLogs (limit : val) (req : http_request) :
  preserves R (botHandlers.getBotLogs E limit req).
Proof.
  unfold botHandlers.getBotLogs, MockRuntime.readLogs.
  apply preserves_bind; [apply preserves_owned_bot|]. repeat preserve_step.
Qed.

Lemma preserves_restartBot (req : http_request) :
  preserves R (botHandlers.restartBot E req).
Proof.
  unfold botHandlers.restartBot, MockRuntime.restartService.
  apply preserves_bind; [apply preserves_owned_bot|]. intros bot.
  apply preserves_try_catch; [|intros; apply preserves_throw].
  apply preserves_bind; [apply preserves_mock_startBot|]. intros result.
  apply preserves_bind; [apply preserves_findById|]. intros; apply preserves_ret.
Qed.

Lemma preserves_updateBot (req : http_request) :
  preserves R (botHandlers.updateBot E req).
Proof.
  unfold botHandlers.updateBot.
  apply preserves_bind; [apply preserves_owned_bot|]. intros bot.
  destruct (botHandlers.validate_update _) as [value|message];
    [|apply preserves_throw].
  apply preserves_bind; [apply Hupdate|]. intros _.
  apply preserves_bind.
  - destruct (_ && _); [|apply preserves_ret].
    apply preserves_try_catch; [|intros; apply preserves_ret].
    apply preserves_bind; [apply preserves_mock_stopBot|]. intros _.
    apply preserves_bind; [apply preserves_mock_startBot|].
    intros; apply preserves_ret.
  - intros _. apply preserves_bind; [apply preserves_findById|].
    intros; apply preserves_ret.
Qed.

Lemma preserves_startBot (req : http_request) :
  preserves R (botController.startBot E Mock req).
Proof.
  unfold botController.startBot, provisioner_startBot.
  apply preserves_bind; [apply preserves_findById|]. intros [bot|];
    [|apply preserves_throw].
  do 2 (case_bool_decide; [apply preserves_throw|]).
  apply preserves_try_catch; [|intros; apply preserves_throw].
  apply preserves_bind; [apply preserves_mock_startBot|]. intros result.
  apply preserves_bind; [apply preserves_findById|]. intros; apply preserves_ret.
Qed.

Lemma preserves_stopBot (req : http_request) :
  preserves R (botController.stopBot E Mock req).
Proof.
  unfold botController.stopBot, provisioner_stopBot.
  apply preserves_bind; [apply preserves_findById|]. intros [bot|];
    [|apply preserves_throw].
  do 2 (case_bool_decide; [apply preserves_throw|]).
  apply preserves_try_catch; [|intros; apply preserves_throw].
  apply preserves_bind; [apply preserves_mock_stopBot|]. intros result.
  apply preserves_bind; [apply preserves_findById|]. intros; apply preserves_ret.
Qed.

Lemma preserves_deleteBot (req : http_request) :
  (forall id, preserves R (Bot.delete E id)) ->
  preserves R (botHandlers.deleteBot E req).
Proof.
  intros Hdelete. unfold botHandlers.deleteBot, MockRuntime.deleteService.
  apply preserves_bind; [apply preserves_owned_bot|]. intros bot.
  apply preserves_bind.
  - destruct (_ || _); [|apply preserves_ret].
    apply preserves_try_catch; [|intros; apply preserves_ret].
    apply preserves_bind; [apply preserves_mock_stopBot|]. intros _.
    destruct (truthy _); repeat preserve_step.
  - intros _. apply preserves_bind; [apply Hdelete|]. intros; apply preserves_ret.
Qed.

Lemma preserves_createBot (req : http_request) :
  (forall userId, preserves R (Bot.countByUser E userId)) ->
  (forall a, preserves R (Bot.create E a)) ->
  preserves R (botController.createBot E req).
Proof.
  intros Hcount Hcreate. unfold botController.createBot.
  destruct (botController.validate _ _) as [value|message];
    [|apply preserves_throw].
  apply preserves_bind; [apply Hcount|]. intros n.
  destruct (_ <=? _)%Z; [apply preserves_throw|].
  apply preserves_bind; [apply Hcreate|]. intros [bot|]; repeat preserve_step.
Qed.

Lemma preserves_settled (h : handled) (w : World) :
  R w (botController.settled E Mock h w).
Proof.
  unfold botController.settled. generalize (unawaited h). intros l. revert w.
  induction l as [|botId l IH]; intros w; [done|].
  cbn. etransitivity; [|apply IH].
  apply (preserves_try_catch
           (_ ← provisioner_startBot E Mock botId; mret tt) (fun _ => mret tt)).
  - apply preserves_bind; [apply preserves_mock_startBot|].
    intros; apply preserves_ret.
  - intros; apply preserves_ret.
Qed.

(** A handler's answer leaves the world the handler left. *)
Lemma preserves_respond (fn : http_request -> M reply) (req : http_request)
    (w : World) :
  preserves R (fn req) -> R w (respond fn req w).2.
Proof.
  intros Hfn. unfold respond. specialize (Hfn w).
  by destruct (fn req w) as [[r|e] w'].
Qed.

Lemma preserves_asyncHandler (fn : http_request -> M handled)
    (req : http_request) (w : World) :
  preserves R (fn req) -> R w (asyncHandler fn req w).2.
Proof.
  intros Hfn. unfold asyncHandler. specialize (Hfn w).
  by destruct (fn req w) as [[r|e] w'].
Qed.

End Preserves.

(* ===================================================================== *)
(** * More properties of the controller *)
(* ===================================================================== *)

#[local] Instance nothing_sent_preorder : PreOrder nothing_sent.
Proof.
  split; [by intros w|]. unfold nothing_sent. intros w1 w2 w3 H1 H2. congruence.
Qed.

Lemma same_column_trans (k : string) (t1 t2 t3 : list row) :
  same_column k t1 t2 -> same_column k t2 t3 -> same_column k t1 t3.
Proof.
  unfold same_column. intros H12. revert t3.
  induction H12 as [|r1 r2 t1 t2 Hr _ IH]; intros t3 H23;
    inversion H23 as [|? r3 ? t3' Hr' H23']; subst; constructor.
  - congruence.
  - by apply IH.
Qed.

#[local] Instance same_column_preorder (k : string) :
  PreOrder (fun w w' => same_column k (bots w) (bots w')).
Proof.
  split; [intros w; apply same_column_refl|].
  intros w1 w2 w3. apply same_column_trans.
Qed.

Section HandlerFacts.
Context (E : Env).

Lemma query_nothing_sent (q : Sql) : preserves nothing_sent (query E q).
Proof. intros w. by rewrite run_query. Qed.

Lemma create_nothing_sent (a : Bot.create_args) :
  preserves nothing_sent (Bot.create E a).
Proof.
  intros w. unfold Bot.create, nothing_sent.
  rewrite run_bind, run_encrypt.
  destruct (match Bot.platformToken a with VStr _ => _ | _ => _ end); [|done].
  rewrite run_bind, run_encrypt.
  destruct (match Bot.aiToken a with VStr _ => _ | _ => _ end); [|done].
  by rewrite run_bind, run_query.
Qed.

Lemma update_preserves_nothing_sent (id : val) (updates : row) :
  preserves nothing_sent (Bot.update E id updates).
Proof. intros w. apply update_nothing_sent. Qed.

Lemma countByUser_nothing_sent (userId : val) :
  preserves nothing_sent (Bot.countByUser E userId).
Proof. intros w. by rewrite run_countByUser. Qed.

Lemma delete_nothing_sent (id : val) : preserves nothing_sent (Bot.delete E id).
Proof. intros w. by rewrite run_delete. Qed.

Lemma select_same_column (k : string) (q : Sql) :
  (forall table, (exec E q table).2 = table) ->
  preserves (fun w w' => same_column k (bots w) (bots w')) (query E q).
Proof.
  intros Hq w. rewrite run_query. cbn [snd after_query bots].
  rewrite Hq. apply same_column_refl.
Qed.

Lemma update_preserves_same_column (k : string) (id : val) (updates : row) :
  k ∉ Bot.allowedFields -> k <> "ai_token_encrypted" ->
  preserves (fun w w' => same_column k (bots w) (bots w')) (Bot.update E id updates).
Proof. intros Hk Hk' w. by apply update_same_column. Qed.

Create HintDb preserved.

Local Hint Resolve query_nothing_sent create_nothing_sent
  update_preserves_nothing_sent countByUser_nothing_sent delete_nothing_sent
  update_preserves_same_column : preserved.

Ltac preserved lemma :=
  first [ apply (preserves_respond _) | apply (preserves_asyncHandler _) | idtac ];
  apply lemma; first [ apply _ | intros; solve [auto with preserved] ].

(** With the mock backend, which is the one the controller is wired to, no
    request to the API makes the server send anything out: not creating a
    bot (the start it leaves running included), nor listing, reading,
    updating, starting, stopping, restarting or deleting one. *)
Theorem mock_controller_sends_nothing (req : http_request) (w : World) :
  let p := botController.provisioner in
  nothing_sent w (asyncHandler (botController.createBot E) req w).2 /\
  (forall h, nothing_sent w (botController.settled E p h w)) /\
  nothing_sent w (asyncHandler (botController.startBot E p) req w).2 /\
  nothing_sent w (asyncHandler (botController.stopBot E p) req w).2 /\
  Forall (fun h => nothing_sent w (respond h req w).2)
    (botHandlers.listBots E :: botHandlers.on_one_bot E).
Proof.
  cbn zeta. unfold botController.provisioner. split; [|split; [|split; [|split]]].
  - preserved (preserves_createBot E).
  - intros h. preserved (preserves_settled E).
  - preserved (preserves_startBot E).
  - preserved (preserves_stopBot E).
  - unfold botHandlers.on_one_bot.
    repeat (apply Forall_cons; split); [..|by apply Forall_nil].
    + preserved (preserves_listBots E).
    + preserved (preserves_getBot E).
    + preserved (preserves_updateBot E).
    + preserved (preserves_deleteBot E).
    + preserved (preserves_getBotLogs E).
    + preserved (preserves_restartBot E).
    + preserved (preserves_getBotStatus E).
Qed.

(** No request other than creating or deleting a bot changes, in any bot, a
    column that is not an allowed field of [update]: the id, the owner, the
    platform and the encrypted platform token stay what they were. *)
Theorem handlers_keep_protected_columns
    (req : http_request) (w : World) (k : string) :
  k ∉ Bot.allowedFields -> k <> "ai_token_encrypted" ->
  let p := botController.provisioner in
  let kept (w' : World) := same_column k (bots w) (bots w') in
  kept (asyncHandler (botController.startBot E p) req w).2 /\
  kept (asyncHandler (botController.stopBot E p) req w).2 /\
  Forall (fun h => kept (respond h req w).2)
    [botHandlers.listBots E; botHandlers.getBot E; botHandlers.updateBot E;
     botHandlers.restartBot E; botHandlers.getBotStatus E].
Proof.
  intros Hk Hk'. cbn zeta. unfold botController.provisioner.
  set (R := fun w w' : World => same_column k (bots w) (bots w')).
  assert (forall id, preserves R (query E (SelectBotById id))) as Hs
    by (intros; by apply select_same_column).
  assert (forall u, preserves R (query E (SelectBotsByUser u))) as Hl
    by (intros; by apply select_same_column).
  assert (forall id updates, preserves R (Bot.update E id updates)) as Hu
    by (intros; by apply update_preserves_same_column).
  split; [|split].
  - apply (preserves_asyncHandler R), (preserves_startBot E); first [apply _|done].
  - apply (preserves_asyncHandler R), (preserves_stopBot E); first [apply _|done].
  - repeat (apply Forall_cons; split); [..|by apply Forall_nil];
      apply (preserves_respond R).
    + apply (preserves_listBots E); first [apply _|done].
    + apply (preserves_getBot E); first [apply _|done].
    + apply (preserves_updateBot E); first [apply _|done].
    + apply (preserves_restartBot E); first [apply _|done].
    + apply (preserves_getBotStatus E); first [apply _|done].
Qed.

End HandlerFacts.

Lemma handlers_keep_protected_columns_witness :
  same_column "user_id" (bots Example.running)
    (bots (respond (botHandlers.updateBot Example.env) Scenario.model_request
             Example.running).2).
Proof.
  pose proof (handlers_keep_protected_columns Example.env Scenario.model_request
                Example.running "user_id") as H.
  cbn zeta in H. destruct H as (_ & _ & H).
  - compute_done.
  - done.
  - apply Forall_cons in H as [_ H]. apply Forall_cons in H as [_ H].
    by apply Forall_cons in H as [H _].
Defined.

Section OwnerFacts.
Context (E : Env).

Lemma run_owned_bot (req : http_request) (w : World) :
  botHandlers.owned_bot E req w =
  (match stored_bot (req_params_id req) w with
   | Some bot =>
       if bool_decide (get bot "user_id" ≠ req_user_id req)
       then Throw (AppError "Bot not found" 404)
       else Ok (Bot.sanitize bot)
   | None => Throw (AppError "Bot not found" 404)
   end,
   after_query E (SelectBotById (req_params_id req)) w).
Proof.
  unfold botHandlers.owned_bot. rewrite run_bind, run_findById.
  destruct (stored_bot _ w) as [bot|]; [|done]. cbn [fmap option_fmap option_map].
  rewrite get_sanitize by done. by case_bool_decide.
Qed.

Lemma run_owned_bot_stranger (req : http_request) (w : World) :
  not_owner req w ->
  botHandlers.owned_bot E req w =
  (Throw (AppError "Bot not found" 404),
   after_query E (SelectBotById (req_params_id req)) w).
Proof.
  unfold not_owner. intros Hnot. rewrite run_owned_bot.
  destruct (stored_bot _ w) as [bot|]; [|done].
  by rewrite bool_decide_eq_true_2.
Qed.

Lemma run_owned_bot_owner (req : http_request) (w : World) (bot : row) :
  stored_bot (req_params_id req) w = Some bot ->
  get bot "user_id" = req_user_id req ->
  botHandlers.owned_bot E req w =
  (Ok (Bot.sanitize bot), after_query E (SelectBotById (req_params_id req)) w).
Proof.
  intros Hbot Howner. rewrite run_owned_bot, Hbot.
  rewrite bool_decide_eq_false_2; [done|]. by intros H.
Qed.

Lemma stored_bot_id (id : val) (w : World) (bot : row) :
  stored_bot id w = Some bot -> get bot "id" = id.
Proof.
  unfold stored_bot. intros Hbot.
  assert (In bot (List.filter (where_ "id" id) (bots w))) as Hin.
  { destruct (List.filter _ _); [done|]. injection Hbot as ->. by left. }
  apply filter_In in Hin as [_ Hin]. apply where_lookup in Hin.
  unfold get. by rewrite Hin.
Qed.

Lemma respond_stranger (fn : http_request -> M reply) (k : row -> M reply)
    (req : http_request) (w : World) :
  not_owner req w ->
  fn req = (botHandlers.owned_bot E req ≫= k) ->
  turned_down (respond fn req w).1 404 "Bot not found" /\
  same_state w (respond fn req w).2.
Proof.
  intros Hnot Hfn. unfold respond.
  rewrite Hfn, run_bind, run_owned_bot_stranger by done.
  split; [done|by repeat split].
Qed.

(** A request on a bot that does not exist or that belongs to somebody else
    is answered 404 [Bot not found] by every handler that acts on one bot,
    and changes nothing: the bot is neither shown, nor updated, restarted or
    deleted. *)
Theorem foreign_bot_is_not_found (req : http_request) (w : World) :
  not_owner req w ->
  Forall (fun h => turned_down (respond h req w).1 404 "Bot not found" /\
                   same_state w (respond h req w).2)
    (botHandlers.on_one_bot E).
Proof.
  intros Hnot. unfold botHandlers.on_one_bot.
  repeat (apply Forall_cons; split); [..|by apply Forall_nil];
    by eapply respond_stranger.
Qed.

(** ** Deleting *)

Lemma stored_bot_after_update_other (id id' : val) (fields : list (string * val))
    (w : World) :
  id' <> id -> "id" ∉ fields.*1 ->
  stored_bot id' (after_query E (UpdateBot fields id) w) = stored_bot id' w.
Proof.
  intros Hne Hid. unfold stored_bot, after_query. cbn [bots exec update_where snd].
  f_equal. induction (bots w) as [|r table IH]; [done|]. cbn.
  destruct (where_ "id" id r) eqn:Hr.
  - rewrite where_assign by done.
    destruct (where_ "id" id' r) eqn:Hr'; [|done].
    by rewrite (where_other id id' r Hne Hr') in Hr.
  - destruct (where_ "id" id' r); by rewrite IH.
Qed.

Lemma stored_bot_after_delete (id id' : val) (w : World) :
  stored_bot id' (after_query E (DeleteBot id) w)
  = if decide (id' = id) then None else stored_bot id' w.
Proof.
  unfold stored_bot, after_query. cbn [bots exec snd]. case_decide as Hid.
  - subst. by rewrite filter_filter_same.
  - by rewrite filter_filter_other.
Qed.

(** The part of [deleteBot] before the row is deleted: it cannot fail, and
    leaves the table as it was or with the bot marked as stopped. *)
Lemma run_stop_before_delete (bot : row) (w : World) :
  let stop : M unit :=
    if bool_decide (get bot "status" = VStr "running")
       || truthy (get bot "railway_service_id")
    then try_catch
           (_ ← MockProvisioner.stopBot E (get bot "id");
            if truthy (get bot "railway_service_id")
            then _ ← MockRuntime.deleteService (get bot "railway_service_id");
                 mret tt
            else mret tt)
           (fun _ => mret tt)
    else mret tt in
  stop w = (Ok tt, w) \/
  stop w = (Ok tt, after_query E
                     (UpdateBot [("status", VStr "stopped")] (get bot "id")) w).
Proof.
  cbn zeta. destruct (_ || _); [|by left]. right.
  unfold try_catch, MockProvisioner.stopBot, MockRuntime.deleteService.
  rewrite !run_bind, run_update_status.
  by destruct (truthy _).
Qed.

(** The owner's [DELETE] removes the bot and nothing else: the answer is 200,
    the bot is gone, every other bot is found as before, and nothing is sent
    out.  In particular a bot that was deployed on Railway keeps its Railway
    service: the mock backend has no [deleteService], and the error that
    calling it raises is caught and dropped. *)
Theorem deleteBot_removes_the_bot_only
    (req : http_request) (w : World) (bot : row) :
  stored_bot (req_params_id req) w = Some bot ->
  get bot "user_id" = req_user_id req ->
  let r := respond (botHandlers.deleteBot E) req w in
  r.1 = {| reply_status := 200;
           reply_body := MessageBody "Bot deleted successfully" |} /\
  stored_bot (req_params_id req) r.2 = None /\
  (forall id', id' <> req_params_id req -> stored_bot id' r.2 = stored_bot id' w) /\
  net r.2 = net w.
Proof.
  intros Hbot Howner. cbn zeta.
  assert (get (Bot.sanitize bot) "id" = req_params_id req) as Hid.
  { rewrite get_sanitize by done. by apply stored_bot_id in Hbot. }
  unfold respond, botHandlers.deleteBot.
  rewrite run_bind, (run_owned_bot_owner req w bot Hbot Howner).
  rewrite run_bind.
  destruct (run_stop_before_delete (Bot.sanitize bot)
              (after_query E (SelectBotById (req_params_id req)) w)) as [-> | ->];
    rewrite run_bind, run_delete; cbn [fst snd mret M_ret].
  - split; [done|]. split; [|split; [|done]].
    + rewrite stored_bot_after_delete. by rewrite decide_True.
    + intros id' Hne. rewrite stored_bot_after_delete. by rewrite decide_False.
  - rewrite Hid. split; [done|]. split; [|split; [|done]].
    + rewrite stored_bot_after_delete. by rewrite decide_True.
    + intros id' Hne. rewrite stored_bot_after_delete, decide_False by done.
      rewrite stored_bot_after_update_other; [done|done|].
      cbn. intros Hin. by apply list_elem_of_singleton in Hin.
Qed.

(** ** Restarting *)

Lemma stored_bot_after_select (id id' : val) (w : World) :
  stored_bot id (after_query E (SelectBotById id') w) = stored_bot id w.
Proof. reflexivity. Qed.

Lemma run_mock_startBot (botId : val) (w : World) (bot : row) :
  stored_bot botId w = Some bot ->
  exists result,
    MockProvisioner.startBot E botId w =
    (Ok result,
     after_query E
       (UpdateBot (Bot.regular_fields E
                     {[ "status" := VStr "stopped"; "webhook_url" := VNull ]})
          botId)
       (after_query E (SelectBotById botId) w)) /\
    get result "port" = VUndef /\ get result "pid" = VUndef.
Proof.
  intros Hbot. unfold MockProvisioner.startBot.
  rewrite run_bind, run_findById, Hbot. cbn [fmap option_fmap option_map].
  rewrite run_bind, run_update_stopped. by eexists.
Qed.

(** With the backend the controller is wired to, restarting a bot stops it:
    the owner's request is answered 200 [Bot restarted successfully], with
    no port and no pid, and the bot it shows and leaves in the store has the
    status [stopped] and no webhook address, whatever its status was. *)
Theorem restartBot_leaves_the_bot_stopped
    (req : http_request) (w : World) (bot : row) :
  stored_bot (req_params_id req) w = Some bot ->
  get bot "user_id" = req_user_id req ->
  let r := respond (botHandlers.restartBot E) req w in
  exists shown stored,
    r.1 = {| reply_status := 200;
             reply_body :=
               MessageBotRuntimeBody "Bot restarted successfully" (Some shown)
                 {[ "port" := VUndef; "pid" := VUndef ]} |} /\
    stored_bot (req_params_id req) r.2 = Some stored /\
    shown = Bot.sanitize stored /\
    get stored "status" = VStr "stopped" /\ get stored "webhook_url" = VNull.
Proof.
  intros Hbot Howner. cbn zeta.
  assert (get (Bot.sanitize bot) "id" = req_params_id req) as Hid.
  { rewrite get_sanitize by done. by apply stored_bot_id in Hbot. }
  unfold respond, botHandlers.restartBot, MockRuntime.restartService.
  rewrite run_bind, (run_owned_bot_owner req w bot Hbot Howner).
  unfold try_catch. rewrite Hid, run_bind.
  destruct (run_mock_startBot (req_params_id req)
              (after_query E (SelectBotById (req_params_id req)) w) bot Hbot)
    as (result & -> & -> & ->).
  rewrite run_bind, run_findById. cbn [fst snd mret M_ret].
  rewrite !stored_bot_after_select.
  rewrite stored_bot_after_update by apply regular_fields_no_id.
  rewrite !stored_bot_after_select, Hbot. cbn [fmap option_fmap option_map].
  eexists _, _. split; [reflexivity|]. split; [reflexivity|]. split; [done|].
  apply (stopped_after_update E (req_params_id req) w).
  rewrite stored_bot_after_update by apply regular_fields_no_id. by rewrite Hbot.
Qed.

(** ** Listing *)

Lemma run_mock_getBotStatus (botId : val) (w : World) :
  exists status,
    MockRuntime.getBotStatus E botId w
    = (Ok status, after_query E (SelectBotById botId) w).
Proof.
  unfold MockRuntime.getBotStatus. rewrite run_bind, run_findById.
  destruct (stored_bot botId w); by eexists.
Qed.

Lemma run_enhance (rows : list row) (w : World) :
  exists enhanced w',
    botHandlers.enhance E rows w = (Ok enhanced, w') /\
    enhanced.*1 = rows /\ same_state w w'.
Proof.
  revert w. induction rows as [|bot rows IH]; intros w.
  - exists [], w. split; [done|]. split; [done|]. apply same_state_refl.
  - cbn [botHandlers.enhance]. rewrite run_bind. unfold try_catch.
    destruct (run_mock_getBotStatus (get bot "id") w) as [status ->].
    rewrite run_bind.
    destruct (IH (after_query E (SelectBotById (get bot "id")) w))
      as (enhanced & w' & -> & Hrows & Hsame).
    eexists _, w'. split; [done|]. split; [by cbn; rewrite Hrows|].
    eapply same_state_trans; [|done]. apply select_same_state.
Qed.

(** [GET /api/bots] shows the requester's bots and no others: it is answered
    200 with as many bots as the user owns, each carrying the requester's id
    and none carrying a credential, and it changes nothing. *)
Theorem listBots_shows_the_bots_of_the_requester (req : http_request) (w : World) :
  let r := respond (botHandlers.listBots E) req w in
  exists enhanced,
    r.1 = {| reply_status := 200; reply_body := BotsBody enhanced |} /\
    Z.of_nat (length enhanced) = bot_count (req_user_id req) w /\
    Forall (fun bot : row =>
              bot !! "user_id" = Some (req_user_id req) /\ no_credentials bot)
      enhanced.*1 /\
    same_state w r.2.
Proof.
  cbn zeta. unfold respond, botHandlers.listBots.
  rewrite run_bind. unfold Bot.findByUser. rewrite run_query. cbn [fst exec].
  rewrite run_bind.
  match goal with |- context [botHandlers.enhance E ?rows ?w1] =>
    destruct (run_enhance rows w1) as (enhanced & w' & -> & Hrows & Hsame)
  end.
  exists enhanced. cbn [fst snd mret M_ret]. split; [done|]. split; [|split].
  - rewrite <- (length_fmap fst), Hrows, length_fmap, length_order_by. done.
  - rewrite Hrows. apply Forall_fmap, Forall_order_by, Forall_forall.
    intros bot Hin. apply list_elem_of_In, filter_In in Hin as [_ Hin]. cbn.
    split; [|apply project_no_credentials].
    rewrite project_lookup by compute_done. by apply where_lookup.
  - eapply same_state_trans; [|done]. by repeat split.
Qed.

End OwnerFacts.

Lemma foreign_bot_is_not_found_witness :
  Forall (fun h =>
            turned_down (respond h Scenario.stranger_request Example.one_bot).1
              404 "Bot not found" /\
            same_state Example.one_bot
              (respond h Scenario.stranger_request Example.one_bot).2)
    (botHandlers.on_one_bot Example.env).
Proof.
  apply (foreign_bot_is_not_found Example.env Scenario.stranger_request
           Example.one_bot).
  unfold not_owner.
  change (stored_bot (req_params_id Scenario.stranger_request) Example.one_bot)
    with (Some (Example.bot_0 Example.one_bot)).
  cbv beta iota.
  change (get (Example.bot_0 Example.one_bot) "user_id") with (VStr "user-1").
  discriminate.
Defined.

Lemma deleteBot_removes_the_bot_only_witness :
  let r := respond (botHandlers.deleteBot Example.env) Example.owner_request
             Example.deployed in
  r.1 = {| reply_status := 200;
           reply_body := MessageBody "Bot deleted successfully" |} /\
  stored_bot (VStr "bot-0") r.2 = None /\
  (forall id', id' <> VStr "bot-0" ->
     stored_bot id' r.2 = stored_bot id' Example.deployed) /\
  net r.2 = net Example.deployed.
Proof.
  apply (deleteBot_removes_the_bot_only Example.env Example.owner_request
           Example.deployed (Example.bot_0 Example.deployed)).
  - reflexivity.
  - reflexivity.
Defined.

Lemma restartBot_leaves_the_bot_stopped_witness :
  let r := respond (botHandlers.restartBot Example.env) Example.owner_request
             Example.running in
  exists shown stored,
    r.1 = {| reply_status := 200;
             reply_body :=
               MessageBotRuntimeBody "Bot restarted successfully" (Some shown)
                 {[ "port" := VUndef; "pid" := VUndef ]} |} /\
    stored_bot (VStr "bot-0") r.2 = Some stored /\
    shown = Bot.sanitize stored /\
    get stored "status" = VStr "stopped" /\ get stored "webhook_url" = VNull.
Proof.
  apply (restartBot_leaves_the_bot_stopped Example.env Example.owner_request
           Example.running (Example.bot_0 Example.running)).
  - reflexivity.
  - reflexivity.
Defined.

(* ===================================================================== *)
(** * Rotating a credential, and talking to a failing AI provider *)
(* ===================================================================== *)

Section TokenFacts.
Context (E : Env).

(** When the cipher works under the configured key (it seals, and opens
    what it sealed), [update] with an [ai_token] that is well-formed text
    stores the token encrypted and nowhere in clear: the bot's
    [ai_token_encrypted] becomes a blob that decrypts to the token given, no
    [ai_token] column is written, and the encrypted platform token is not
    touched. *)
Theorem update_rotates_the_ai_token
    (id : val) (updates : row) (w : World) (bot : row) (s : string) :
  Vault.aead_correct (cipher E) (key E) ->
  length (randomBytes E (draws w)) = 16%nat ->
  stored_bot id w = Some bot ->
  get updates "ai_token" = VStr s -> s <> "" -> utf8_text s ->
  exists bot' blob,
    stored_bot id (Bot.update E id updates w).2 = Some bot' /\
    bot' !! "ai_token_encrypted" = Some (VStr blob) /\
    Vault.decrypt (cipher E) (key E) blob = Ok (to_js s) /\
    bot' !! "ai_token" = bot !! "ai_token" /\
    bot' !! "platform_token_encrypted" = bot !! "platform_token_encrypted".
Proof.
  intros Hc Hiv Hbot Htoken Hs Htext.
  destruct (encrypt_then_decrypt E s (draws w) Hc Hiv Htext) as (blob & Henc & Hdec).
  unfold Bot.update. rewrite Htoken. cbn [truthy].
  rewrite bool_decide_eq_false_2 by done. cbn [negb].
  rewrite !run_bind, run_encrypt, Henc. cbn [mret M_ret].
  rewrite bool_decide_eq_false_2 by (rewrite length_app; cbn; lia).
  rewrite run_bind, run_query. cbn [snd mret M_ret].
  assert ("id" ∉ (Bot.regular_fields E updates
                    ++ [("ai_token_encrypted", VStr blob)]).*1) as Hid.
  { rewrite fmap_app. intros [Hin|Hin]%elem_of_app.
    - by apply regular_fields_no_id in Hin.
    - cbn in Hin. by apply list_elem_of_singleton in Hin. }
  rewrite stored_bot_after_update by done.
  change (stored_bot id (after_draw w)) with (stored_bot id w). rewrite Hbot.
  eexists _, blob. split; [reflexivity|]. rewrite assign_snoc.
  split; [apply lookup_insert_eq|]. split; [done|].
  assert ("ai_token" ∉ Bot.allowedFields) as Ht by compute_done.
  assert ("platform_token_encrypted" ∉ Bot.allowedFields) as Hp by compute_done.
  split; rewrite lookup_insert_ne by done; apply assign_other;
    intros Hin; by apply regular_fields_keys in Hin.
Qed.

End TokenFacts.

Lemma update_rotates_the_ai_token_witness :
  exists bot' blob,
    stored_bot (VStr "bot-0")
      (Bot.update Example.env (VStr "bot-0") {[ "ai_token" := VStr "sk-new-key" ]}
         Example.one_bot).2 = Some bot' /\
    bot' !! "ai_token_encrypted" = Some (VStr blob) /\
    Vault.decrypt (cipher Example.env) (key Example.env) blob
    = Ok (to_js "sk-new-key") /\
    bot' !! "ai_token" = Example.bot_0 Example.one_bot !! "ai_token" /\
    bot' !! "platform_token_encrypted"
    = Example.bot_0 Example.one_bot !! "platform_token_encrypted".
Proof.
  apply (update_rotates_the_ai_token Example.env (VStr "bot-0")
           {[ "ai_token" := VStr "sk-new-key" ]} Example.one_bot
           (Example.bot_0 Example.one_bot) "sk-new-key").
  - apply VaultFacts.checksum_cipher_correct. reflexivity.
  - reflexivity.
  - reflexivity.
  - reflexivity.
  - discriminate.
  - split; reflexivity.
Defined.

Section FailingProvider.
Context (E : Env).

Lemma last_drop_1 {A : Type} (l : list A) :
  (1 < length l)%nat -> last (drop 1 l) = last l.
Proof. destruct l as [|x [|y l]]; cbn; intros; [lia..|done]. Qed.

(** The conversation once the user's turn has been recorded. *)
Lemma recorded_turn (convs : gmap string (list turn)) (convKey : string) (t : turn) :
  let pushed := <[convKey := default [] (convs !! convKey) ++ [t]]> convs in
  let history := default [] (pushed !! convKey) in
  exists kept,
    (if bool_decide (10 < length history)%nat
     then <[convKey := drop 1 history]> pushed else pushed) !! convKey = Some kept /\
    last kept = Some t.
Proof.
  cbn zeta. rewrite lookup_insert_eq. cbn [default from_option].
  case_bool_decide as Hlen.
  - rewrite lookup_insert_eq. eexists. split; [done|].
    rewrite last_drop_1 by lia. apply last_snoc.
  - rewrite lookup_insert_eq. eexists. split; [done|]. apply last_snoc.
Qed.

Lemma run_reply_with_ai_failing (botId : val) (bot : running_bot) (chatId : val)
    (convKey : string) (w : World) :
  ai_fails E ->
  exists call apology,
    apology ∈ apologies /\
    SimpleBotRunner.reply_with_ai E botId bot chatId convKey w
    = (Ok tt,
       after_request (TelegramSendMessage (to_str (rb_token bot)) chatId apology)
         (after_request call w)).
Proof.
  intros Hfails. unfold SimpleBotRunner.reply_with_ai, try_catch.
  rewrite run_bind. unfold get_conversation at 1. rewrite run_bind, run_request.
  match goal with
  | |- context [answer E (net w) (OpenAIChatCompletion ?k ?m ?ms)] =>
      exists (OpenAIChatCompletion k m ms);
      destruct (Hfails (net w) k m ms) as [Hr|He]
  end.
  - rewrite Hr. rewrite run_sendTelegramMessage. eexists.
    split; [|done]. set_solver.
  - destruct (rejects _).
    + rewrite run_sendTelegramMessage. eexists. split; [|done]. set_solver.
    + rewrite He. rewrite run_sendTelegramMessage. eexists.
      split; [|done]. set_solver.
Qed.

(** Recording the user's turn and asking a provider that fails. *)
Lemma run_record_and_reply_failing (botId : val) (bot : running_bot)
    (chatId : val) (convKey : string) (t : turn) (w : World) :
  ai_fails E ->
  let pushed := <[convKey := default [] (conversations w !! convKey) ++ [t]]>
                  (conversations w) in
  let history := default [] (pushed !! convKey) in
  let kept := if bool_decide (10 < length history)%nat
              then <[convKey := drop 1 history]> pushed else pushed in
  exists call apology,
    apology ∈ apologies /\
    (_ ← SimpleBotRunner.history_push convKey t;
     _ ← SimpleBotRunner.history_trim convKey;
     SimpleBotRunner.reply_with_ai E botId bot chatId convKey) w
    = (Ok tt,
       after_request (TelegramSendMessage (to_str (rb_token bot)) chatId apology)
         (after_request call
            {| bots := bots w; sql := sql w; net := net w;
               runningBots := runningBots w; conversations := kept;
               draws := draws w |})).
Proof.
  intros Hfails. cbn zeta.
  rewrite run_bind. unfold SimpleBotRunner.history_push, set_conversations at 1.
  cbv beta iota.
  rewrite run_bind. unfold SimpleBotRunner.history_trim, set_conversations at 1.
  cbv beta iota. cbn [conversations].
  match goal with |- context [SimpleBotRunner.reply_with_ai E _ _ _ _ ?w1] =>
    destruct (run_reply_with_ai_failing botId bot chatId convKey w1 Hfails)
      as (call & apology & Hap & ->)
  end.
  by exists call, apology.
Qed.

(** When the AI provider cannot be reached or answers with an error, a text
    message to a running bot is answered with one of the two apologies: the
    provider was asked once, the conversation ends with the user's turn and
    holds no reply to it, and neither a record nor the message counter
    changes. *)
Theorem failing_provider_is_apologised_for
    (botId chatId : val) (bot : running_bot) (message : tg_message)
    (text : string) (w : World) :
  ai_fails E ->
  runningBots w !! botId = Some bot ->
  msg_chat message = Some chatId ->
  or_else (msg_text message) (VStr "") = VStr text ->
  text <> "/start" -> text <> "/help" ->
  let r := SimpleBotRunner.handleTelegramUpdate E botId
             (Some {| upd_message := Some message |}) w in
  r.1 = Ok tt /\
  (exists call apology,
     apology ∈ apologies /\
     net r.2 = net w ++ [call; TelegramSendMessage (to_str (rb_token bot))
                                 chatId apology]) /\
  (exists history,
     conversations r.2 !! (to_str botId +:+ "-" +:+ to_str chatId) = Some history /\
     last history = Some {| role := "user"; content := VStr text |}) /\
  bots r.2 = bots w /\ sql r.2 = sql w.
Proof.
  intros Hfails Hbot Hchat Htext Hstart Hhelp. cbn zeta.
  set (convKey := to_str botId +:+ "-" +:+ to_str chatId).
  set (t := {| role := "user"; content := VStr text |}).
  assert (exists w0 call apology,
    apology ∈ apologies /\ bots w0 = bots w /\ sql w0 = sql w /\ net w0 = net w /\
    SimpleBotRunner.handleTelegramUpdate E botId
      (Some {| upd_message := Some message |}) w
    = (Ok tt,
       after_request (TelegramSendMessage (to_str (rb_token bot)) chatId apology)
         (after_request call
            {| bots := bots w0; sql := sql w0; net := net w0;
               runningBots := runningBots w0;
               conversations :=
                 (let pushed :=
                    <[convKey := default [] (conversations w0 !! convKey) ++ [t]]>
                      (conversations w0) in
                  let history := default [] (pushed !! convKey) in
                  if bool_decide (10 < length history)%nat
                  then <[convKey := drop 1 history]> pushed else pushed);
               draws := draws w0 |}))) as (w0 & call & apology & Hap & Hb & Hs & Hn & ->).
  { unfold SimpleBotRunner.handleTelegramUpdate. rewrite run_bind.
    unfold get_running at 1. rewrite Hbot. cbn [upd_message].
    rewrite Hchat, Htext. rewrite !bool_decide_eq_false_2 by done.
    fold convKey. fold t. rewrite run_bind. unfold get_conversation at 1.
    destruct (conversations w !! convKey) eqn:Hconv.
    - rewrite run_bind. cbn [mret M_ret].
      destruct (run_record_and_reply_failing botId bot chatId convKey t w Hfails)
        as (call & apology & Hap & ->).
      by exists w, call, apology.
    - rewrite run_bind. unfold set_conversations at 1.
      match goal with |- context [(_ ≫= _) ?w1 = _] =>
        destruct (run_record_and_reply_failing botId bot chatId convKey t w1 Hfails)
          as (call & apology & Hap & ->); by exists w1, call, apology
      end. }
  cbn [fst snd net bots sql conversations after_request].
  split; [done|]. split; [|split; [|done]].
  - exists call, apology. split; [done|]. rewrite Hn. by rewrite <- app_assoc.
  - apply recorded_turn.
Qed.

End FailingProvider.

Lemma failing_provider_is_apologised_for_witness :
  let r := SimpleBotRunner.handleTelegramUpdate Scenario.ai_down (VStr "bot-0")
             (Example.text_message "bonjour") Example.in_process in
  r.1 = Ok tt /\
  (exists call apology,
     apology ∈ apologies /\
     net r.2 = net Example.in_process
               ++ [call; TelegramSendMessage "123456:telegram-token" (VNum 42)
                           apology]) /\
  (exists history,
     conversations r.2 !! "bot-0-42" = Some history /\
     last history = Some {| role := "user"; content := VStr "bonjour" |}) /\
  bots r.2 = bots Example.in_process /\ sql r.2 = sql Example.in_process.
Proof.
  apply (failing_provider_is_apologised_for Scenario.ai_down (VStr "bot-0")
           (VNum 42)
           {| rb_token := VStr "123456:telegram-token";
              rb_openaiKey := VStr "sk-openai-key";
              rb_model := VStr "gpt-4o"; rb_systemPrompt := VUndef |}
           {| msg_chat := Some (VNum 42); msg_text := VStr "bonjour";
              msg_username := VStr "alice"; msg_first_name := VUndef |}
           "bonjour" Example.in_process).
  - intros sent apiKey model messages. by right.
  - reflexivity.
  - reflexivity.
  - reflexivity.
  - discriminate.
  - discriminate.
Defined.

(* ===================================================================== *)
(** * Updating and creating through the controller *)
(* ===================================================================== *)

Section UpdateBotFacts.
Context (E : Env).

Lemma check_plain_string (label : string) (v : val) :
  botController.check_string label botController.plain v = None ->
  v = VUndef \/ exists s, s <> "" /\ v = VStr s.
Proof.
  unfold botController.check_string. destruct v as [| | | |s]; try done.
  - by left.
  - cbn. case_bool_decide as Hs; [done|]. right. by exists s.
Qed.

Lemma validate_update_inv (body value : row) :
  botHandlers.validate_update body = Ok value ->
  value = body /\
  (get body "aiToken" = VUndef \/ exists s, s <> "" /\ get body "aiToken" = VStr s).
Proof.
  unfold botHandlers.validate_update.
  destruct (omap _ botHandlers.updateBotSchema) as [|m ms] eqn:Hchecks; [|done].
  cbn [app]. destruct (option_list _); [|done].
  destruct (List.filter _ _); [|done]. intros [= <-]. split; [done|].
  apply (check_plain_string "aiToken").
  apply (omap_nil_inv _ _ ("aiToken", botController.plain) Hchecks).
  unfold botHandlers.updateBotSchema.
  do 2 apply list_elem_of_further. apply list_elem_of_here.
Qed.

Lemma get_set_if (cond : bool) (k k' : string) (v : val) (updates : row) :
  get (botHandlers.set_if cond k v updates) k'
  = if cond && bool_decide (k = k') then v else get updates k'.
Proof.
  unfold botHandlers.set_if, get. destruct cond; [|done]. cbn.
  case_bool_decide as Hk.
  - subst. by rewrite lookup_insert_eq.
  - by rewrite lookup_insert_ne.
Qed.

Lemma updates_of_ai_token (value : row) :
  get (botHandlers.updates_of value) "ai_token"
  = if truthy (get value "aiToken") then get value "aiToken" else VUndef.
Proof.
  unfold botHandlers.updates_of. rewrite !get_set_if.
  rewrite !bool_decide_eq_false_2 by done. rewrite !andb_false_r.
  rewrite bool_decide_eq_true_2 by done. rewrite andb_true_r.
  by destruct (truthy (get value "aiToken")).
Qed.

(** [update] returns when the token it is given, if any, is a string the
    cipher accepts. *)
Lemma update_returns (id : val) (updates : row) (w : World) :
  Vault.aead_correct (cipher E) (key E) ->
  (forall n, length (randomBytes E n) = 16%nat) ->
  (truthy (get updates "ai_token") = false
   \/ exists s, get updates "ai_token" = VStr s) ->
  exists found, (Bot.update E id updates w).1 = Ok found.
Proof.
  intros Hc Hiv Htoken. unfold Bot.update. rewrite run_bind.
  destruct (truthy (get updates "ai_token")) eqn:Ht.
  - destruct Htoken as [?|[s Hs]]; [done|]. rewrite Hs.
    rewrite run_bind. destruct (encrypt_succeeds E s w Hc Hiv) as [blob ->].
    cbn [mret M_ret]. case_bool_decide; [by eexists|].
    rewrite run_bind, run_query. by eexists.
  - cbn [mret M_ret]. case_bool_decide; [by eexists|].
    rewrite run_bind, run_query. by eexists.
Qed.

Lemma stored_bot_after_draw (id : val) (w : World) :
  stored_bot id (after_draw w) = stored_bot id w.
Proof. reflexivity. Qed.

(** [update] does not lose the bot. *)
Lemma update_keeps_the_bot (id : val) (updates : row) (w : World) (bot : row) :
  stored_bot id w = Some bot ->
  exists bot', stored_bot id (Bot.update E id updates w).2 = Some bot'.
Proof.
  intros Hbot.
  destruct (run_update E id updates w) as (w0 & Hw0 & [-> | (fields & Hf & ->)]).
  - destruct Hw0 as [-> | ->]; by eexists.
  - rewrite stored_bot_after_update.
    + assert (stored_bot id w0 = Some bot) as -> by (by destruct Hw0 as [-> | ->]).
      by eexists.
    + intros Hin. destruct (Hf "id" Hin) as [Hin'|]; [|done].
      by apply id_not_allowed in Hin'.
Qed.

(** With the backend the controller is wired to, and a cipher that works
    under the configured key (it seals, and opens what it sealed), changing
    the AI settings of a running bot stops it: the owner's request is
    answered 200 [Bot updated and restarted with new AI config], and the bot
    it shows and leaves in the store has the status [stopped]. *)
Theorem updateBot_of_a_running_bot_stops_it
    (req : http_request) (w : World) (bot value : row) :
  Vault.aead_correct (cipher E) (key E) ->
  (forall n, length (randomBytes E n) = 16%nat) ->
  stored_bot (req_params_id req) w = Some bot ->
  get bot "user_id" = req_user_id req ->
  get bot "status" = VStr "running" ->
  botHandlers.validate_update (req_body req) = Ok value ->
  truthy (get value "aiToken") || truthy (get value "aiProvider")
    || truthy (get value "aiModel") = true ->
  let r := respond (botHandlers.updateBot E) req w in
  exists stored,
    r.1 = {| reply_status := 200;
             reply_body :=
               MessageBotBody "Bot updated and restarted with new AI config"
                 (Some (Bot.sanitize stored)) |} /\
    stored_bot (req_params_id req) r.2 = Some stored /\
    get stored "status" = VStr "stopped".
Proof.
  intros Hc Hiv Hbot Howner Hrunning Hvalid Hai. cbn zeta.
  destruct (validate_update_inv _ _ Hvalid) as [-> Htoken].
  set (id := req_params_id req) in *.
  assert (get (Bot.sanitize bot) "id" = id) as Hid.
  { rewrite get_sanitize by done. by apply stored_bot_id in Hbot. }
  unfold respond, botHandlers.updateBot.
  rewrite run_bind, (run_owned_bot_owner E req w bot Hbot Howner).
  rewrite Hvalid. rewrite run_bind. fold id.
  set (w1 := after_query E (SelectBotById id) w).
  set (updates := botHandlers.updates_of (req_body req)).
  destruct (update_returns id updates w1 Hc Hiv) as [found Hfound].
  { unfold updates. rewrite updates_of_ai_token.
    destruct Htoken as [->|(s & Hs & ->)]; [by left|].
    right. exists s. cbn. by rewrite bool_decide_eq_false_2. }
  destruct (update_keeps_the_bot id updates w1 bot Hbot) as [bot1 Hbot1].
  destruct (Bot.update E id updates w1) as [o w2]. cbn [fst snd] in *. subst o.
  rewrite get_sanitize, Hrunning by done.
  rewrite Hai, bool_decide_eq_true_2 by done. cbn [andb].
  rewrite run_bind. unfold try_catch. rewrite Hid.
  rewrite run_bind. unfold MockProvisioner.stopBot.
  rewrite run_bind, run_update_status. cbv beta iota. cbn [mret M_ret].
  cbv beta iota. rewrite run_bind.
  set (w3 := after_query E (UpdateBot [("status", VStr "stopped")] id) w2).
  assert (exists bot3, stored_bot id w3 = Some bot3) as [bot3 Hbot3].
  { unfold w3. rewrite stored_bot_after_update.
    - rewrite Hbot1. by eexists.
    - cbn. intros Hin. by apply list_elem_of_singleton in Hin. }
  destruct (run_mock_startBot E id w3 bot3 Hbot3) as (result & -> & _).
  cbv beta iota. cbn [mret M_ret]. cbv beta iota.
  rewrite run_bind, run_findById. cbn [fst snd mret M_ret].
  rewrite stored_bot_after_update by apply regular_fields_no_id.
  rewrite stored_bot_after_select, Hbot3. cbn [fmap option_fmap option_map].
  eexists. split; [reflexivity|].
  rewrite stored_bot_after_select.
  rewrite stored_bot_after_update by apply regular_fields_no_id.
  rewrite stored_bot_after_select, Hbot3. split; [reflexivity|].
  apply (stopped_after_update E id w3).
  rewrite stored_bot_after_update by apply regular_fields_no_id. by rewrite Hbot3.
Qed.

End UpdateBotFacts.

Lemma updateBot_of_a_running_bot_stops_it_witness :
  let r := respond (botHandlers.updateBot Example.env) Scenario.model_request
             Example.running in
  exists stored,
    r.1 = {| reply_status := 200;
             reply_body :=
               MessageBotBody "Bot updated and restarted with new AI config"
                 (Some (Bot.sanitize stored)) |} /\
    stored_bot (VStr "bot-0") r.2 = Some stored /\
    get stored "status" = VStr "stopped".
Proof.
  apply (updateBot_of_a_running_bot_stops_it Example.env Scenario.model_request
           Example.running (Example.bot_0 Example.running)
           (req_body Scenario.model_request)).
  - apply VaultFacts.checksum_cipher_correct. reflexivity.
  - intros n. reflexivity.
  - reflexivity.
  - reflexivity.
  - reflexivity.
  - reflexivity.
  - reflexivity.
Defined.

Section CreateBotFacts.
Context (E : Env).

Lemma check_provider (label : string) (v : val) :
  botController.check_string label
    {| botController.rule_required := true;
       botController.rule_allow_empty := false;
       botController.rule_valid := Some AI_PROVIDERS.*1;
       botController.rule_min := None;
       botController.rule_max := None |} v = None ->
  exists provider model, v = VStr provider /\ (provider, model) ∈ AI_PROVIDERS.
Proof.
  unfold botController.check_string. destruct v as [| | | |s]; try done.
  cbn. case_bool_decide as Hs; [done|]. case_bool_decide as Hin; [done|].
  intros _.
  repeat (apply elem_of_cons in Hin as [->|Hin];
          [eexists _, _; split; [done|]; unfold AI_PROVIDERS;
           repeat first [apply list_elem_of_here | apply list_elem_of_further]|]).
  by apply elem_of_nil in Hin.
Qed.

Lemma default_model_of_provider (provider : string) (model : val) :
  (provider, model) ∈ AI_PROVIDERS ->
  or_else (botController.defaultModel
             (botController.toUpperCase (to_str (VStr provider))))
    (VStr "gpt-4o") = model.
Proof.
  unfold AI_PROVIDERS. intros Hin.
  repeat (apply elem_of_cons in Hin as [[= -> ->]|Hin]; [by vm_compute|]).
  by apply elem_of_nil in Hin.
Qed.

(** A bot created without [aiModel] gets the default model of its provider
    ([gpt-4o] for OPENAI, [claude-3-5-sonnet-latest] for ANTHROPIC,
    [openai/gpt-4o] for OPENROUTER); a model that is given is kept. *)
Theorem createBot_fills_in_the_default_model (req : http_request) (w : World) :
  Vault.aead_correct (cipher E) (key E) ->
  (forall n, length (randomBytes E n) = 16%nat) ->
  valid_request req ->
  (bot_count (req_user_id req) w < req_user_maxBots req)%Z ->
  let r := asyncHandler (botController.createBot E) req w in
  exists (stored : row) (provider : string) (model : val),
    stored ∈ bots r.2 /\
    res_bot (sent r.1) = Some (Bot.sanitize stored) /\
    get (req_body req) "aiProvider" = VStr provider /\
    (provider, model) ∈ AI_PROVIDERS /\
    get stored "ai_model" = or_else (get (req_body req) "aiModel") model.
Proof.
  intros Hc Hiv [value Hvalid] Hunder. cbn zeta.
  destruct (validate_create_inv _ _ Hvalid) as (-> & [s1 Hs1] & [s2 Hs2]).
  assert (exists provider model,
            get (req_body req) "aiProvider" = VStr provider /\
            (provider, model) ∈ AI_PROVIDERS) as (provider & model & Hp & Hin).
  { apply (check_provider "aiProvider"). revert Hvalid.
    unfold botController.validate.
    destruct (omap _ botController.createBotSchema) as [|m ms] eqn:Hchecks; [|done].
    intros _.
    match goal with |- botController.check_string _ ?rule _ = None =>
      apply (omap_nil_inv _ _ ("aiProvider", rule) Hchecks)
    end.
    unfold botController.createBotSchema.
    do 3 apply list_elem_of_further. apply list_elem_of_here. }
  unfold asyncHandler, botController.createBot. rewrite Hvalid.
  rewrite run_bind, run_countByUser.
  rewrite (proj2 (Z.leb_gt _ _) Hunder).
  rewrite run_bind. unfold Bot.create. cbn [Bot.platformToken Bot.aiToken].
  rewrite Hs1, Hs2. rewrite run_bind.
  destruct (encrypt_succeeds E s1
              (after_query E (CountBotsByUser (req_user_id req)) w) Hc Hiv)
    as [blob1 ->].
  rewrite run_bind.
  destruct (encrypt_succeeds E s2
              (after_draw (after_query E (CountBotsByUser (req_user_id req)) w))
              Hc Hiv) as [blob2 ->].
  rewrite run_bind, run_query.
  cbn [exec fst snd Bot.sanitize_first head fmap option_fmap option_map mret M_ret
       sent unawaited Bot.aiModel].
  match goal with
  | |- context [new_row E ?t ?c] => set (stored := new_row E t c)
  end.
  exists stored, provider, model. split; [|split; [done|split; [done|split; [done|]]]].
  - cbn. apply elem_of_app. right. apply list_elem_of_here.
  - rewrite <- (default_model_of_provider provider model Hin), <- Hp.
    unfold get at 1, stored, new_row. rewrite lookup_insert_ne by done.
    by erewrite lookup_union_Some_l.
Qed.

End CreateBotFacts.

Lemma createBot_fills_in_the_default_model_witness :
  let r := asyncHandler (botController.createBot Example.env)
             Example.create_request Example.nothing in
  exists (stored : row) (provider : string) (model : val),
    stored ∈ bots r.2 /\
    res_bot (sent r.1) = Some (Bot.sanitize stored) /\
    get (req_body Example.create_request) "aiProvider" = VStr provider /\
    (provider, model) ∈ AI_PROVIDERS /\
    get stored "ai_model"
    = or_else (get (req_body Example.create_request) "aiModel") model.
Proof.
  apply (createBot_fills_in_the_default_model Example.env Example.create_request
           Example.nothing).
  - apply VaultFacts.checksum_cipher_correct. reflexivity.
  - intros n. reflexivity.
  - exists (req_body Example.create_request). reflexivity.
  - by vm_compute.
Defined.
